(** * rtmap.py: range-test map generator

    A shallow embedding of [src/rtmap.py] and the properties of its
    ingestion, filtering, colour-mapping and aggregation pipeline.

    Conventions of the embedding
    - A pandas [DataFrame] is a list of column names together with the
      list of its rows; a row maps column names to cells.
    - A cell is a Python scalar as [pd.read_csv] yields it: the missing
      value, an integer, a float or a text.  Infinities and booleans are
      not represented.  The dtype of a column is read off its cells: a
      column holding a text is a text column, any other column is
      numeric.  Where versions of pandas differ, the embedding follows
      pandas 3.
    - A float is the rational it stands for, and arithmetic on floats is
      exact.  Comparisons are as in the program.  The program rounds
      the results of its additions and divisions to binary64: the mean
      of a column and the table entry read for an SNR may differ from
      the exact ones in the last place, and by one entry at the boundary
      between two entries.  The statements on the centre and on the
      entry read from the gradient's table allow for that rounding.
    - Python exceptions are the [Raise] alternative of [result].
    - [print] appends to a list of lines carried next to the result.
    - Text is a sequence of 8-bit characters, and [\d] is read as an
      ASCII digit, which is what it matches in a text of ASCII
      characters.  The statements about which rows the pattern selects
      are for payloads of ASCII characters. *)

From Stdlib Require Import ZArith QArith Qround Lqa String Ascii List Lia.
From stdpp Require Import gmap strings list fin_maps.

Local Open Scope Z_scope.
Local Open Scope string_scope.

(** ** Python values and exceptions *)

Inductive cell : Type :=
  | NaN
  | PyInt (z : Z)
  | PyFloat (q : Q)
  | PyStr (s : string).

Inductive exn : Type :=
  | FileError (path : string)      (* pd.read_csv could not open or parse *)
  | KeyError (key : string)
  | AttributeError
  | TypeError
  | IndexError
  | ValueError.

Inductive result (A : Type) : Type :=
  | Return (a : A)
  | Raise (e : exn).
Arguments Return {A} a.
Arguments Raise {A} e.

#[global] Instance result_ret : MRet result := λ A a, Return a.
#[global] Instance result_bind : MBind result := λ A B k m,
  match m with
  | Return a => k a
  | Raise e => Raise e
  end.

(** The numeric value of a cell, when it is a Python [int] or [float]. *)
Definition num_of (c : cell) : option Q :=
  match c with
  | PyInt z => Some (inject_Z z)
  | PyFloat q => Some q
  | NaN | PyStr _ => None
  end.

Definition is_nan (c : cell) : bool :=
  match c with NaN => true | _ => false end.

Definition is_str (c : cell) : bool :=
  match c with PyStr _ => true | _ => false end.

(** ** Data frames *)

Record DataFrame : Type := mkDataFrame {
  columns : list string;
  rows : list (gmap string cell)
}.

(** [row[c]] for a column of the frame; a column the row does not carry
    reads as the missing value, as in a frame padded by [pd.concat]. *)
Definition cell_at (c : string) (r : gmap string cell) : cell :=
  default NaN (r !! c).

(** [df[c]]: the column as a series, [KeyError] when there is none. *)
Definition getitem (df : DataFrame) (c : string) : result (list cell) :=
  if decide (c ∈ columns df)
  then Return (map (cell_at c) (rows df))
  else Raise (KeyError c).

(** [df[mask]] for a boolean series aligned with the rows. *)
Fixpoint mask_rows {A} (mask : list bool) (l : list A) : list A :=
  match mask, l with
  | b :: mask', a :: l' => if b then a :: mask_rows mask' l' else mask_rows mask' l'
  | _, _ => []
  end.

(** [df[[c1, ..., cn]]]: projection on the listed columns; the first
    absent one is reported. *)
Fixpoint first_missing (have want : list string) : option string :=
  match want with
  | [] => None
  | c :: want' => if decide (c ∈ have) then first_missing have want' else Some c
  end.

Definition restrict (cols : list string) (r : gmap string cell) : gmap string cell :=
  filter (λ kv, kv.1 ∈ cols) r.

Definition getitems (df : DataFrame) (cols : list string) : result DataFrame :=
  match first_missing (columns df) cols with
  | Some c => Raise (KeyError c)
  | None => Return (mkDataFrame cols (map (restrict cols) (rows df)))
  end.

(** [df.dropna()]: rows with a missing value in any column are removed. *)
Definition has_na (cols : list string) (r : gmap string cell) : bool :=
  existsb (λ c, is_nan (cell_at c r)) cols.

Definition dropna (df : DataFrame) : DataFrame :=
  mkDataFrame (columns df) (List.filter (λ r, negb (has_na (columns df) r)) (rows df)).

(** [df.iterrows()]: each row comes as a series of one dtype.  In a
    frame that holds a text the rows keep their cells; in a frame of
    numbers only, the integers of a row are widened to floats. *)
Definition upcast_cell (c : cell) : cell :=
  match c with
  | PyInt z => PyFloat (inject_Z z)
  | _ => c
  end.

Definition upcast (r : gmap string cell) : gmap string cell := upcast_cell <$> r.

Definition has_text (cols : list string) (r : gmap string cell) : bool :=
  existsb (λ c, is_str (cell_at c r)) cols.

Definition series_of_row (df : DataFrame) (r : gmap string cell) : gmap string cell :=
  if existsb (has_text (columns df)) (rows df) then r else upcast r.

Definition iterrows (df : DataFrame) : list (gmap string cell) :=
  map (series_of_row df) (rows df).

(** ** The pattern [seq \d+] *)

(** [\d] on an ASCII character. *)
Definition is_digit (a : ascii) : bool :=
  let n := nat_of_ascii a in (48 <=? n)%nat && (n <=? 57)%nat.

(** [re.match(r'seq \d+', s)]: the pattern at the start of [s]. *)
Definition match_here (s : string) : bool :=
  match s with
  | String c1 (String c2 (String c3 (String c4 (String d _)))) =>
      Ascii.eqb c1 "s" && Ascii.eqb c2 "e" && Ascii.eqb c3 "q" && Ascii.eqb c4 " "
      && is_digit d
  | _ => false
  end.

(** [re.search(r'seq \d+', s)]: the pattern anywhere in [s]. *)
Fixpoint re_search (s : string) : bool :=
  match_here s ||
  match s with
  | EmptyString => false
  | String _ s' => re_search s'
  end.

(** [series.str]: the accessor exists for an empty series and for one
    holding text; a series of numbers or of missing values only has
    none. *)
Definition str_accessor (s : list cell) : result (list cell) :=
  match s with
  | [] => Return s
  | _ => if existsb is_str s then Return s else Raise AttributeError
  end.

(** [.str.contains(r'seq \d+', na=False)] *)
Definition str_contains (s : list cell) : result (list bool) :=
  vals ← str_accessor s;
  Return (map (λ c, match c with PyStr t => re_search t | _ => false end) vals).

(** ** Row filtering (lines 16-21 of [create_point_layer]) *)

Definition REQUIRED : list string :=
  ["rx lat"; "rx long"; "rx snr"; "sender name"; "rx elevation"].

(** [lambda x: isinstance(x, (int, float))]; the missing value is the
    float [nan]. *)
Definition isinstance_num (c : cell) : bool :=
  match c with PyStr _ => false | _ => true end.

(** [series.between(lo, hi)] is [(series >= lo) & (series <= hi)]: a
    missing value compares false, a text cannot be ordered against a
    number. *)
Definition cell_between (lo hi : Q) (c : cell) : result bool :=
  match c with
  | NaN => Return false
  | PyStr _ => Raise TypeError
  | _ => match num_of c with
         | Some x => Return (Qle_bool lo x && Qle_bool x hi)
         | None => Return false
         end
  end.

Definition between (lo hi : Q) (s : list cell) : result (list bool) :=
  mapM (cell_between lo hi) s.

(** [a & b] on boolean series. *)
Definition series_and (a b : list bool) : list bool := zip_with andb a b.

(** A text column: one that holds a text, whatever rows are selected
    from it afterwards. *)
Definition text_column (df : DataFrame) (c : string) : bool :=
  existsb (λ r, is_str (cell_at c r)) (rows df).

(** [df[key]] for the key of lines 18-21.  A boolean key selects rows.
    On a frame without rows [apply] returns an empty series of the
    column's own dtype, so that with a text column among the two
    coordinates the key is not boolean: [df[key]] then selects the
    columns the key lists, which are none. *)
Definition getitem_key (df : DataFrame) (boolean : bool) (key : list bool) : DataFrame :=
  if boolean
  then mkDataFrame (columns df) (mask_rows key (rows df))
  else mkDataFrame [] (map (restrict []) (rows df)).

Definition filter_rows (df : DataFrame) : result DataFrame :=
  payload ← getitem df "payload";
  mask ← str_contains payload;
  let df_filtered := mkDataFrame (columns df) (mask_rows mask (rows df)) in
  df_filtered ← getitems df_filtered REQUIRED;
  let df_filtered := dropna df_filtered in
  lat ← getitem df_filtered "rx lat";
  let a := map isinstance_num lat in
  long ← getitem df_filtered "rx long";
  let b := map isinstance_num long in
  c ← between (-90) 90 lat;
  d ← between (-180) 180 long;
  let mask := series_and (series_and (series_and a b) c) d in
  let boolean := match rows df_filtered with
                 | [] => negb (text_column df "rx lat" || text_column df "rx long")
                 | _ => true
                 end in
  Return (getitem_key df_filtered boolean mask).

(** [df.empty] *)
Definition empty (df : DataFrame) : bool :=
  match columns df, rows df with
  | [], _ | _, [] => true
  | _, _ => false
  end.

(** ** The colour library ([matplotlib.colors])

    The three-stop colour map of line 32 and [rgb2hex], after the
    library's documented construction: a table of [N = 256] entries
    sampled from the piecewise-linear gradient, indexed by
    [int(t * N)], with both ends clamped. *)

Module mcolors.

Definition rgb : Type := Q * Q * Q.

(** The named colours of the gradient. *)
Definition red : rgb := (1, 0, 0)%Q.
Definition yellow : rgb := (1, 1, 0)%Q.
Definition green : rgb := (0, 128 # 255, 0)%Q.

Definition N : Z := 256.

(** One channel of the lookup table for the stops [y0], [y1], [y2]
    placed at 0, 0.5 and 1. *)
Definition lut_channel (y0 y1 y2 : Q) (i : Z) : Q :=
  if (i <=? 0)%Z then y0
  else if (N - 1 <=? i)%Z then y2
  else
    let xi := inject_Z i in
    let xm := (inject_Z (N - 1) / 2)%Q in
    if Qle_bool xi xm
    then (xi / xm * (y1 - y0) + y0)%Q
    else ((xi - xm) / (inject_Z (N - 1) - xm) * (y2 - y1) + y1)%Q.

Definition lut (c0 c1 c2 : rgb) (i : Z) : rgb :=
  let '(r0, g0, b0) := c0 in
  let '(r1, g1, b1) := c1 in
  let '(r2, g2, b2) := c2 in
  (lut_channel r0 r1 r2 i, lut_channel g0 g1 g2 i, lut_channel b0 b1 b2 i).

(** [LinearSegmentedColormap.from_list("", ["red", "yellow", "green"])]
    applied to a float [t]. *)
Definition cmap (t : Q) : rgb :=
  let xa := (t * inject_Z N)%Q in
  if Qle_bool (inject_Z N) xa then lut red yellow green (N - 1)
  else if Qle_bool 0 xa then lut red yellow green (Qfloor xa)
  else lut red yellow green 0.

(** Python's [round]: to the nearest integer, ties to the even one. *)
Definition round (x : Q) : Z :=
  let f := Qfloor x in
  match (x - inject_Z f ?= 1 # 2)%Q with
  | Lt => f
  | Gt => f + 1
  | Eq => if Z.even f then f else f + 1
  end.

Definition hex_digit (n : Z) : ascii :=
  match n with
  | 0 => "0" | 1 => "1" | 2 => "2" | 3 => "3" | 4 => "4" | 5 => "5"
  | 6 => "6" | 7 => "7" | 8 => "8" | 9 => "9" | 10 => "a" | 11 => "b"
  | 12 => "c" | 13 => "d" | 14 => "e" | _ => "f"
  end%char.

(** [format(n, "02x")] for [0 <= n < 256]. *)
Definition hex2 (n : Z) : string :=
  String (hex_digit (n / 16)) (String (hex_digit (n mod 16)) EmptyString).

Definition rgb2hex (c : rgb) : string :=
  let '(r, g, b) := c in
  "#" +:+ hex2 (round (r * 255)) +:+ hex2 (round (g * 255)) +:+ hex2 (round (b * 255)).

End mcolors.

(** ** Marker colour (lines 35 and 40-43) *)

Definition LOW : Q := -21.
Definition HIGH : Q := 12.

(** [lambda x: (x - (-21)) / (12 - (-21))] on a number, exact here and
    rounded to binary64 in the program. *)
Definition normalized_snr (x : Q) : Q := ((x - LOW) / (HIGH - LOW))%Q.

(** The branch of line 40: [snr > 15 or snr <= -25]. *)
Definition out_of_band (snr : Q) : bool :=
  negb (Qle_bool snr 15) || Qle_bool snr (-25).

Definition GREY : string := "#808080".

Definition color (snr : Q) : string :=
  if out_of_band snr then GREY
  else mcolors.rgb2hex (mcolors.cmap (normalized_snr snr)).

(** ** Point layers (lines 23-62 of [create_point_layer]) *)

(** [os.path.basename]: what follows the last slash. *)
Fixpoint has_slash (p : string) : bool :=
  match p with
  | EmptyString => false
  | String c p' => Ascii.eqb c "/" || has_slash p'
  end.

Fixpoint basename (p : string) : string :=
  match p with
  | EmptyString => EmptyString
  | String c p' =>
      if has_slash p' then basename p'
      else if Ascii.eqb c "/" then p' else p
  end.

(** An f-string before formatting: literal text and interpolated
    values.  [render] formats it with Python's conversion [fmt] of a
    value to text. *)
Inductive piece : Type :=
  | Lit (s : string)
  | Val (c : cell).

Definition render_piece (fmt : cell -> string) (p : piece) : string :=
  match p with
  | Lit s => s
  | Val c => fmt c
  end.

Definition render (fmt : cell -> string) (ps : list piece) : string :=
  fold_right (λ p acc, render_piece fmt p +:+ acc) EmptyString ps.

Record CircleMarker : Type := mkCircleMarker {
  location : cell * cell;
  radius : Z;
  marker_color : string;
  fill : bool;
  fill_color : string;
  fill_opacity : Q;
  popup : list piece
}.

Record FeatureGroup : Type := mkFeatureGroup {
  name : string;
  children : list CircleMarker
}.

(** Line 35 on one value: arithmetic on a text raises, on the missing
    value it yields the missing value. *)
Definition normalize_cell (c : cell) : result cell :=
  match c with
  | NaN => Return NaN
  | PyStr _ => Raise TypeError
  | PyInt z => Return (PyFloat (normalized_snr (inject_Z z)))
  | PyFloat q => Return (PyFloat (normalized_snr q))
  end.

(** [df['normalized_snr'] = series] *)
Definition assign (df : DataFrame) (c : string) (s : list cell) : DataFrame :=
  mkDataFrame
    (if decide (c ∈ columns df) then columns df else (columns df ++ [c])%list)
    (zip_with (λ r v, <[c := v]> r) (rows df) s).

(** Lines 40-43 on a row: the comparisons raise on a text and are false
    on the missing value; the colour map sends the missing value to its
    "bad" colour, transparent black, and indexes the table directly by
    an integer. *)
Definition row_color (r : gmap string cell) : result string :=
  match cell_at "rx snr" r with
  | PyStr _ => Raise TypeError
  | snr =>
      let grey := match num_of snr with
                  | Some x => out_of_band x
                  | None => false
                  end in
      if grey then Return GREY
      else match cell_at "normalized_snr" r with
           | PyFloat t => Return (mcolors.rgb2hex (mcolors.cmap t))
           | NaN => Return (mcolors.rgb2hex (0, 0, 0)%Q)
           | PyInt i =>
               Return (mcolors.rgb2hex
                         (mcolors.lut mcolors.red mcolors.yellow mcolors.green i))
           | PyStr _ => Raise TypeError
           end
  end.

Definition popup_info (csv_file : string) (r : gmap string cell) : list piece :=
  [ Lit (basename csv_file); Lit "<br>";
    Lit "SNR: "; Val (cell_at "rx snr" r); Lit "<br>";
    Lit "Elevation: "; Val (cell_at "rx elevation" r); Lit "<br>";
    Lit "Latitude: "; Val (cell_at "rx lat" r); Lit "<br>";
    Lit "Longitude: "; Val (cell_at "rx long" r) ].

Definition make_marker (csv_file : string) (r : gmap string cell) : result CircleMarker :=
  color ← row_color r;
  Return (mkCircleMarker (cell_at "rx lat" r, cell_at "rx long" r) 7
            color true color (7 # 10) (popup_info csv_file r)).

(** Lines 29-62: the layer of a non-empty filtered frame. *)
Definition build_layer (csv_file : string) (df_filtered : DataFrame) : result FeatureGroup :=
  snr ← getitem df_filtered "rx snr";
  normalized ← mapM normalize_cell snr;
  let df_filtered := assign df_filtered "normalized_snr" normalized in
  markers ← mapM (make_marker csv_file) (iterrows df_filtered);
  Return (mkFeatureGroup (basename csv_file) markers).

(** ** Files and standard output *)

(** The directory: the frames [pd.read_csv] parses, by path.  A path
    outside the domain cannot be opened or parsed. *)
Definition read_csv (fs : gmap string DataFrame) (csv_file : string) : result DataFrame :=
  match fs !! csv_file with
  | Some df => Return df
  | None => Raise (FileError csv_file)
  end.

(** A computation that prints: the lines written and the result. *)
Record io (A : Type) : Type := IO { stdout : list string; value : result A }.
Arguments IO {A} stdout value.
Arguments stdout {A} _.
Arguments value {A} _.

#[global] Instance io_ret : MRet io := λ A a, IO [] (Return a).
#[global] Instance io_bind : MBind io := λ A B k m,
  match value m with
  | Return a => IO (stdout m ++ stdout (k a))%list (value (k a))
  | Raise e => IO (stdout m) (Raise e)
  end.

Definition print (line : string) : io unit := IO [line] (Return tt).
Definition lift {A} (r : result A) : io A := IO [] r.

(** ** [create_point_layer] *)

Definition create_point_layer (fs : gmap string DataFrame) (csv_file : string)
  : io (option FeatureGroup) :=
  df ← lift (read_csv fs csv_file);
  df_filtered ← lift (filter_rows df);
  if empty df_filtered then
    _ ← print ("No valid data found in " +:+ csv_file +:+ ". Skipping point layer creation.");
    mret None
  else
    layer ← lift (build_layer csv_file df_filtered);
    mret (Some layer).

(** ** [create_map_with_layers]

    The map object keeps what the pipeline computes: the initial centre,
    the heat samples and the point layers.  The tile layers and the
    controls are constants of the rendering library and are left out.
    Of the rendering library the embedding keeps the validation of what
    it is handed: [folium.Map] rejects a centre and [HeatMap] a sample
    whose latitude or longitude is missing or is a text, and [HeatMap]
    rejects a missing or text weight. *)

Record Map : Type := mkMap {
  map_location : cell * cell;
  heat_data : list (cell * cell * cell);
  layers : list FeatureGroup
}.

(** The file [m.save(output_file)] writes. *)
Record Artifact : Type := mkArtifact {
  output_file : string;
  content : Map
}.

Definition Qsum (xs : list Q) : Q := fold_right Qplus 0%Q xs.

(** [series.mean()]: missing values are skipped; no value at all gives
    the missing value; a text cannot be averaged.  The sum and the
    quotient are exact here and rounded to binary64 in the program. *)
Definition mean (s : list cell) : result cell :=
  if existsb is_str s then Raise TypeError
  else match omap num_of s with
       | [] => Return NaN
       | xs => Return (PyFloat (Qsum xs / inject_Z (Z.of_nat (length xs))))
       end.

(** [pd.concat(df_list, ignore_index=True)]: the union of the columns in
    order of appearance, the rows one frame after the other.  A merged
    column without text that holds a float or a missing value is a float
    column: its integers are widened. *)
Definition concat_columns (df_list : list DataFrame) : list string :=
  fold_left (λ acc df, (acc ++ List.filter (λ c, negb (bool_decide (c ∈ acc))) (columns df))%list)
            df_list [].

Definition is_int (c : cell) : bool :=
  match c with PyInt _ => true | _ => false end.

Definition float_column (c : string) (rs : list (gmap string cell)) : bool :=
  forallb (λ r, negb (is_str (cell_at c r))) rs
  && existsb (λ r, negb (is_int (cell_at c r))) rs.

Definition widen (cols : list string) (rs : list (gmap string cell))
    (r : gmap string cell) : gmap string cell :=
  fold_right (λ c r, if float_column c rs then alter upcast_cell c r else r) r cols.

Definition merged_rows (df_list : list DataFrame) : list (gmap string cell) :=
  let rs := flat_map rows df_list in
  map (widen (concat_columns df_list) rs) rs.

Definition concat (df_list : list DataFrame) : result DataFrame :=
  match df_list with
  | [] => Raise ValueError
  | _ => Return (mkDataFrame (concat_columns df_list) (merged_rows df_list))
  end.

(** [row[c]] on a row of [iterrows()]. *)
Definition row_getitem (df : DataFrame) (r : gmap string cell) (c : string) : result cell :=
  if decide (c ∈ columns df) then Return (cell_at c r) else Raise (KeyError c).

(** Line 78 on one row. *)
Definition heat_row (df : DataFrame) (r : gmap string cell) : result (cell * cell * cell) :=
  lat ← row_getitem df r "rx lat";
  long ← row_getitem df r "rx long";
  snr ← row_getitem df r "rx snr";
  Return (lat, long, snr).

(** Lines 148-151. *)
Fixpoint add_layers (fs : gmap string DataFrame) (csv_files : list string)
  : io (list FeatureGroup) :=
  match csv_files with
  | [] => mret []
  | csv_file :: rest =>
      layer ← create_point_layer fs csv_file;
      others ← add_layers fs rest;
      mret (match layer with
            | Some l => l :: others
            | None => others
            end)
  end.

(** [folium]'s [validate_location]: each coordinate is converted with
    [float] and must not be the missing value; both failures are a
    [ValueError].  A text cell is one the CSV parser did not read as a
    number, and is taken not to convert either. *)
Definition validate_coordinate (c : cell) : result unit :=
  match c with
  | NaN | PyStr _ => Raise ValueError
  | PyInt _ | PyFloat _ => Return tt
  end.

Definition validate_location (location : cell * cell) : result unit :=
  _ ← validate_coordinate (fst location);
  validate_coordinate (snd location).

(** [HeatMap(data)]: every sample's location is validated, then
    [np.isnan] is asked of the whole table: it raises [TypeError] when
    a weight is a text, and a missing weight is a [ValueError]. *)
Definition HeatMap (data : list (cell * cell * cell)) : result unit :=
  _ ← mapM (λ h, validate_location (fst h)) data;
  if existsb (λ h, is_str (snd h)) data then Raise TypeError
  else if existsb (λ h, is_nan (snd h)) data then Raise ValueError
  else Return tt.

Definition create_map_with_layers (fs : gmap string DataFrame)
    (csv_files : list string) (output_file : string) : io Artifact :=
  first ← lift (match csv_files with
                 | [] => Raise IndexError
                 | f :: _ => Return f
                 end);
  initial_df ← lift (read_csv fs first);
  lat ← lift (getitem initial_df "rx lat");
  mean_lat ← lift (mean lat);
  long ← lift (getitem initial_df "rx long");
  mean_long ← lift (mean long);
  let initial_map_center := (mean_lat, mean_long) in
  _ ← lift (validate_location initial_map_center);
  df_list ← lift (mapM (read_csv fs) csv_files);
  merged_df ← lift (concat df_list);
  heat_data ← lift (mapM (heat_row merged_df) (iterrows merged_df));
  _ ← lift (HeatMap heat_data);
  layers ← add_layers fs csv_files;
  mret (mkArtifact output_file (mkMap initial_map_center heat_data layers)).

(** ** The script (lines 157-167)

    [csv_files] is what [glob] found in the script's directory. *)

Inductive status : Type :=
  | Exited (code : Z)
  | Completed
  | Traceback (e : exn).

Record process : Type := mkProcess {
  printed : list string;
  exit_status : status;
  written : option Artifact
}.

Definition main (fs : gmap string DataFrame) (csv_files : list string) : process :=
  match csv_files with
  | [] => mkProcess ["No CSV files found in the directory. Exiting."] (Exited 1) None
  | _ =>
      let run := create_map_with_layers fs csv_files "rangetest-map.html" in
      match value run with
      | Return artifact =>
          mkProcess
            (stdout run ++
             ["Map with layers has been generated and can be viewed in 'rangetest-map.html'."])%list
            Completed (Some artifact)
      | Raise e => mkProcess (stdout run) (Traceback e) None
      end
  end.

(** ** The acceptance rule, row by row

    What lines 16-21 keep of a frame on which they raise nothing. *)

Definition payload_ok (r : gmap string cell) : bool :=
  match cell_at "payload" r with
  | PyStr t => re_search t
  | _ => false
  end.

Definition in_range (lo hi : Q) (c : cell) : bool :=
  match num_of c with
  | Some x => Qle_bool lo x && Qle_bool x hi
  | None => false
  end.

Definition accepts (r : gmap string cell) : bool :=
  payload_ok r
  && negb (has_na REQUIRED r)
  && (in_range (-90) 90 (cell_at "rx lat" r)
      && in_range (-180) 180 (cell_at "rx long" r)).

(** The rule in words: the payload text contains [seq ] followed by at
    least one digit, the five fields are present, latitude and longitude
    are numbers within their ranges. *)
Definition all_digits (ds : string) : Prop :=
  forall a, In a (list_ascii_of_string ds) -> is_digit a = true.

Definition matches_seq_digits (s : string) : Prop :=
  exists pre ds post,
    ds <> EmptyString /\ all_digits ds /\ s = pre +:+ "seq " +:+ ds +:+ post.

Definition numeric_within (lo hi : Q) (c : cell) : Prop :=
  exists x, num_of c = Some x /\ (lo <= x)%Q /\ (x <= hi)%Q.

Definition Accepted (r : gmap string cell) : Prop :=
  (exists t, cell_at "payload" r = PyStr t /\ matches_seq_digits t)
  /\ (forall c, In c REQUIRED -> cell_at c r <> NaN)
  /\ numeric_within (-90) 90 (cell_at "rx lat" r)
  /\ numeric_within (-180) 180 (cell_at "rx long" r).

(** Texts of ASCII characters.  In such a text the characters [\d]
    matches are the ASCII digits. *)
Definition is_ascii (a : ascii) : bool := (nat_of_ascii a <? 128)%nat.

Definition ascii_text (s : string) : bool :=
  forallb is_ascii (list_ascii_of_string s).

Definition ascii_payload (r : gmap string cell) : bool :=
  match cell_at "payload" r with
  | PyStr t => ascii_text t
  | _ => true
  end.

(** ** Markers, row by row

    What lines 35-60 make of one filtered row: the colour of its SNR
    cell and the marker carrying it. *)

Definition snr_color (c : cell) : result string :=
  match c with
  | PyStr _ => Raise TypeError
  | NaN => Return (mcolors.rgb2hex (0, 0, 0)%Q)
  | PyInt z => Return (color (inject_Z z))
  | PyFloat q => Return (color q)
  end.

Definition marker_of (csv_file : string) (r : gmap string cell) : result CircleMarker :=
  c ← snr_color (cell_at "rx snr" r);
  Return (mkCircleMarker (cell_at "rx lat" r, cell_at "rx long" r) 7
            c true c (7 # 10) (popup_info csv_file r)).

Definition no_data_message (csv_file : string) : string :=
  "No valid data found in " +:+ csv_file +:+ ". Skipping point layer creation.".

(** [sub] occurs in [s]. *)
Definition contains (sub s : string) : Prop :=
  exists pre post, s = pre +:+ sub +:+ post.

(** ** The centre and the heat samples in words

    For comparison with lines 66-67 and 78: the centre taken over the
    rows the filter keeps, and the heat sample of a row. *)

Definition center_of_valid_samples (df : DataFrame) : result (cell * cell) :=
  df_filtered ← filter_rows df;
  lat ← getitem df_filtered "rx lat";
  mean_lat ← mean lat;
  long ← getitem df_filtered "rx long";
  mean_long ← mean long;
  Return (mean_lat, mean_long).

Definition heat_sample (r : gmap string cell) : cell * cell * cell :=
  (cell_at "rx lat" r, cell_at "rx long" r, cell_at "rx snr" r).

(** ** Sample sources *)

Definition COLUMNS : list string :=
  ["payload"; "rx lat"; "rx long"; "rx snr"; "sender name"; "rx elevation"].

Definition sample_row (payload lat long snr sender elevation : cell) : gmap string cell :=
  list_to_map
    [("payload", payload); ("rx lat", lat); ("rx long", long); ("rx snr", snr);
     ("sender name", sender); ("rx elevation", elevation)].

(** A heartbeat row and a row whose payload is no heartbeat. *)
Definition heartbeat : gmap string cell :=
  sample_row (PyStr "seq 1") (PyFloat 45) (PyFloat (-122)) (PyFloat (7 # 2))
             (PyStr "node1") (PyInt 120).

Definition chatter : gmap string cell :=
  sample_row (PyStr "hello") (PyFloat 47) (PyFloat (-120)) (PyFloat (3 # 2))
             (PyStr "node1") (PyInt 130).

(** A heartbeat row whose latitude is not a number; the whole column is
    then read as text. *)
Definition garbled : gmap string cell :=
  sample_row (PyStr "seq 2") (PyStr "abc") (PyFloat (-122)) (PyFloat (7 # 2))
             (PyStr "node1") (PyInt 120).

Definition log1 : DataFrame := mkDataFrame COLUMNS [heartbeat; chatter].
Definition log2 : DataFrame := mkDataFrame COLUMNS [garbled].
Definition log3 : DataFrame := mkDataFrame COLUMNS [chatter].

(** A table without the payload column. *)
Definition log4 : DataFrame :=
  mkDataFrame REQUIRED [restrict REQUIRED heartbeat].

(** A heartbeat row of a sender named by a number, with an integer SNR. *)
Definition numbered : gmap string cell :=
  sample_row (PyStr "seq 3") (PyFloat 45) (PyFloat (-122)) (PyInt 3)
             (PyInt 7) (PyInt 120).

Definition log5 : DataFrame := mkDataFrame COLUMNS [numbered].

Definition directory : gmap string DataFrame :=
  list_to_map
    [("/data/log1.csv", log1); ("/data/log2.csv", log2);
     ("/data/log3.csv", log3); ("/data/log4.csv", log4);
     ("/data/log5.csv", log5)].

(** What the filter keeps of [log1]. *)
Definition log1_filtered : DataFrame :=
  mkDataFrame REQUIRED [restrict REQUIRED heartbeat].

(** The layer of [log1]: one marker, for the heartbeat row. *)
Definition log1_layer : FeatureGroup :=
  mkFeatureGroup "log1.csv"
    [ mkCircleMarker (PyFloat 45, PyFloat (-122)) 7 "#82c100" true "#82c100" (7 # 10)
        [ Lit "log1.csv"; Lit "<br>";
          Lit "SNR: "; Val (PyFloat (7 # 2)); Lit "<br>";
          Lit "Elevation: "; Val (PyInt 120); Lit "<br>";
          Lit "Latitude: "; Val (PyFloat 45); Lit "<br>";
          Lit "Longitude: "; Val (PyFloat (-122)) ] ].

(** The map of the run over [log1] alone. *)
Definition log1_map : Artifact :=
  mkArtifact "rangetest-map.html"
    (mkMap (PyFloat (92 # 2), PyFloat (-242 # 2))
           [ (PyFloat 45, PyFloat (-122), PyFloat (7 # 2));
             (PyFloat 47, PyFloat (-120), PyFloat (3 # 2)) ]
           [log1_layer]).

(** ** The gradient in words

    Red at 0, yellow at 0.5, green at 1 and linear in between, for
    comparison with the table of the colour library; [table_index] is
    the entry of the table the library reads for [t]. *)






(** ** Clean sources

    A table with the six columns, text in its payload column (or no row
    at all) and no text among its coordinates and SNR values. *)

Definition clean (df : DataFrame) : Prop :=
  "payload" ∈ columns df
  /\ (forall c, In c REQUIRED -> c ∈ columns df)
  /\ (rows df = [] \/ Exists (λ r, is_str (cell_at "payload" r) = true) (rows df))
  /\ Forall (λ r, is_str (cell_at "rx lat" r) = false
                  /\ is_str (cell_at "rx long" r) = false
                  /\ is_str (cell_at "rx snr" r) = false) (rows df).

(** A cell as [iterrows] may yield it: itself, or the equal float for an
    integer. *)
Definition same_value (c c' : cell) : Prop :=
  c' = c \/ c' = upcast_cell c.

Definition same_sample (h h' : cell * cell * cell) : Prop :=
  same_value (fst (fst h)) (fst (fst h'))
  /\ same_value (snd (fst h)) (snd (fst h'))
  /\ same_value (snd h) (snd h').

(** ** Further sample sources *)

(** A heartbeat row without payload text, as in a file whose payload
    column is empty throughout. *)
Definition mute : gmap string cell :=
  sample_row NaN (PyFloat 45) (PyFloat (-122)) (PyFloat (7 # 2))
             (PyStr "node1") (PyInt 120).

(** A heartbeat row whose SNR is not a number. *)
Definition noisy : gmap string cell :=
  sample_row (PyStr "seq 4") (PyFloat 45) (PyFloat (-122)) (PyStr "high")
             (PyStr "node1") (PyInt 120).

Definition log6 : DataFrame := mkDataFrame COLUMNS [mute].
Definition log7 : DataFrame := mkDataFrame ["payload"; "rx lat"; "rx long"] [heartbeat].
Definition log8 : DataFrame := mkDataFrame COLUMNS [noisy].

Definition archive : gmap string DataFrame :=
  list_to_map
    [("/old/log6.csv", log6); ("/old/log7.csv", log7); ("/old/log8.csv", log8);
     ("/old/log1.csv", log1); ("/old/log3.csv", log3)].






(** ** Sources with an accepted row, complete sources

    [has_accepted] tells whether the table at a path has a row the
    acceptance rule keeps.  A complete source is clean and has no missing
    coordinate or SNR, which is what the rendering library demands of
    the centre and of the heat samples it is handed. *)
Definition has_accepted (fs : gmap string DataFrame) (csv_file : string) : bool :=
  match fs !! csv_file with
  | Some df => existsb accepts (rows df)
  | None => false
  end.

Definition complete (df : DataFrame) : Prop :=
  clean df
  /\ Forall (λ r, is_nan (cell_at "rx lat" r) = false
                  /\ is_nan (cell_at "rx long" r) = false
                  /\ is_nan (cell_at "rx snr" r) = false) (rows df).

(** * Properties *)

(** ** Exceptions and sequencing *)

Lemma rbind_Return {A B} (m : result A) (k : A -> result B) (b : B) :
  m ≫= k = Return b -> exists a, m = Return a /\ k a = Return b.
Proof. destruct m as [a|e]; simpl; [eauto | discriminate]. Qed.

Lemma io_bind_Return {A B} (m : io A) (k : A -> io B) (b : B) :
  value (m ≫= k) = Return b ->
  exists a, value m = Return a /\ value (k a) = Return b.
Proof.
  unfold mbind, io_bind. destruct (value m) as [a|e]; simpl; [eauto | discriminate].
Qed.

Lemma mapM_Return {A B} (f : A -> result B) (l : list A) (bs : list B) :
  mapM f l = Return bs -> Forall2 (fun a b => f a = Return b) l bs.
Proof.
  revert bs. induction l as [|a l IH]; intros bs H; simpl in H.
  - injection H as <-. constructor.
  - apply rbind_Return in H as (b & Hb & H).
    apply rbind_Return in H as (bs' & Hbs & H).
    injection H as <-. constructor; auto.
Qed.

Lemma mapM_cons {A B} (f : A -> result B) (a : A) (l : list A) :
  mapM f (a :: l) = y ← f a; k ← mapM f l; mret (y :: k).
Proof. reflexivity. Qed.

Lemma mapM_total {A B} (f : A -> result B) (g : A -> B) (l : list A) :
  Forall (fun a => f a = Return (g a)) l -> mapM f l = Return (map g l).
Proof.
  induction 1 as [|a l Ha _ IH]; simpl; [reflexivity|].
  rewrite Ha. simpl. rewrite IH. reflexivity.
Qed.

Lemma Forall2_In_l {A B} (R : A -> B -> Prop) (l : list A) (l' : list B) (a : A) :
  Forall2 R l l' -> In a l -> exists b, In b l' /\ R a b.
Proof.
  induction 1 as [|x y l l' Hxy _ IH]; intros Hin; [destruct Hin|].
  destruct Hin as [<-|Hin].
  - exists y. split; [left; reflexivity | exact Hxy].
  - destruct (IH Hin) as (b & Hb & Hab). exists b. split; [right; exact Hb | exact Hab].
Qed.

(** ** Series and masks *)

Lemma mask_rows_map {A} (f : A -> bool) (l : list A) :
  mask_rows (map f l) l = List.filter f l.
Proof.
  induction l as [|a l IH]; simpl; [reflexivity|].
  destruct (f a); rewrite IH; reflexivity.
Qed.

Lemma series_and_map {A} (f g : A -> bool) (l : list A) :
  series_and (map f l) (map g l) = map (fun a => f a && g a) l.
Proof.
  unfold series_and. induction l as [|a l IH]; simpl; [reflexivity|].
  rewrite IH. reflexivity.
Qed.

Lemma filter_twice {A} (f g : A -> bool) (l : list A) :
  List.filter f (List.filter g l) = List.filter (fun a => g a && f a) l.
Proof.
  induction l as [|a l IH]; simpl; [reflexivity|].
  destruct (g a); simpl; [destruct (f a)|]; rewrite IH; reflexivity.
Qed.

Lemma filter_of_map {A B} (f : B -> bool) (g : A -> B) (l : list A) :
  List.filter f (map g l) = map g (List.filter (fun a => f (g a)) l).
Proof.
  induction l as [|a l IH]; simpl; [reflexivity|].
  destruct (f (g a)); simpl; rewrite IH; reflexivity.
Qed.

Lemma filter_pointwise {A} (f g : A -> bool) (l : list A) :
  (forall a, f a = g a) -> List.filter f l = List.filter g l.
Proof.
  intros E. induction l as [|a l IH]; simpl; [reflexivity|].
  rewrite E, IH. reflexivity.
Qed.

(** ** Rows and projections *)

Lemma cell_at_restrict (cols : list string) (c : string) (r : gmap string cell) :
  c ∈ cols -> cell_at c (restrict cols r) = cell_at c r.
Proof.
  intros Hc. unfold cell_at, restrict.
  destruct (r !! c) as [v|] eqn:E.
  - erewrite (proj2 (map_lookup_filter_Some _ r c v)); [done|]. split; auto.
  - rewrite map_lookup_filter_None_2; [done|]. left. done.
Qed.

Lemma has_na_restrict (cols : list string) (r : gmap string cell) :
  has_na cols (restrict cols r) = has_na cols r.
Proof.
  unfold has_na.
  assert (forall l, (forall c, In c l -> c ∈ cols) ->
            existsb (λ c, is_nan (cell_at c (restrict cols r))) l
            = existsb (λ c, is_nan (cell_at c r)) l) as H.
  { induction l as [|c l IH]; intros Hl; simpl; [reflexivity|].
    rewrite cell_at_restrict by (apply Hl; left; reflexivity).
    rewrite IH; [reflexivity|]. intros c' Hc'. apply Hl. right. exact Hc'. }
  apply H. intros c Hc. apply list_elem_of_In. exact Hc.
Qed.

Lemma getitem_Return (df : DataFrame) (c : string) (s : list cell) :
  getitem df c = Return s -> c ∈ columns df /\ s = map (cell_at c) (rows df).
Proof.
  unfold getitem. destruct (decide (c ∈ columns df)); [|discriminate].
  intros H. injection H as <-. auto.
Qed.

Lemma getitem_total (df : DataFrame) (c : string) :
  c ∈ columns df -> getitem df c = Return (map (cell_at c) (rows df)).
Proof.
  intros H. unfold getitem. destruct (decide (c ∈ columns df)); [reflexivity|contradiction].
Qed.

Lemma getitem_KeyError (df : DataFrame) (c : string) :
  c ∉ columns df -> getitem df c = Raise (KeyError c).
Proof.
  intros H. unfold getitem. destruct (decide (c ∈ columns df)); [contradiction|reflexivity].
Qed.

(** ** The pattern *)

Lemma match_here_spec (s : string) :
  match_here s = true ->
  exists d rest, is_digit d = true /\ s = "seq " +:+ String d rest.
Proof.
  unfold match_here.
  destruct s as [|c1 [|c2 [|c3 [|c4 [|d rest]]]]]; try discriminate.
  rewrite !andb_true_iff, !Ascii.eqb_eq.
  intros [[[[-> ->] ->] ->] Hd]. exists d, rest. split; [exact Hd | reflexivity].
Qed.

Lemma re_search_cons (c : ascii) (s : string) :
  re_search (String c s) = match_here (String c s) || re_search s.
Proof. reflexivity. Qed.

Lemma re_search_prefix (pre s : string) :
  re_search s = true -> re_search (pre +:+ s) = true.
Proof.
  intros H. induction pre as [|c pre IH]; [exact H|].
  change (String c pre +:+ s) with (String c (pre +:+ s)).
  rewrite re_search_cons, IH. apply orb_true_r.
Qed.

Lemma re_search_spec (s : string) :
  re_search s = true <-> matches_seq_digits s.
Proof.
  split.
  - induction s as [|c s IH]; [discriminate|].
    rewrite re_search_cons. intros H. apply orb_true_iff in H as [H|H].
    + apply match_here_spec in H as (d & rest & Hd & ->).
      exists EmptyString, (String d EmptyString), rest. repeat split.
      * discriminate.
      * intros a [<-|[]]. exact Hd.
    + destruct (IH H) as (pre & ds & post & Hne & Hds & ->).
      exists (String c pre), ds, post. repeat split; assumption.
  - intros (pre & ds & post & Hne & Hds & ->).
    apply re_search_prefix.
    destruct ds as [|d ds]; [contradiction|].
    assert (is_digit d = true) as Hd by (apply Hds; left; reflexivity).
    change ("seq " +:+ String d ds +:+ post)
      with (String "s" (String "e" (String "q" (String " " (String d (ds +:+ post)))))).
    rewrite re_search_cons. unfold match_here. rewrite Hd. reflexivity.
Qed.

(** ** Row filtering *)

Lemma str_contains_Return (s : list cell) (mask : list bool) :
  str_contains s = Return mask ->
  mask = map (λ c, match c with PyStr t => re_search t | _ => false end) s.
Proof.
  unfold str_contains. intros H.
  apply rbind_Return in H as (vals & Hv & H). injection H as <-.
  unfold str_accessor in Hv. destruct s as [|c s].
  - injection Hv as <-. reflexivity.
  - destruct (existsb is_str (c :: s)); [|discriminate].
    injection Hv as <-. reflexivity.
Qed.

Lemma cell_between_Return (lo hi : Q) (c : cell) (b : bool) :
  cell_between lo hi c = Return b -> b = in_range lo hi c.
Proof.
  unfold cell_between, in_range.
  destruct c; simpl; intros H; try discriminate; injection H as <-; reflexivity.
Qed.

Lemma between_Return (lo hi : Q) (s : list cell) (mask : list bool) :
  between lo hi s = Return mask -> mask = map (in_range lo hi) s.
Proof.
  unfold between. intros H. apply mapM_Return in H.
  induction H as [|c b s mask Hc _ IH]; simpl; [reflexivity|].
  apply cell_between_Return in Hc. rewrite Hc, IH. reflexivity.
Qed.

Lemma getitems_Return (df : DataFrame) (cols : list string) (df' : DataFrame) :
  getitems df cols = Return df' ->
  df' = mkDataFrame cols (map (restrict cols) (rows df)).
Proof.
  unfold getitems. destruct (first_missing (columns df) cols); [discriminate|].
  intros H. injection H as <-. reflexivity.
Qed.

Lemma in_range_isinstance (lo hi : Q) (c : cell) :
  in_range lo hi c = true -> isinstance_num c = true.
Proof. destruct c; simpl; auto. Qed.

Lemma rx_lat_required : "rx lat" ∈ REQUIRED.
Proof. unfold REQUIRED. set_solver. Qed.

Lemma rx_long_required : "rx long" ∈ REQUIRED.
Proof. unfold REQUIRED. set_solver. Qed.

Lemma rx_snr_required : "rx snr" ∈ REQUIRED.
Proof. unfold REQUIRED. set_solver. Qed.

Lemma rx_elevation_required : "rx elevation" ∈ REQUIRED.
Proof. unfold REQUIRED. set_solver. Qed.

(** Whenever lines 16-21 raise nothing, they keep exactly the accepted
    rows, projected on the five fields, in the order of the source. *)
Lemma rows_getitem_key (df : DataFrame) (boolean : bool) (key : list bool) :
  boolean = true \/ rows df = [] ->
  rows (getitem_key df boolean key) = mask_rows key (rows df).
Proof.
  unfold getitem_key. destruct boolean; [reflexivity|].
  intros [H|H]; [discriminate H|]. cbn [rows]. rewrite H.
  destruct key; reflexivity.
Qed.

Lemma columns_getitem_key (df : DataFrame) (boolean : bool) (key : list bool) :
  rows (getitem_key df boolean key) <> [] ->
  boolean = true \/ rows df = [] ->
  columns (getitem_key df boolean key) = columns df.
Proof.
  unfold getitem_key. destruct boolean; [reflexivity|].
  intros Hne [H|H]; [discriminate H|]. cbn [rows] in Hne. rewrite H in Hne.
  contradiction.
Qed.

Lemma filter_rows_Return (df df_filtered : DataFrame) :
  filter_rows df = Return df_filtered ->
  (rows df_filtered <> [] -> columns df_filtered = REQUIRED)
  /\ rows df_filtered = map (restrict REQUIRED) (List.filter accepts (rows df)).
Proof.
  unfold filter_rows. intros H.
  apply rbind_Return in H as (payload & Hp & H).
  apply rbind_Return in H as (mask & Hm & H).
  apply rbind_Return in H as (df1 & H1 & H).
  apply rbind_Return in H as (lat & Hlat & H).
  apply rbind_Return in H as (long & Hlong & H).
  apply rbind_Return in H as (c & Hc & H).
  apply rbind_Return in H as (d & Hd & H).
  injection H as <-. cbn [columns rows dropna].
  apply getitem_Return in Hp as [_ ->].
  apply str_contains_Return in Hm. rewrite map_map in Hm. subst mask.
  apply getitems_Return in H1. cbn [columns rows] in H1. subst df1.
  apply getitem_Return in Hlat as [_ ->].
  apply getitem_Return in Hlong as [_ ->].
  apply between_Return in Hc. apply between_Return in Hd. subst c d.
  cbn [columns rows dropna].
  set (kept := List.filter _ (map (restrict REQUIRED) _)).
  set (boolean := match kept with [] => _ | _ => true end).
  assert (boolean = true
          \/ rows (mkDataFrame REQUIRED kept) = []) as Hkey.
  { unfold boolean. cbn [rows]. destruct kept; [right|left]; reflexivity. }
  split; [intros Hne; apply (columns_getitem_key _ _ _ Hne Hkey)|].
  rewrite (rows_getitem_key _ _ _ Hkey). cbn [rows]. unfold kept.
  rewrite !map_map, !series_and_map, !mask_rows_map.
  rewrite filter_twice, filter_of_map, filter_twice.
  f_equal. apply filter_pointwise. intros r.
  rewrite has_na_restrict.
  rewrite !cell_at_restrict by (apply rx_lat_required || apply rx_long_required).
  unfold accepts, payload_ok.
  destruct (in_range (-90) 90 (cell_at "rx lat" r)) eqn:Ela;
    destruct (in_range (-180) 180 (cell_at "rx long" r)) eqn:Elo;
    rewrite ?andb_false_r; try reflexivity.
  rewrite (in_range_isinstance _ _ _ Ela), (in_range_isinstance _ _ _ Elo).
  rewrite !andb_true_r. reflexivity.
Qed.

Lemma in_range_spec (lo hi : Q) (c : cell) :
  in_range lo hi c = true <-> numeric_within lo hi c.
Proof.
  unfold in_range, numeric_within. destruct (num_of c) as [x|].
  - rewrite andb_true_iff, !Qle_bool_iff. split.
    + intros [? ?]. exists x. auto.
    + intros (y & Hy & ? & ?). injection Hy as <-. auto.
  - split; [discriminate|]. intros (y & Hy & _). discriminate.
Qed.

Lemma has_na_spec (cols : list string) (r : gmap string cell) :
  has_na cols r = false <-> forall c, In c cols -> cell_at c r <> NaN.
Proof.
  unfold has_na. induction cols as [|c cols IH]; simpl.
  - split; [intros _ c [] | reflexivity].
  - rewrite orb_false_iff, IH. split.
    + intros [Hc Hcols] c' [<-|Hin]; [|auto].
      intros E. rewrite E in Hc. discriminate.
    + intros H. split; [|intros c' Hin; apply H; right; exact Hin].
      destruct (cell_at c r) eqn:E; try reflexivity.
      exfalso. apply (H c); [left; reflexivity | exact E].
Qed.

Lemma accepts_spec (r : gmap string cell) :
  accepts r = true <-> Accepted r.
Proof.
  unfold accepts, Accepted.
  rewrite !andb_true_iff, negb_true_iff, has_na_spec, !in_range_spec.
  unfold payload_ok. split.
  - intros [[Hp Hna] [Hla Hlo]]. repeat split; try assumption.
    destruct (cell_at "payload" r) as [| | |t]; try discriminate.
    exists t. split; [reflexivity | apply re_search_spec; exact Hp].
  - intros ((t & Et & Ht) & Hna & Hla & Hlo). repeat split; try assumption.
    rewrite Et. apply re_search_spec. exact Ht.
Qed.

(** *** When the filter returns and when it raises *)

Lemma between_total (lo hi : Q) (s : list cell) :
  Forall (λ c, is_str c = false) s ->
  between lo hi s = Return (map (in_range lo hi) s).
Proof.
  intros H. apply mapM_total. eapply Forall_impl; [exact H|].
  intros c Hc. destruct c; try discriminate Hc; reflexivity.
Qed.

Lemma between_Raise (lo hi : Q) (s : list cell) (e : exn) :
  between lo hi s = Raise e -> e = TypeError.
Proof.
  unfold between. induction s as [|c s IH]; [discriminate|].
  rewrite mapM_cons.
  destruct c; cbn; try (intros H; injection H as <-; reflexivity);
    destruct (mapM (cell_between lo hi) s); cbn; try discriminate; exact IH.
Qed.

Lemma between_text (lo hi : Q) (s : list cell) :
  Exists (λ c, is_str c = true) s -> between lo hi s = Raise TypeError.
Proof.
  intros H. destruct (between lo hi s) as [mask|e] eqn:E.
  - exfalso. apply mapM_Return in E.
    induction E as [|c b s mask Hc _ IH]; [inversion H|].
    inversion H as [? ? Hstr|? ? Hrest]; subst; [|exact (IH Hrest)].
    destruct c; discriminate.
  - apply between_Raise in E. rewrite E. reflexivity.
Qed.

Lemma first_missing_None (have want : list string) :
  (forall c, In c want -> c ∈ have) -> first_missing have want = None.
Proof.
  induction want as [|c want IH]; intros H; [reflexivity|].
  cbn. destruct (decide (c ∈ have)) as [_|Hn].
  - apply IH. intros c' Hc'. apply H. right. exact Hc'.
  - destruct Hn. apply H. left. reflexivity.
Qed.

Lemma str_contains_total (s : list cell) :
  s = [] \/ Exists (λ c, is_str c = true) s ->
  str_contains s
  = Return (map (λ c, match c with PyStr t => re_search t | _ => false end) s).
Proof.
  intros H. unfold str_contains, str_accessor.
  destruct s as [|c s]; [reflexivity|].
  destruct H as [H|H]; [discriminate H|].
  apply List.Exists_exists in H as (c' & Hin & Hc').
  assert (existsb is_str (c :: s) = true) as ->; [|reflexivity].
  apply List.existsb_exists. exists c'. split; assumption.
Qed.

(** The rows that reach the range tests of lines 18-21. *)
Lemma rows_before_range_tests (df : DataFrame) (r : gmap string cell) :
  In r (List.filter (λ r, negb (has_na REQUIRED r))
          (map (restrict REQUIRED) (List.filter payload_ok (rows df)))) <->
  exists r0, In r0 (rows df) /\ payload_ok r0 = true
             /\ has_na REQUIRED r0 = false /\ r = restrict REQUIRED r0.
Proof.
  rewrite filter_In, in_map_iff, negb_true_iff. split.
  - intros [(r0 & <- & Hr0) Hna]. apply filter_In in Hr0 as [Hin Hp].
    rewrite has_na_restrict in Hna. eauto 6.
  - intros (r0 & Hin & Hp & Hna & ->). rewrite has_na_restrict. split; [|exact Hna].
    exists r0. split; [reflexivity|]. apply filter_In. auto.
Qed.

Lemma filter_rows_steps (df : DataFrame) :
  "payload" ∈ columns df ->
  (forall c, In c REQUIRED -> c ∈ columns df) ->
  rows df = [] \/ Exists (λ r, is_str (cell_at "payload" r) = true) (rows df) ->
  let kept := List.filter (λ r, negb (has_na REQUIRED r))
                (map (restrict REQUIRED) (List.filter payload_ok (rows df))) in
  filter_rows df =
    (c ← between (-90) 90 (map (cell_at "rx lat") kept);
     d ← between (-180) 180 (map (cell_at "rx long") kept);
     Return (getitem_key (mkDataFrame REQUIRED kept)
               (match kept with
                | [] => negb (text_column df "rx lat" || text_column df "rx long")
                | _ => true
                end)
               (series_and
                  (series_and
                     (series_and (map isinstance_num (map (cell_at "rx lat") kept))
                                 (map isinstance_num (map (cell_at "rx long") kept)))
                     c) d))).
Proof.
  intros Hp Hreq Hstr. cbv zeta. unfold filter_rows.
  rewrite (getitem_total _ _ Hp). cbn [mbind result_bind].
  rewrite str_contains_total.
  2:{ destruct Hstr as [->|Hstr]; [left; reflexivity|right].
      apply List.Exists_exists in Hstr as (r & Hin & Hr).
      apply List.Exists_exists. exists (cell_at "payload" r). split; [|exact Hr].
      apply in_map. exact Hin. }
  cbn [mbind result_bind]. rewrite map_map, mask_rows_map.
  unfold getitems. cbn [columns rows]. rewrite (first_missing_None _ _ Hreq).
  cbn [mbind result_bind dropna columns rows].
  rewrite (getitem_total _ "rx lat") by apply rx_lat_required.
  cbn [mbind result_bind].
  rewrite (getitem_total _ "rx long") by apply rx_long_required.
  reflexivity.
Qed.

(** On a source with the six columns, a payload column holding text and
    coordinate columns holding no text, the filter raises nothing. *)
Lemma filter_rows_total (df : DataFrame) :
  "payload" ∈ columns df ->
  (forall c, In c REQUIRED -> c ∈ columns df) ->
  rows df = [] \/ Exists (λ r, is_str (cell_at "payload" r) = true) (rows df) ->
  Forall (λ r, is_str (cell_at "rx lat" r) = false
               /\ is_str (cell_at "rx long" r) = false) (rows df) ->
  filter_rows df
  = Return (mkDataFrame REQUIRED
              (map (restrict REQUIRED) (List.filter accepts (rows df)))).
Proof.
  intros Hp Hreq Hstr Hnum.
  assert (exists df_filtered, filter_rows df = Return df_filtered) as [df_filtered Hf].
  { rewrite (filter_rows_steps df Hp Hreq Hstr). cbv zeta.
    rewrite !between_total; [cbn; eauto| |].
    - apply List.Forall_forall. intros c Hc. apply in_map_iff in Hc as (r & <- & Hr).
      apply rows_before_range_tests in Hr as (r0 & Hin & _ & _ & ->).
      rewrite cell_at_restrict by apply rx_lat_required.
      rewrite List.Forall_forall in Hnum. apply (Hnum r0). exact Hin.
    - apply List.Forall_forall. intros c Hc. apply in_map_iff in Hc as (r & <- & Hr).
      apply rows_before_range_tests in Hr as (r0 & Hin & _ & _ & ->).
      rewrite cell_at_restrict by apply rx_long_required.
      rewrite List.Forall_forall in Hnum. apply (Hnum r0). exact Hin. }
  rewrite Hf. destruct (filter_rows_Return _ _ Hf) as [_ Hr].
  assert (columns df_filtered = REQUIRED) as Hc.
  { rewrite (filter_rows_steps df Hp Hreq Hstr) in Hf. cbv zeta in Hf.
    apply rbind_Return in Hf as (c & _ & Hf). apply rbind_Return in Hf as (d & _ & Hf).
    injection Hf as <-.
    assert (text_column df "rx lat" || text_column df "rx long" = false) as ->.
    { apply orb_false_iff. unfold text_column. split.
      - destruct (existsb _ (rows df)) eqn:E; [|reflexivity].
        apply List.existsb_exists in E as (r & Hin & Hr').
        rewrite List.Forall_forall in Hnum. destruct (Hnum r Hin) as [Hl _]. congruence.
      - destruct (existsb _ (rows df)) eqn:E; [|reflexivity].
        apply List.existsb_exists in E as (r & Hin & Hr').
        rewrite List.Forall_forall in Hnum. destruct (Hnum r Hin) as [_ Hl]. congruence. }
    unfold getitem_key. destruct (List.filter _ _); reflexivity. }
  destruct df_filtered as [cols rs]. cbn in Hc, Hr. subst. reflexivity.
Qed.

(** A text coordinate in a row that passes the payload and presence
    tests makes the filter raise [TypeError], whatever the other rows. *)
Lemma text_coordinate_raises (df : DataFrame) (r : gmap string cell) :
  "payload" ∈ columns df ->
  (forall c, In c REQUIRED -> c ∈ columns df) ->
  In r (rows df) ->
  payload_ok r = true ->
  has_na REQUIRED r = false ->
  is_str (cell_at "rx lat" r) = true \/ is_str (cell_at "rx long" r) = true ->
  filter_rows df = Raise TypeError.
Proof.
  intros Hp Hreq Hin Hpay Hna Htext.
  assert (Exists (λ r, is_str (cell_at "payload" r) = true) (rows df)) as Hstr.
  { apply List.Exists_exists. exists r. split; [exact Hin|].
    unfold payload_ok in Hpay. destruct (cell_at "payload" r); try discriminate.
    reflexivity. }
  rewrite (filter_rows_steps df Hp Hreq (or_intror Hstr)). cbv zeta.
  set (kept := List.filter _ _).
  assert (In (restrict REQUIRED r) kept) as Hkept.
  { apply rows_before_range_tests. eauto 6. }
  destruct Htext as [Hlat|Hlong].
  - rewrite (between_text (-90) 90); [reflexivity|].
    apply List.Exists_exists. exists (cell_at "rx lat" r). split; [|exact Hlat].
    rewrite <- (cell_at_restrict REQUIRED) by apply rx_lat_required.
    apply in_map. exact Hkept.
  - destruct (between (-90) 90 (map (cell_at "rx lat") kept)) as [c|e] eqn:E.
    + cbn [mbind result_bind]. rewrite (between_text (-180) 180); [reflexivity|].
      apply List.Exists_exists. exists (cell_at "rx long" r). split; [|exact Hlong].
      rewrite <- (cell_at_restrict REQUIRED) by apply rx_long_required.
      apply in_map. exact Hkept.
    + apply between_Raise in E. rewrite E. reflexivity.
Qed.

(** ** Point layers *)

Lemma rbind_assoc {A B C} (m : result A) (f : A -> result B) (g : B -> result C) :
  (m ≫= f) ≫= g = m ≫= (λ a, f a ≫= g).
Proof. destruct m; reflexivity. Qed.

Lemma cell_at_insert_ne (c c' : string) (v : cell) (r : gmap string cell) :
  c <> c' -> cell_at c' (<[c := v]> r) = cell_at c' r.
Proof. intros H. unfold cell_at. rewrite lookup_insert_ne by exact H. reflexivity. Qed.

Lemma cell_at_insert_eq (c : string) (v : cell) (r : gmap string cell) :
  cell_at c (<[c := v]> r) = v.
Proof. unfold cell_at. rewrite lookup_insert_eq. reflexivity. Qed.

Lemma popup_info_insert (csv_file : string) (v : cell) (r : gmap string cell) :
  popup_info csv_file (<["normalized_snr" := v]> r) = popup_info csv_file r.
Proof.
  unfold popup_info. rewrite !cell_at_insert_ne by discriminate. reflexivity.
Qed.

(** The colour computed from the added column is the colour of the SNR. *)
Lemma make_marker_normalized (csv_file : string) (r : gmap string cell) (n : cell) :
  normalize_cell (cell_at "rx snr" r) = Return n ->
  make_marker csv_file (<["normalized_snr" := n]> r) = marker_of csv_file r.
Proof.
  intros Hn. unfold make_marker, marker_of, row_color.
  rewrite popup_info_insert, cell_at_insert_eq.
  rewrite !cell_at_insert_ne by discriminate.
  destruct (cell_at "rx snr" r) as [|z|q|t]; simpl in Hn; try discriminate;
    injection Hn as <-; simpl; unfold color;
    try destruct (out_of_band _); reflexivity.
Qed.

(** Lines 35 and 40-43 on a row with a numeric SNR compute [color]. *)
Lemma row_color_normalized (r : gmap string cell) (x : Q) :
  num_of (cell_at "rx snr" r) = Some x ->
  exists n,
    normalize_cell (cell_at "rx snr" r) = Return n
    /\ row_color (<["normalized_snr" := n]> r) = Return (color x).
Proof.
  intros Hx.
  destruct (cell_at "rx snr" r) as [|z|q|t] eqn:E; cbn in Hx; try discriminate Hx;
    injection Hx as <-; (eexists; split; [reflexivity|]);
    unfold row_color;
    rewrite cell_at_insert_eq, cell_at_insert_ne, E by discriminate;
    cbn; unfold color; destruct (out_of_band _); reflexivity.
Qed.

Lemma normalize_cell_text (r : gmap string cell) (e : exn) :
  normalize_cell (cell_at "rx snr" r) = Raise e ->
  e = TypeError /\ forall csv_file, marker_of csv_file r = Raise TypeError.
Proof.
  unfold marker_of. destruct (cell_at "rx snr" r); simpl; try discriminate.
  intros H. injection H as <-. auto.
Qed.

Lemma normalize_cell_number (r : gmap string cell) (n : cell) (csv_file : string) :
  normalize_cell (cell_at "rx snr" r) = Return n ->
  exists m, marker_of csv_file r = Return m.
Proof.
  unfold marker_of. destruct (cell_at "rx snr" r); simpl; try discriminate; eauto.
Qed.

Lemma markers_row_by_row (csv_file : string) (l : list (gmap string cell)) :
  (normalized ← mapM normalize_cell (map (cell_at "rx snr") l);
   mapM (make_marker csv_file)
        (zip_with (λ r v, <["normalized_snr" := v]> r) l normalized))
  = mapM (marker_of csv_file) l.
Proof.
  induction l as [|r l IH]; [reflexivity|].
  rewrite map_cons, !mapM_cons.
  destruct (normalize_cell (cell_at "rx snr" r)) as [n|e] eqn:Hn.
  - destruct (normalize_cell_number _ _ csv_file Hn) as [m Hm].
    destruct (mapM normalize_cell (map (cell_at "rx snr") l)) as [ns|e];
      cbn [mbind result_bind mret result_ret] in IH |- *.
    + cbn [zip_with]. rewrite mapM_cons, (make_marker_normalized _ _ _ Hn), IH.
      reflexivity.
    + rewrite Hm, <- IH. reflexivity.
  - apply normalize_cell_text in Hn as [-> Hm]. rewrite Hm. reflexivity.
Qed.

(** *** Rows as [iterrows] yields them *)

Lemma cell_at_upcast (c : string) (r : gmap string cell) :
  cell_at c (upcast r) = upcast_cell (cell_at c r).
Proof.
  unfold cell_at, upcast. rewrite lookup_fmap. destruct (r !! c); reflexivity.
Qed.

Lemma is_str_upcast (c : cell) : is_str (upcast_cell c) = is_str c.
Proof. destruct c; reflexivity. Qed.

Lemma normalize_cell_upcast (c : cell) :
  normalize_cell (upcast_cell c) = normalize_cell c.
Proof. destruct c; reflexivity. Qed.

Lemma snr_color_upcast (c : cell) : snr_color (upcast_cell c) = snr_color c.
Proof. destruct c; reflexivity. Qed.

Lemma normalize_cell_value (c n : cell) :
  normalize_cell c = Return n -> is_str n = false /\ upcast_cell n = n.
Proof.
  destruct c; cbn; intros H; try discriminate H; injection H as <-; auto.
Qed.

Lemma cell_at_series_of_row (df : DataFrame) (c : string) (r : gmap string cell) :
  cell_at c (series_of_row df r) = cell_at c r
  \/ cell_at c (series_of_row df r) = upcast_cell (cell_at c r).
Proof.
  unfold series_of_row. destruct (existsb _ _); [left; reflexivity|].
  right. apply cell_at_upcast.
Qed.

Lemma mapM_map_pointwise {A B C} (f : B -> result C) (g h : A -> B) (l : list A) :
  (forall a, f (g a) = f (h a)) -> mapM f (map g l) = mapM f (map h l).
Proof.
  intros E. induction l as [|a l IH]; [reflexivity|].
  rewrite !map_cons, !mapM_cons, E, IH. reflexivity.
Qed.

Lemma normalize_iterrows (df : DataFrame) :
  mapM normalize_cell (map (cell_at "rx snr") (iterrows df))
  = mapM normalize_cell (map (cell_at "rx snr") (rows df)).
Proof.
  unfold iterrows. rewrite map_map. apply mapM_map_pointwise. intros r.
  destruct (cell_at_series_of_row df "rx snr" r) as [->| ->];
    [reflexivity | apply normalize_cell_upcast].
Qed.

Lemma not_normalized_required : "normalized_snr" ∉ REQUIRED.
Proof.
  unfold REQUIRED. rewrite !not_elem_of_cons.
  repeat split; try discriminate. apply not_elem_of_nil.
Qed.

Lemma has_text_insert (r : gmap string cell) (n : cell) :
  is_str n = false ->
  has_text (REQUIRED ++ ["normalized_snr"]) (<["normalized_snr" := n]> r)
  = has_text REQUIRED r.
Proof.
  intros Hn. unfold has_text, REQUIRED. cbn [app existsb].
  rewrite !cell_at_insert_ne by discriminate.
  rewrite cell_at_insert_eq, Hn. rewrite !orb_false_r. reflexivity.
Qed.

Lemma iterrows_assign (df : DataFrame) (ns : list cell) :
  columns df = REQUIRED ->
  Forall2 (λ r n, normalize_cell (cell_at "rx snr" r) = Return n) (rows df) ns ->
  iterrows (assign df "normalized_snr" ns)
  = zip_with (λ r v, <["normalized_snr" := v]> r) (iterrows df) ns.
Proof.
  intros Hcols Hns. unfold iterrows, series_of_row, assign. cbn [columns rows].
  rewrite Hcols.
  destruct (decide ("normalized_snr" ∈ REQUIRED)) as [Hin|_];
    [destruct (not_normalized_required Hin)|].
  assert (existsb (has_text (REQUIRED ++ ["normalized_snr"]))
            (zip_with (λ r v, <["normalized_snr" := v]> r) (rows df) ns)
          = existsb (has_text REQUIRED) (rows df)) as ->.
  { induction Hns as [|r n l ns Hn _ IH]; [reflexivity|].
    cbn [zip_with existsb]. rewrite IH.
    rewrite has_text_insert by (apply (normalize_cell_value _ _ Hn)). reflexivity. }
  destruct (existsb (has_text REQUIRED) (rows df)).
  - rewrite !map_id. reflexivity.
  - induction Hns as [|r n l ns Hn _ IH]; [reflexivity|].
    cbn [zip_with map]. rewrite IH. f_equal.
    unfold upcast. rewrite fmap_insert.
    rewrite (proj2 (normalize_cell_value _ _ Hn)). reflexivity.
Qed.

Lemma build_layer_row_by_row (csv_file : string) (df : DataFrame) :
  columns df = REQUIRED ->
  build_layer csv_file df =
    (markers ← mapM (marker_of csv_file) (iterrows df);
     Return (mkFeatureGroup (basename csv_file) markers)).
Proof.
  intros Hcols. unfold build_layer.
  rewrite getitem_total by (rewrite Hcols; apply rx_snr_required).
  cbn [mbind result_bind].
  rewrite <- markers_row_by_row, normalize_iterrows.
  destruct (mapM normalize_cell (map (cell_at "rx snr") (rows df))) as [ns|e] eqn:E;
    [|reflexivity].
  cbn [mbind result_bind].
  rewrite iterrows_assign; [reflexivity | exact Hcols |].
  apply mapM_Return in E. apply Forall2_fmap_l in E. exact E.
Qed.

Lemma mapM_marker_of_total (csv_file : string) (l : list (gmap string cell)) :
  Forall (λ r, is_str (cell_at "rx snr" r) = false) l ->
  exists markers, mapM (marker_of csv_file) l = Return markers.
Proof.
  induction 1 as [|r l Hr _ [ms IH]]; [exists []; reflexivity|].
  rewrite mapM_cons, IH. unfold marker_of.
  destruct (cell_at "rx snr" r); try discriminate; cbn; eauto.
Qed.

Lemma iterrows_numeric_snr (df : DataFrame) :
  Forall (λ r, is_str (cell_at "rx snr" r) = false) (rows df) ->
  Forall (λ r, is_str (cell_at "rx snr" r) = false) (iterrows df).
Proof.
  intros H. unfold iterrows. apply List.Forall_map.
  eapply Forall_impl; [exact H|]. intros r Hr. cbn beta.
  destruct (cell_at_series_of_row df "rx snr" r) as [->| ->];
    [exact Hr | rewrite is_str_upcast; exact Hr].
Qed.

Lemma filter_rows_not_empty (df df_filtered : DataFrame) :
  filter_rows df = Return df_filtered ->
  empty df_filtered = match rows df_filtered with [] => true | _ => false end.
Proof.
  intros H. apply filter_rows_Return in H as [Hc _].
  unfold empty. destruct (rows df_filtered) as [|r l].
  - destruct (columns df_filtered); reflexivity.
  - rewrite Hc by discriminate. reflexivity.
Qed.

(** [create_point_layer] on a source that is read and filtered without
    an exception. *)
Lemma create_point_layer_filtered (fs : gmap string DataFrame) (csv_file : string)
    (df df_filtered : DataFrame) :
  fs !! csv_file = Some df ->
  filter_rows df = Return df_filtered ->
  create_point_layer fs csv_file =
    match rows df_filtered with
    | [] => IO [no_data_message csv_file] (Return None)
    | _ => IO [] (markers ← mapM (marker_of csv_file) (iterrows df_filtered);
                  Return (Some (mkFeatureGroup (basename csv_file) markers)))
    end.
Proof.
  intros Hfs Hf. unfold create_point_layer, read_csv. rewrite Hfs.
  unfold lift, mbind, io_bind. cbn [value stdout app]. rewrite Hf.
  cbn [value stdout app].
  rewrite (filter_rows_not_empty _ _ Hf).
  pose proof (filter_rows_Return _ _ Hf) as [Hcols _].
  destruct (rows df_filtered) as [|r l] eqn:Hrows; [reflexivity|].
  rewrite (build_layer_row_by_row _ _ (Hcols ltac:(discriminate))).
  destruct (mapM (marker_of csv_file) (iterrows df_filtered)); reflexivity.
Qed.

Lemma read_csv_Return (fs : gmap string DataFrame) (f : string) (df : DataFrame) :
  read_csv fs f = Return df <-> fs !! f = Some df.
Proof.
  unfold read_csv. destruct (fs !! f); split; intros H; try discriminate;
    injection H as <-; reflexivity.
Qed.

Lemma create_point_layer_Return (fs : gmap string DataFrame) (csv_file : string)
    (layer : option FeatureGroup) :
  value (create_point_layer fs csv_file) = Return layer ->
  exists df df_filtered,
    fs !! csv_file = Some df /\ filter_rows df = Return df_filtered.
Proof.
  unfold create_point_layer. intros H.
  apply io_bind_Return in H as (df & Hdf & H).
  apply io_bind_Return in H as (df_filtered & Hf & _).
  cbn in Hdf, Hf. apply read_csv_Return in Hdf. eauto.
Qed.

Lemma add_layers_Return (fs : gmap string DataFrame) (csv_files : list string)
    (ls : list FeatureGroup) :
  value (add_layers fs csv_files) = Return ls ->
  Forall (λ f, exists layer, value (create_point_layer fs f) = Return layer) csv_files.
Proof.
  revert ls. induction csv_files as [|f rest IH]; intros ls H; [constructor|].
  cbn [add_layers] in H.
  apply io_bind_Return in H as (layer & Hl & H).
  apply io_bind_Return in H as (others & Ho & _).
  constructor; eauto.
Qed.

(** ** The run *)

Lemma mapM_Return_map {A B} (f : A -> result B) (g : A -> B) (l : list A) (bs : list B) :
  (forall a b, f a = Return b -> b = g a) ->
  mapM f l = Return bs -> bs = map g l.
Proof.
  intros Hfg H. apply mapM_Return in H.
  induction H as [|a b l bs Hab _ IH]; [reflexivity|].
  cbn. rewrite (Hfg _ _ Hab), IH. reflexivity.
Qed.

Lemma heat_row_Return (df : DataFrame) (r : gmap string cell) (h : cell * cell * cell) :
  heat_row df r = Return h -> h = heat_sample r.
Proof.
  unfold heat_row, row_getitem, heat_sample.
  destruct (decide ("rx lat" ∈ columns df)); [|discriminate].
  destruct (decide ("rx long" ∈ columns df)); [|discriminate].
  destruct (decide ("rx snr" ∈ columns df)); [|discriminate].
  cbn. intros H. injection H as <-. reflexivity.
Qed.

Lemma concat_Return (df_list : list DataFrame) (merged : DataFrame) :
  concat df_list = Return merged ->
  merged = mkDataFrame (concat_columns df_list) (merged_rows df_list).
Proof.
  unfold concat. destruct df_list; [discriminate|].
  intros H. injection H as <-. reflexivity.
Qed.

(** *** Widening in the merged frame *)

Lemma same_value_refl (c : cell) : same_value c c.
Proof. left. reflexivity. Qed.

Lemma same_value_upcast (c c' : cell) :
  same_value c c' -> same_value c (upcast_cell c').
Proof.
  intros [->| ->]; right; [reflexivity|]. destruct c; reflexivity.
Qed.

Lemma same_value_is_str (c c' : cell) : same_value c c' -> is_str c' = is_str c.
Proof. intros [->| ->]; [reflexivity | apply is_str_upcast]. Qed.

Lemma cell_at_alter (c c' : string) (r : gmap string cell) :
  same_value (cell_at c' r) (cell_at c' (alter upcast_cell c r)).
Proof.
  unfold cell_at. rewrite lookup_alter. destruct (decide (c = c')) as [->|_].
  - destruct (r !! c'); [right; reflexivity | left; reflexivity].
  - apply same_value_refl.
Qed.

Lemma cell_at_widen (cols : list string) (rs : list (gmap string cell))
    (r : gmap string cell) (c : string) :
  same_value (cell_at c r) (cell_at c (widen cols rs r)).
Proof.
  induction cols as [|c0 cols IH]; [apply same_value_refl|].
  cbn [widen fold_right]. fold (widen cols rs r).
  destruct (float_column c0 rs); [|exact IH].
  destruct (cell_at_alter c0 c (widen cols rs r)) as [->| ->];
    [exact IH | apply same_value_upcast, IH].
Qed.

Lemma heat_sample_widen (cols : list string) (rs : list (gmap string cell))
    (r : gmap string cell) :
  same_sample (heat_sample r) (heat_sample (widen cols rs r)).
Proof. unfold same_sample, heat_sample. cbn [fst snd]. repeat split; apply cell_at_widen. Qed.

Lemma widen_samples (cols : list string) (rs l : list (gmap string cell)) :
  Forall2 same_sample
    (map heat_sample l) (map heat_sample (map (widen cols rs) l)).
Proof.
  induction l as [|r l IH]; [constructor|].
  cbn [map]. constructor; [apply heat_sample_widen | exact IH].
Qed.

Lemma merged_rows_samples (df_list : list DataFrame) :
  Forall2 same_sample
    (map heat_sample (flat_map rows df_list))
    (map heat_sample (merged_rows df_list)).
Proof. apply widen_samples. Qed.

Lemma concat_columns_acc (df_list : list DataFrame) (acc : list string) (c : string) :
  c ∈ acc ->
  c ∈ fold_left
        (λ acc df,
           (acc ++ List.filter (λ c, negb (bool_decide (c ∈ acc))) (columns df))%list)
        df_list acc.
Proof.
  revert acc. induction df_list as [|df l IH]; intros acc Hc; [exact Hc|].
  cbn [fold_left]. apply IH. apply elem_of_app. left. exact Hc.
Qed.

Lemma concat_columns_In (df_list : list DataFrame) (df : DataFrame) (c : string) :
  In df df_list -> c ∈ columns df -> c ∈ concat_columns df_list.
Proof.
  unfold concat_columns. generalize (@nil string) as acc.
  induction df_list as [|df' l IH]; intros acc Hin Hc; [destruct Hin|].
  cbn [fold_left]. destruct Hin as [->|Hin]; [|apply IH; assumption].
  apply concat_columns_acc.
  destruct (decide (c ∈ acc)) as [Hacc|Hacc]; apply elem_of_app; [left; exact Hacc|].
  right. apply list_elem_of_In, filter_In. split; [apply list_elem_of_In; exact Hc|].
  apply negb_true_iff, bool_decide_eq_false. exact Hacc.
Qed.

Lemma Forall2_In_r {A B} (R : A -> B -> Prop) (l : list A) (l' : list B) (b : B) :
  Forall2 R l l' -> In b l' -> exists a, In a l /\ R a b.
Proof.
  induction 1 as [|x y l l' Hxy _ IH]; intros Hin; [destruct Hin|].
  destruct Hin as [<-|Hin].
  - exists x. split; [left; reflexivity | exact Hxy].
  - destruct (IH Hin) as (a & Ha & Hab). exists a. split; [right; exact Ha | exact Hab].
Qed.

Lemma filter_rows_Return_payload (df df_filtered : DataFrame) :
  filter_rows df = Return df_filtered ->
  "payload" ∈ columns df
  /\ (rows df = [] \/ exists r, In r (rows df) /\ is_str (cell_at "payload" r) = true).
Proof.
  unfold filter_rows. intros H.
  apply rbind_Return in H as (payload & Hp & H).
  apply rbind_Return in H as (mask & Hm & _).
  apply getitem_Return in Hp as [Hcol ->]. split; [exact Hcol|].
  unfold str_contains in Hm. apply rbind_Return in Hm as (vals & Hv & _).
  unfold str_accessor in Hv.
  destruct (rows df) as [|r l]; [left; reflexivity|right].
  rewrite map_cons in Hv.
  destruct (existsb is_str (cell_at "payload" r :: map (cell_at "payload") l)) eqn:E;
    [|discriminate Hv].
  apply List.existsb_exists in E as (c & Hc & Hstr).
  change (cell_at "payload" r :: map (cell_at "payload") l)
    with (map (cell_at "payload") (r :: l)) in Hc.
  apply in_map_iff in Hc as (r0 & <- & Hr0). eauto.
Qed.

Lemma iterrows_text (df : DataFrame) (r : gmap string cell) (c : string) :
  In r (rows df) -> In c (columns df) -> is_str (cell_at c r) = true ->
  iterrows df = rows df.
Proof.
  intros Hr Hc Hstr. unfold iterrows, series_of_row.
  assert (existsb (has_text (columns df)) (rows df) = true) as ->.
  { apply List.existsb_exists. exists r. split; [exact Hr|].
    apply List.existsb_exists. exists c. split; assumption. }
  apply map_id.
Qed.

(** The frame merged for the heat map is iterated as it is: a source
    with a row has a text in its payload column, or [create_point_layer]
    raises on it. *)
Lemma iterrows_merged (fs : gmap string DataFrame) (csv_files : list string)
    (df_list : list DataFrame) (ls : list FeatureGroup) :
  mapM (read_csv fs) csv_files = Return df_list ->
  value (add_layers fs csv_files) = Return ls ->
  iterrows (mkDataFrame (concat_columns df_list) (merged_rows df_list))
  = merged_rows df_list.
Proof.
  intros Hlist Hls.
  destruct (flat_map rows df_list) as [|r l] eqn:E.
  { unfold iterrows, merged_rows. cbn [rows]. rewrite E. reflexivity. }
  assert (In r (flat_map rows df_list)) as Hr by (rewrite E; left; reflexivity).
  apply in_flat_map in Hr as (df & Hdf & Hin).
  apply mapM_Return in Hlist.
  destruct (Forall2_In_r _ _ _ _ Hlist Hdf) as (f & Hf & Hread).
  apply read_csv_Return in Hread.
  apply add_layers_Return in Hls. rewrite List.Forall_forall in Hls.
  destruct (Hls f Hf) as [layer Hlayer].
  destruct (create_point_layer_Return _ _ _ Hlayer) as (df' & df_filtered & Hfs & Hfilter).
  assert (df' = df) as -> by congruence.
  destruct (filter_rows_Return_payload _ _ Hfilter) as [Hcol [Hnil|(r0 & Hr0 & Hstr)]].
  { rewrite Hnil in Hin. destruct Hin. }
  apply (iterrows_text (mkDataFrame (concat_columns df_list) (merged_rows df_list))
           (widen (concat_columns df_list) (flat_map rows df_list) r0) "payload");
    cbn [rows columns].
  - unfold merged_rows. cbv zeta. apply in_map. apply in_flat_map. eauto.
  - apply list_elem_of_In. apply (concat_columns_In _ df); assumption.
  - rewrite (same_value_is_str _ _ (cell_at_widen _ _ r0 "payload")). exact Hstr.
Qed.

(** A run that saves its map went through every step of
    [create_map_with_layers] without an exception. *)
Lemma create_map_with_layers_Return (fs : gmap string DataFrame)
    (csv_files : list string) (out : string) (artifact : Artifact) :
  value (create_map_with_layers fs csv_files out) = Return artifact ->
  exists first rest initial_df lat long mean_lat mean_long df_list ls,
    csv_files = first :: rest
    /\ fs !! first = Some initial_df
    /\ getitem initial_df "rx lat" = Return lat /\ mean lat = Return mean_lat
    /\ getitem initial_df "rx long" = Return long /\ mean long = Return mean_long
    /\ mapM (read_csv fs) csv_files = Return df_list
    /\ value (add_layers fs csv_files) = Return ls
    /\ artifact =
         mkArtifact out
           (mkMap (mean_lat, mean_long)
                  (map heat_sample (merged_rows df_list)) ls).
Proof.
  unfold create_map_with_layers. intros H.
  apply io_bind_Return in H as (first & Hfirst & H).
  apply io_bind_Return in H as (initial_df & Hdf & H).
  apply io_bind_Return in H as (lat & Hlat & H).
  apply io_bind_Return in H as (mean_lat & Hmlat & H).
  apply io_bind_Return in H as (long & Hlong & H).
  apply io_bind_Return in H as (mean_long & Hmlong & H).
  apply io_bind_Return in H as (u & _ & H).
  apply io_bind_Return in H as (df_list & Hlist & H).
  apply io_bind_Return in H as (merged & Hmerged & H).
  apply io_bind_Return in H as (heat & Hheat & H).
  apply io_bind_Return in H as (u' & _ & H).
  apply io_bind_Return in H as (ls & Hls & H).
  cbn in Hfirst, Hdf, Hlat, Hmlat, Hlong, Hmlong, Hlist, Hmerged, Hheat, H.
  destruct csv_files as [|f rest]; [discriminate|]. injection Hfirst as <-.
  apply read_csv_Return in Hdf.
  apply (mapM_Return_map _ heat_sample) in Hheat; [|apply heat_row_Return].
  apply concat_Return in Hmerged. subst merged.
  rewrite (iterrows_merged _ _ _ _ Hlist Hls) in Hheat.
  injection H as <-.
  exists f, rest, initial_df, lat, long, mean_lat, mean_long, df_list, ls.
  rewrite Hheat. repeat split; assumption.
Qed.

(** *** What the rendering library accepts *)

Lemma validate_coordinate_Return (c : cell) (u : unit) :
  validate_coordinate c = Return u <-> is_nan c = false /\ is_str c = false.
Proof.
  destruct u. destruct c; cbn; split; try (intros [? ?]); try discriminate; auto.
Qed.

Lemma validate_location_Return (location : cell * cell) (u : unit) :
  validate_location location = Return u <->
  (is_nan (fst location) = false /\ is_str (fst location) = false)
  /\ (is_nan (snd location) = false /\ is_str (snd location) = false).
Proof.
  unfold validate_location. rewrite <- !validate_coordinate_Return. split.
  - intros H. apply rbind_Return in H as ([] & H1 & H2). destruct u. split; eassumption.
  - intros [H1 H2]. rewrite H1. exact H2.
Qed.

Lemma HeatMap_Return (data : list (cell * cell * cell)) (u : unit) :
  HeatMap data = Return u <->
  Forall (λ h, (is_nan (fst (fst h)) = false /\ is_str (fst (fst h)) = false)
               /\ (is_nan (snd (fst h)) = false /\ is_str (snd (fst h)) = false)
               /\ (is_nan (snd h) = false /\ is_str (snd h) = false)) data.
Proof.
  destruct u. unfold HeatMap. split.
  - intros H. apply rbind_Return in H as (us & Hus & H).
    destruct (existsb (λ h, is_str (snd h)) data) eqn:Es; [discriminate H|].
    destruct (existsb (λ h, is_nan (snd h)) data) eqn:En; [discriminate H|].
    apply mapM_Return in Hus. apply List.Forall_forall. intros h Hh.
    destruct (Forall2_In_l _ _ _ _ Hus Hh) as (u & _ & Hu).
    apply validate_location_Return in Hu as [Hlat Hlong].
    split; [exact Hlat|]. split; [exact Hlong|]. split.
    + destruct (is_nan (snd h)) eqn:E; [|reflexivity].
      assert (existsb (λ h, is_nan (snd h)) data = true) as E'
        by (apply List.existsb_exists; eauto).
      congruence.
    + destruct (is_str (snd h)) eqn:E; [|reflexivity].
      assert (existsb (λ h, is_str (snd h)) data = true) as E'
        by (apply List.existsb_exists; eauto).
      congruence.
  - intros H.
    rewrite (mapM_total _ (λ _, tt)).
    2:{ eapply Forall_impl; [exact H|]. intros h (Hlat & Hlong & _). cbn beta.
        apply validate_location_Return. split; assumption. }
    cbn [mbind result_bind].
    assert (existsb (λ h, is_str (snd h)) data = false) as ->.
    { destruct (existsb _ data) eqn:E; [|reflexivity].
      apply List.existsb_exists in E as (h & Hh & Hs).
      rewrite List.Forall_forall in H. destruct (H h Hh) as (_ & _ & _ & Hs'). congruence. }
    assert (existsb (λ h, is_nan (snd h)) data = false) as ->.
    { destruct (existsb _ data) eqn:E; [|reflexivity].
      apply List.existsb_exists in E as (h & Hh & Hs).
      rewrite List.Forall_forall in H. destruct (H h Hh) as (_ & _ & Hs' & _). congruence. }
    reflexivity.
Qed.

(** A run that saves its map handed the rendering library a centre and
    heat samples it accepts. *)
Lemma create_map_with_layers_accepted (fs : gmap string DataFrame)
    (csv_files : list string) (out : string) (artifact : Artifact) :
  value (create_map_with_layers fs csv_files out) = Return artifact ->
  validate_location (map_location (content artifact)) = Return tt
  /\ HeatMap (heat_data (content artifact)) = Return tt.
Proof.
  unfold create_map_with_layers. intros H.
  apply io_bind_Return in H as (first & Hfirst & H).
  apply io_bind_Return in H as (initial_df & Hdf & H).
  apply io_bind_Return in H as (lat & Hlat & H).
  apply io_bind_Return in H as (mean_lat & Hmlat & H).
  apply io_bind_Return in H as (long & Hlong & H).
  apply io_bind_Return in H as (mean_long & Hmlong & H).
  apply io_bind_Return in H as ([] & Hcentre & H).
  apply io_bind_Return in H as (df_list & Hlist & H).
  apply io_bind_Return in H as (merged & Hmerged & H).
  apply io_bind_Return in H as (heat & Hheat & H).
  apply io_bind_Return in H as ([] & Hvalid & H).
  apply io_bind_Return in H as (ls & Hls & H).
  cbn in H. injection H as <-. cbn [content map_location heat_data].
  split; [exact Hcentre | exact Hvalid].
Qed.

(** ** Colours *)

Lemma out_of_band_spec (snr : Q) :
  out_of_band snr = true <-> (15 < snr)%Q \/ (snr <= -25)%Q.
Proof.
  unfold out_of_band. rewrite orb_true_iff, negb_true_iff, Qle_bool_iff.
  split; (intros [H|H]; [left | right; exact H]).
  - apply Qnot_le_lt. intros Hle. apply Qle_bool_iff in Hle. congruence.
  - destruct (Qle_bool snr 15) eqn:E; [|reflexivity].
    apply Qle_bool_iff in E. exfalso. exact (Qlt_not_le _ _ H E).
Qed.

Lemma in_band (snr : Q) :
  (-25 < snr)%Q -> (snr <= 15)%Q -> out_of_band snr = false.
Proof.
  intros Hlo Hhi. destruct (out_of_band snr) eqn:E; [|reflexivity].
  apply out_of_band_spec in E as [E|E]; exfalso.
  - exact (Qlt_not_le _ _ E Hhi).
  - exact (Qlt_not_le _ _ Hlo E).
Qed.

Lemma round_comp (x y : Q) : (x == y)%Q -> mcolors.round x = mcolors.round y.
Proof.
  intros E. unfold mcolors.round.
  rewrite (Qfloor_comp _ _ E).
  assert ((x - inject_Z (Qfloor y) ?= 1 # 2)%Q = (y - inject_Z (Qfloor y) ?= 1 # 2)%Q) as ->.
  { apply Qcompare_comp; [rewrite E|]; reflexivity. }
  reflexivity.
Qed.

(** The blue channel of the red-yellow-green table is zero throughout. *)
Lemma lut_channel_zero (i : Z) : (mcolors.lut_channel 0 0 0 i == 0)%Q.
Proof.
  unfold mcolors.lut_channel.
  destruct (i <=? 0)%Z; [reflexivity|].
  destruct (mcolors.N - 1 <=? i)%Z; [reflexivity|].
  cbv zeta. destruct (Qle_bool _ _); ring.
Qed.

Lemma gradient_never_grey (i : Z) :
  mcolors.rgb2hex (mcolors.lut mcolors.red mcolors.yellow mcolors.green i) <> GREY.
Proof.
  unfold mcolors.lut, mcolors.red, mcolors.yellow, mcolors.green, mcolors.rgb2hex.
  assert (mcolors.round (mcolors.lut_channel 0 0 0 i * 255) = 0) as ->.
  { rewrite (round_comp _ 0); [reflexivity|]. rewrite lut_channel_zero. ring. }
  unfold mcolors.hex2, GREY. cbn. intros H. discriminate H.
Qed.

Lemma cmap_in_table (t : Q) :
  exists i, mcolors.cmap t = mcolors.lut mcolors.red mcolors.yellow mcolors.green i.
Proof.
  unfold mcolors.cmap. cbv zeta.
  destruct (Qle_bool _ _); [eauto|]. destruct (Qle_bool _ _); eauto.
Qed.





(** ** Popups *)

Lemma string_app_assoc (a b c : string) : (a +:+ b) +:+ c = a +:+ (b +:+ c).
Proof.
  induction a as [|x a IH]; [reflexivity|].
  change (String x ((a +:+ b) +:+ c) = String x (a +:+ (b +:+ c))).
  rewrite IH. reflexivity.
Qed.

Lemma contains_render (fmt : cell -> string) (p : piece) (ps : list piece) :
  In p ps -> contains (render_piece fmt p) (render fmt ps).
Proof.
  induction ps as [|p' ps IH]; intros Hin; [destruct Hin|].
  cbn [render fold_right]. fold (render fmt ps).
  destruct Hin as [->|Hin].
  - exists EmptyString, (render fmt ps). reflexivity.
  - destruct (IH Hin) as (pre & post & ->).
    exists (render_piece fmt p' +:+ pre), post.
    rewrite string_app_assoc. reflexivity.
Qed.

Lemma popup_info_contains (fmt : cell -> string) (csv_file : string)
    (r : gmap string cell) :
  let text := render fmt (popup_info csv_file r) in
  contains (basename csv_file) text
  /\ contains (fmt (cell_at "rx snr" r)) text
  /\ contains (fmt (cell_at "rx elevation" r)) text
  /\ contains (fmt (cell_at "rx lat" r)) text
  /\ contains (fmt (cell_at "rx long" r)) text.
Proof.
  cbv zeta. repeat split.
  - apply (contains_render fmt (Lit (basename csv_file))). cbn. auto.
  - apply (contains_render fmt (Val (cell_at "rx snr" r))). cbn. auto.
  - apply (contains_render fmt (Val (cell_at "rx elevation" r))). cbn. auto 10.
  - apply (contains_render fmt (Val (cell_at "rx lat" r))). cbn. auto 15.
  - apply (contains_render fmt (Val (cell_at "rx long" r))). cbn. auto 20.
Qed.

Lemma marker_of_Return (csv_file : string) (r : gmap string cell) (m : CircleMarker) :
  marker_of csv_file r = Return m ->
  location m = (cell_at "rx lat" r, cell_at "rx long" r)
  /\ snr_color (cell_at "rx snr" r) = Return (marker_color m)
  /\ fill_color m = marker_color m
  /\ popup m = popup_info csv_file r.
Proof.
  unfold marker_of. intros H. apply rbind_Return in H as (c & Hc & H).
  injection H as <-. cbn. auto.
Qed.

Lemma popup_info_restrict (csv_file : string) (r : gmap string cell) :
  popup_info csv_file (restrict REQUIRED r) = popup_info csv_file r.
Proof.
  unfold popup_info.
  rewrite !cell_at_restrict
    by (apply rx_snr_required || apply rx_elevation_required
        || apply rx_lat_required || apply rx_long_required).
  reflexivity.
Qed.

(** *** The table against the gradient *)







(** *** Runs over complete sources *)

Lemma io_bind_value {A B} (m : io A) (k : A -> io B) (a : A) :
  value m = Return a -> value (m ≫= k) = value (k a).
Proof. intros H. unfold mbind, io_bind. rewrite H. reflexivity. Qed.

Lemma create_point_layer_total (fs : gmap string DataFrame) (f : string) (df : DataFrame) :
  fs !! f = Some df -> clean df ->
  exists layer, value (create_point_layer fs f) = Return layer.
Proof.
  intros Hfs (Hp & Hreq & Hstr & Hnum).
  assert (filter_rows df
          = Return (mkDataFrame REQUIRED
                      (map (restrict REQUIRED) (List.filter accepts (rows df))))) as Hf.
  { apply filter_rows_total; try assumption.
    eapply Forall_impl; [exact Hnum|]. intros r (? & ? & ?). auto. }
  rewrite (create_point_layer_filtered _ _ _ _ Hfs Hf).
  set (df_filtered := mkDataFrame REQUIRED _).
  destruct (mapM_marker_of_total f (iterrows df_filtered)) as [ms Hms].
  { apply iterrows_numeric_snr. cbn [rows df_filtered].
    apply List.Forall_forall. intros r' Hr'.
    apply in_map_iff in Hr' as (r0 & <- & Hr0). apply filter_In in Hr0 as [Hin _].
    rewrite cell_at_restrict by apply rx_snr_required.
    rewrite List.Forall_forall in Hnum. apply (Hnum r0 Hin). }
  rewrite Hms. destruct (rows df_filtered); eexists; reflexivity.
Qed.

Lemma add_layers_total (fs : gmap string DataFrame) (csv_files : list string) :
  Forall (λ f, exists layer, value (create_point_layer fs f) = Return layer) csv_files ->
  exists ls, value (add_layers fs csv_files) = Return ls.
Proof.
  induction 1 as [|f rest [layer Hl] _ [ls IH]]; [eexists; reflexivity|].
  cbn [add_layers]. rewrite (io_bind_value _ _ _ Hl), (io_bind_value _ _ _ IH).
  eexists. reflexivity.
Qed.

Lemma mean_total (s : list cell) :
  Forall (λ c, is_str c = false) s -> exists m, mean s = Return m.
Proof.
  intros H. unfold mean.
  assert (existsb is_str s = false) as ->.
  { induction H as [|c s Hc _ IH]; [reflexivity|]. cbn. rewrite Hc, IH. reflexivity. }
  destruct (omap num_of s); eauto.
Qed.

Lemma mapM_read_csv (fs : gmap string DataFrame) (csv_files : list string)
    (df_list : list DataFrame) :
  Forall2 (λ f df, fs !! f = Some df) csv_files df_list ->
  mapM (read_csv fs) csv_files = Return df_list.
Proof.
  induction 1 as [|f df l l' Hf _ IH]; [reflexivity|].
  rewrite mapM_cons, (proj2 (read_csv_Return _ _ _) Hf), IH. reflexivity.
Qed.

Lemma is_nan_same_value (c c' : cell) : same_value c c' -> is_nan c' = is_nan c.
Proof. intros [->| ->]; [reflexivity | destruct c; reflexivity]. Qed.

Lemma mean_number (s : list cell) (m : cell) :
  mean s = Return m ->
  (exists c x, In c s /\ num_of c = Some x) ->
  is_nan m = false.
Proof.
  unfold mean. intros H (c0 & x0 & Hin0 & Hx0).
  destruct (existsb is_str s); [discriminate H|].
  assert (x0 ∈ omap num_of s) as Hne.
  { apply list_elem_of_omap. exists c0. split; [apply list_elem_of_In; exact Hin0 | exact Hx0]. }
  destruct (omap num_of s) as [|x xs]; [inversion Hne|].
  injection H as <-. reflexivity.
Qed.

Lemma number_num_of (c : cell) :
  is_str c = false -> is_nan c = false -> exists x, num_of c = Some x.
Proof. destruct c; try discriminate; cbn; eauto. Qed.

Lemma complete_row (df : DataFrame) (r : gmap string cell) (c : string) :
  complete df -> In r (rows df) ->
  c = "rx lat" \/ c = "rx long" \/ c = "rx snr" ->
  is_nan (cell_at c r) = false /\ exists x, num_of (cell_at c r) = Some x.
Proof.
  intros [(_ & _ & _ & Hnum) Hnan] Hin Hc.
  rewrite List.Forall_forall in Hnum, Hnan.
  destruct (Hnum r Hin) as (H1 & H2 & H3). destruct (Hnan r Hin) as (N1 & N2 & N3).
  destruct Hc as [->|[->| ->]]; (split; [|apply number_num_of]); assumption.
Qed.

Lemma heat_samples_complete (df_list : list DataFrame) :
  Forall complete df_list ->
  Forall (λ h, is_nan (fst (fst h)) = false /\ is_nan (snd (fst h)) = false
               /\ is_nan (snd h) = false)
         (map heat_sample (merged_rows df_list)).
Proof.
  intros Hall. apply List.Forall_forall. intros h' Hh'.
  destruct (Forall2_In_r _ _ _ _ (merged_rows_samples df_list) Hh')
    as (h & Hh & Hlat & Hlong & Hsnr).
  apply in_map_iff in Hh as (r & <- & Hr). apply in_flat_map in Hr as (df & Hdf & Hr).
  rewrite List.Forall_forall in Hall. pose proof (Hall df Hdf) as Hc.
  cbn [heat_sample fst snd] in Hlat, Hlong, Hsnr.
  rewrite (is_nan_same_value _ _ Hlat), (is_nan_same_value _ _ Hlong),
    (is_nan_same_value _ _ Hsnr).
  split; [|split]; apply (complete_row df r _ Hc Hr); auto.
Qed.

Lemma mean_not_text (s : list cell) (m : cell) : mean s = Return m -> is_str m = false.
Proof.
  unfold mean. destruct (existsb is_str s); [discriminate|].
  destruct (omap num_of s); intros H; injection H as <-; reflexivity.
Qed.

Lemma complete_cell (df : DataFrame) (r : gmap string cell) (c : string) :
  complete df -> In r (rows df) ->
  c = "rx lat" \/ c = "rx long" \/ c = "rx snr" ->
  is_nan (cell_at c r) = false /\ is_str (cell_at c r) = false.
Proof.
  intros Hc Hr Hcol. destruct (complete_row df r c Hc Hr Hcol) as [Hn [x Hx]].
  split; [exact Hn|]. destruct (cell_at c r); try discriminate; reflexivity.
Qed.

(** The heat samples of complete sources pass the validation of
    [HeatMap]. *)
Lemma HeatMap_complete (df_list : list DataFrame) :
  Forall complete df_list ->
  HeatMap (map heat_sample
             (iterrows (mkDataFrame (concat_columns df_list) (merged_rows df_list))))
  = Return tt.
Proof.
  intros Hall. apply HeatMap_Return. apply List.Forall_forall. intros h Hh.
  apply in_map_iff in Hh as (r2 & <- & Hr2).
  unfold iterrows in Hr2. cbn [rows] in Hr2.
  apply in_map_iff in Hr2 as (r1 & <- & Hr1).
  unfold merged_rows in Hr1. cbv zeta in Hr1.
  apply in_map_iff in Hr1 as (r & <- & Hr).
  apply in_flat_map in Hr as (df & Hdf & Hr).
  rewrite List.Forall_forall in Hall. pose proof (Hall df Hdf) as Hc.
  set (M := mkDataFrame _ _). set (w := widen _ _ r).
  assert (forall c, c = "rx lat" \/ c = "rx long" \/ c = "rx snr" ->
            is_nan (cell_at c (series_of_row M w)) = false
            /\ is_str (cell_at c (series_of_row M w)) = false) as Hcell.
  { intros c Hcol.
    assert (same_value (cell_at c w) (cell_at c (series_of_row M w))) as H2
      by apply cell_at_series_of_row.
    pose proof (cell_at_widen (concat_columns df_list) (flat_map rows df_list) r c) as H1.
    fold w in H1.
    rewrite (is_nan_same_value _ _ H2), (is_nan_same_value _ _ H1).
    rewrite (same_value_is_str _ _ H2), (same_value_is_str _ _ H1).
    apply (complete_cell df r c Hc Hr Hcol). }
  unfold heat_sample. cbn [fst snd].
  split; [apply Hcell; auto|]. split; apply Hcell; auto.
Qed.

(** Over readable, complete sources, the first of them with a row, the
    run raises nothing and saves its map. *)
Lemma create_map_with_layers_total (fs : gmap string DataFrame)
    (csv_files : list string) (df0 : DataFrame) (dfs : list DataFrame) (out : string) :
  Forall2 (λ f df, fs !! f = Some df) csv_files (df0 :: dfs) ->
  Forall complete (df0 :: dfs) ->
  rows df0 <> [] ->
  exists artifact, value (create_map_with_layers fs csv_files out) = Return artifact.
Proof.
  intros Hread Hall Hrows.
  assert (Forall clean (df0 :: dfs)) as Hclean.
  { eapply Forall_impl; [exact Hall|]. intros d [Hd _]. exact Hd. }
  inversion Hread as [|f df0' rest dfs' Hf0 Hrest]; subst.
  pose proof (Forall_inv Hclean) as (Hp & Hreq & Hstr & Hnum).
  pose proof (Forall_inv Hall) as Hc0.
  unfold create_map_with_layers.
  rewrite (io_bind_value _ _ f) by reflexivity.
  rewrite (io_bind_value _ _ df0) by (apply read_csv_Return; exact Hf0).
  rewrite (io_bind_value _ _ (map (cell_at "rx lat") (rows df0)))
    by (apply getitem_total, Hreq; cbn; auto).
  destruct (mean_total (map (cell_at "rx lat") (rows df0))) as [mlat Hmlat].
  { apply List.Forall_forall. intros c Hc. apply in_map_iff in Hc as (r & <- & Hr).
    rewrite List.Forall_forall in Hnum. apply (Hnum r Hr). }
  rewrite (io_bind_value _ _ mlat) by exact Hmlat.
  rewrite (io_bind_value _ _ (map (cell_at "rx long") (rows df0)))
    by (apply getitem_total, Hreq; cbn; auto).
  destruct (mean_total (map (cell_at "rx long") (rows df0))) as [mlong Hmlong].
  { apply List.Forall_forall. intros c Hc. apply in_map_iff in Hc as (r & <- & Hr).
    rewrite List.Forall_forall in Hnum. apply (Hnum r Hr). }
  rewrite (io_bind_value _ _ mlong) by exact Hmlong.
  rewrite (io_bind_value _ _ tt).
  2:{ cbn [lift value]. apply validate_location_Return. cbn [fst snd].
      destruct (rows df0) as [|r l] eqn:E; [contradiction|].
      assert (In r (rows df0)) as Hr by (rewrite E; left; reflexivity).
      split; (split; [|eapply mean_not_text; eassumption]).
      - apply (mean_number _ _ Hmlat).
        destruct (complete_row df0 r "rx lat" Hc0 Hr) as [_ [x Hx]]; [auto|].
        exists (cell_at "rx lat" r), x. split; [left; reflexivity | exact Hx].
      - apply (mean_number _ _ Hmlong).
        destruct (complete_row df0 r "rx long" Hc0 Hr) as [_ [x Hx]]; [auto|].
        exists (cell_at "rx long" r), x. split; [left; reflexivity | exact Hx]. }
  rewrite (io_bind_value _ _ (df0 :: dfs)) by (apply mapM_read_csv; exact Hread).
  rewrite (io_bind_value _ _ (mkDataFrame (concat_columns (df0 :: dfs))
                                          (merged_rows (df0 :: dfs))))
    by reflexivity.
  rewrite (io_bind_value _ _
             (map heat_sample
                (iterrows (mkDataFrame (concat_columns (df0 :: dfs))
                                       (merged_rows (df0 :: dfs)))))).
  2:{ cbn [lift value]. apply mapM_total, List.Forall_forall. intros r _.
      unfold heat_row, row_getitem. cbn [columns].
      assert (forall c, In c REQUIRED -> c ∈ concat_columns (df0 :: dfs)) as Hcols.
      { intros c Hc. apply (concat_columns_In _ df0); [left; reflexivity | apply Hreq, Hc]. }
      destruct (decide ("rx lat" ∈ concat_columns (df0 :: dfs))) as [_|Hn];
        [|destruct Hn; apply Hcols; cbn; auto].
      destruct (decide ("rx long" ∈ concat_columns (df0 :: dfs))) as [_|Hn];
        [|destruct Hn; apply Hcols; cbn; auto].
      destruct (decide ("rx snr" ∈ concat_columns (df0 :: dfs))) as [_|Hn];
        [|destruct Hn; apply Hcols; cbn; auto].
      reflexivity. }
  rewrite (io_bind_value _ _ tt) by (cbn [lift value]; apply HeatMap_complete; exact Hall).
  destruct (add_layers_total fs (f :: rest)) as [ls Hls].
  { apply List.Forall_forall. intros f' Hin.
    destruct (Forall2_In_l _ _ _ _ Hread Hin) as (df' & Hin' & Hdf').
    apply (create_point_layer_total fs f' df' Hdf').
    rewrite List.Forall_forall in Hclean. exact (Hclean df' Hin'). }
  rewrite (io_bind_value _ _ ls) by exact Hls.
  eexists. reflexivity.
Qed.

(** *** Aborted runs and sums *)

Lemma map_flat_map {A B C} (f : B -> C) (g : A -> list B) (l : list A) :
  map f (flat_map g l) = flat_map (λ a, map f (g a)) l.
Proof.
  induction l as [|a l IH]; [reflexivity|].
  cbn. rewrite map_app, IH. reflexivity.
Qed.

Lemma length_flat_map_sum {A B} (g : A -> list B) (l : list A) :
  length (flat_map g l) = list_sum (map (λ a, length (g a)) l).
Proof.
  induction l as [|a l IH]; [reflexivity|].
  cbn. rewrite length_app, IH. reflexivity.
Qed.

Lemma main_Raise (fs : gmap string DataFrame) (csv_files : list string) (e : exn) :
  csv_files <> [] ->
  value (create_map_with_layers fs csv_files "rangetest-map.html") = Raise e ->
  exit_status (main fs csv_files) = Traceback e /\ written (main fs csv_files) = None.
Proof.
  intros Hne H. unfold main. destruct csv_files as [|f rest]; [contradiction|].
  rewrite H. split; reflexivity.
Qed.

Lemma not_Return_Raise {A} (r : result A) :
  (forall a, r <> Return a) -> exists e, r = Raise e.
Proof. destruct r as [a|e]; [intros H; destruct (H a eq_refl) | eauto]. Qed.

Lemma run_aborts (fs : gmap string DataFrame) (csv_files : list string) :
  csv_files <> [] ->
  (forall out artifact,
     value (create_map_with_layers fs csv_files out) <> Return artifact) ->
  (forall out, exists e, value (create_map_with_layers fs csv_files out) = Raise e)
  /\ exists e, exit_status (main fs csv_files) = Traceback e
               /\ written (main fs csv_files) = None.
Proof.
  intros Hne Hno.
  assert (forall out, exists e,
            value (create_map_with_layers fs csv_files out) = Raise e) as Hall.
  { intros out. apply not_Return_Raise. intros artifact. apply Hno. }
  split; [exact Hall|].
  destruct (Hall "rangetest-map.html") as [e He].
  exists e. apply main_Raise; assumption.
Qed.

(** *** Pinned values *)

(** The colours at the SNR values of the test table. *)
Example color_table :
  map color [-25; -21; -10; 0; 12; 15; 16]%Q
  = ["#808080"; "#ff0000"; "#ffaa00"; "#badd00"; "#008000"; "#008000"; "#808080"].
Proof. vm_compute. reflexivity. Qed.

(** The popup of the heartbeat row of [log1], once the values are
    formatted as Python prints them. *)
Example popup_text (fmt : cell -> string) :
  fmt (PyFloat (7 # 2)) = "3.5" ->
  fmt (PyInt 120) = "120" ->
  fmt (PyFloat 45) = "45.0" ->
  fmt (PyFloat (-122)) = "-122.0" ->
  map (λ m, render fmt (popup m)) (children log1_layer)
  = ["log1.csv<br>SNR: 3.5<br>Elevation: 120<br>Latitude: 45.0<br>Longitude: -122.0"].
Proof.
  intros Hsnr Hele Hlat Hlong. cbn [map children log1_layer popup render fold_right render_piece].
  rewrite Hsnr, Hele, Hlat, Hlong. reflexivity.
Qed.

(** Once the payload column is projected away, the rows of [log5] hold
    numbers only: [iterrows] widens the integer SNR and elevation, and the
    popup interpolates floats. *)
Example numeric_rows_widened :
  value (create_point_layer directory "/data/log5.csv")
  = Return (Some (mkFeatureGroup "log5.csv"
      [ mkCircleMarker (PyFloat 45, PyFloat (-122)) 7 "#8ac500" true "#8ac500" (7 # 10)
          [ Lit "log5.csv"; Lit "<br>";
            Lit "SNR: "; Val (PyFloat 3); Lit "<br>";
            Lit "Elevation: "; Val (PyFloat 120); Lit "<br>";
            Lit "Latitude: "; Val (PyFloat 45); Lit "<br>";
            Lit "Longitude: "; Val (PyFloat (-122)) ] ])).
Proof. vm_compute. reflexivity. Qed.

(** Merged with the float SNR column of [log1], the integer SNR of
    [log5] is widened in the heat samples. *)
Example merged_snr_widened :
  heat_data <$> (content <$>
    match value (create_map_with_layers directory
                   ["/data/log5.csv"; "/data/log1.csv"] "rangetest-map.html") with
    | Return artifact => Some artifact
    | Raise _ => None
    end)
  = Some [ (PyFloat 45, PyFloat (-122), PyFloat 3);
           (PyFloat 45, PyFloat (-122), PyFloat (7 # 2));
           (PyFloat 47, PyFloat (-120), PyFloat (3 # 2)) ].
Proof. vm_compute. reflexivity. Qed.

(** The sample source [log1] is clean. *)
Example log1_clean : clean log1.
Proof.
  unfold clean, log1. cbn [columns rows].
  split; [unfold COLUMNS; set_solver|].
  split.
  { intros c Hc. unfold REQUIRED in Hc. cbn in Hc. unfold COLUMNS.
    destruct Hc as [<-|[<-|[<-|[<-|[<-|[]]]]]]; set_solver. }
  split; [right; constructor; vm_compute; reflexivity|].
  repeat constructor; vm_compute; reflexivity.
Qed.

(** *** Raising sources, complete sources *)

Lemma create_point_layer_unreadable (fs : gmap string DataFrame) (f : string) :
  fs !! f = None -> create_point_layer fs f = IO [] (Raise (FileError f)).
Proof. intros H. unfold create_point_layer, read_csv. rewrite H. reflexivity. Qed.

Lemma create_point_layer_filter_Raise (fs : gmap string DataFrame) (f : string)
    (df : DataFrame) (e : exn) :
  fs !! f = Some df -> filter_rows df = Raise e ->
  create_point_layer fs f = IO [] (Raise e).
Proof.
  intros Hfs Hf. unfold create_point_layer, read_csv. rewrite Hfs.
  unfold lift, mbind, io_bind. cbn [value stdout app]. rewrite Hf. reflexivity.
Qed.

Lemma COLUMNS_payload : "payload" ∈ COLUMNS.
Proof. unfold COLUMNS. set_solver. Qed.

Lemma COLUMNS_required (c : string) : In c REQUIRED -> c ∈ COLUMNS.
Proof.
  intros Hc. unfold REQUIRED in Hc. cbn in Hc. unfold COLUMNS.
  destruct Hc as [<-|[<-|[<-|[<-|[<-|[]]]]]]; set_solver.
Qed.

Example log1_complete : complete log1.
Proof.
  split; [exact log1_clean|]. unfold log1. cbn [rows].
  repeat constructor; vm_compute; reflexivity.
Qed.

Example log3_complete : complete log3.
Proof.
  split.
  - unfold clean, log3. cbn [columns rows].
    split; [exact COLUMNS_payload|]. split; [exact COLUMNS_required|].
    split; [right; constructor; vm_compute; reflexivity|].
    repeat constructor; vm_compute; reflexivity.
  - unfold log3. cbn [rows]. repeat constructor; vm_compute; reflexivity.
Qed.

(** * The claims *)

(** C1 (filter soundness; the code departs from it).  A row whose
    latitude is not a number is to be dropped without an error.  On a
    source holding such a row under a heartbeat payload, the latitude
    column is text, the [isinstance] test of line 18 is false for it, and
    the range test of line 20 raises [TypeError] before any row is
    dropped: nothing is filtered and no layer is returned. *)
Theorem text_latitude_raises :
  filter_rows log2 = Raise TypeError
  /\ create_point_layer directory "/data/log2.csv" = IO [] (Raise TypeError).
Proof. split; vm_compute; reflexivity. Qed.

(** C2 (as the code has it).  The heat samples of a run that saves its
    map are the latitude, longitude and raw SNR of every row of every
    source as read, accepted by the filter or not, source after source
    and row after row, an integer possibly widened to the equal float by
    the merge; their number is the total number of rows read.  Over
    readable, complete sources, the first of them with a row, the run
    does save its map, and no heat sample holds a missing value. *)
Theorem heat_data_all_rows (fs : gmap string DataFrame) (csv_files : list string)
    (out : string) :
  (forall artifact,
     value (create_map_with_layers fs csv_files out) = Return artifact ->
     exists df_list,
       Forall2 (λ f df, fs !! f = Some df) csv_files df_list
       /\ Forall2 same_sample
            (flat_map (λ df, map heat_sample (rows df)) df_list)
            (heat_data (content artifact))
       /\ length (heat_data (content artifact))
          = list_sum (map (λ df, length (rows df)) df_list))
  /\ (forall df dfs,
        Forall2 (λ f df, fs !! f = Some df) csv_files (df :: dfs) ->
        Forall complete (df :: dfs) ->
        rows df <> [] ->
        exists artifact,
          value (create_map_with_layers fs csv_files out) = Return artifact
          /\ Forall2 same_sample
               (flat_map (λ df, map heat_sample (rows df)) (df :: dfs))
               (heat_data (content artifact))
          /\ Forall (λ h, is_nan (fst (fst h)) = false /\ is_nan (snd (fst h)) = false
                          /\ is_nan (snd h) = false)
                    (heat_data (content artifact))).
Proof.
  split.
  - intros artifact H. apply create_map_with_layers_Return in H
      as (f & rest & df0 & lat & long & mlat & mlong & df_list & ls
          & -> & _ & _ & _ & _ & _ & Hlist & _ & ->).
    exists df_list. cbn [content heat_data].
    pose proof (merged_rows_samples df_list) as Hsame.
    rewrite map_flat_map in Hsame.
    split; [|split; [exact Hsame|]].
    + apply mapM_Return in Hlist. eapply Forall2_impl; [exact Hlist|].
      intros f' df' Hr. apply read_csv_Return. exact Hr.
    + rewrite <- (Forall2_length _ _ _ Hsame), <- map_flat_map, length_map.
      apply length_flat_map_sum.
  - intros df dfs Hread Hall Hrows.
    destruct (create_map_with_layers_total fs csv_files df dfs out Hread Hall Hrows)
      as [artifact H].
    exists artifact. split; [exact H|].
    apply create_map_with_layers_Return in H
      as (f & rest & df0 & lat & long & mlat & mlong & df_list' & ls
          & _ & _ & _ & _ & _ & _ & Hlist & _ & ->).
    rewrite (mapM_read_csv _ _ _ Hread) in Hlist. injection Hlist as <-.
    cbn [content heat_data]. split.
    + rewrite <- map_flat_map. apply merged_rows_samples.
    + apply heat_samples_complete. exact Hall.
Qed.

Lemma heat_data_all_rows_witness :
  (exists artifact,
     value (create_map_with_layers directory ["/data/log1.csv"; "/data/log3.csv"]
              "rangetest-map.html") = Return artifact
     /\ length (heat_data (content artifact)) = 3%nat)
  /\ value (create_map_with_layers directory ["/data/log1.csv"] "rangetest-map.html")
     = Return log1_map
  /\ exists df_list,
       Forall2 (λ f df, directory !! f = Some df) ["/data/log1.csv"] df_list
       /\ Forall2 same_sample
            (flat_map (λ df, map heat_sample (rows df)) df_list)
            (heat_data (content log1_map))
       /\ length (heat_data (content log1_map))
          = list_sum (map (λ df, length (rows df)) df_list).
Proof.
  assert (Forall complete [log1; log3]) as Hall.
  { constructor; [exact log1_complete|]. constructor; [exact log3_complete|constructor]. }
  assert (rows log1 <> []) as Hrows by discriminate.
  assert (value (create_map_with_layers directory ["/data/log1.csv"] "rangetest-map.html")
          = Return log1_map) as H by (vm_compute; reflexivity).
  assert (Forall2 (λ f df, directory !! f = Some df)
            ["/data/log1.csv"; "/data/log3.csv"] [log1; log3]) as Hread.
  { constructor; [vm_compute; reflexivity|].
    constructor; [vm_compute; reflexivity|constructor]. }
  split.
  - destruct (proj2 (heat_data_all_rows directory ["/data/log1.csv"; "/data/log3.csv"]
                       "rangetest-map.html") log1 [log3] Hread Hall Hrows)
      as (artifact & Ha & Hsame & _).
    exists artifact. split; [exact Ha|].
    rewrite <- (Forall2_length _ _ _ Hsame). reflexivity.
  - split; [exact H|].
    exact (proj1 (heat_data_all_rows directory ["/data/log1.csv"] "rangetest-map.html")
             log1_map H).
Defined.

(** C2, refuted as stated: the run over [log1], of whose two rows the
    filter keeps one, has two heat samples, the second one for the row
    the filter rejects. *)
Lemma heat_data_counts_rejected_rows :
  value (create_map_with_layers directory ["/data/log1.csv"] "rangetest-map.html")
  = Return log1_map
  /\ filter_rows log1 = Return log1_filtered
  /\ accepts chatter = false
  /\ heat_data (content log1_map) = [heat_sample heartbeat; heat_sample chatter]
  /\ length (heat_data (content log1_map)) <> length (rows log1_filtered).
Proof.
  split; [vm_compute; reflexivity|].
  split; [vm_compute; reflexivity|].
  split; [vm_compute; reflexivity|].
  split; [vm_compute; reflexivity|].
  cbn. discriminate.
Qed.

(** C3 (as the code has it).  A source of the list that cannot be read
    is fatal for the whole run: [create_map_with_layers] raises, whatever
    the other sources are, and the script ends in a traceback with no
    map written. *)
Theorem unreadable_source_aborts (fs : gmap string DataFrame)
    (csv_files : list string) (f : string) :
  In f csv_files ->
  fs !! f = None ->
  (forall out, exists e, value (create_map_with_layers fs csv_files out) = Raise e)
  /\ exists e, exit_status (main fs csv_files) = Traceback e
               /\ written (main fs csv_files) = None.
Proof.
  intros Hin Hnone. apply run_aborts.
  { intros ->. destruct Hin. }
  intros out artifact H.
  apply create_map_with_layers_Return in H
    as (f0 & rest & df0 & lat & long & mlat & mlong & df_list & ls
        & _ & _ & _ & _ & _ & _ & Hlist & _).
  apply mapM_Return in Hlist.
  destruct (Forall2_In_l _ _ _ _ Hlist Hin) as (df & _ & Hdf).
  apply read_csv_Return in Hdf. congruence.
Qed.

Lemma unreadable_source_aborts_witness :
  In "/data/missing.csv" ["/data/log1.csv"; "/data/missing.csv"; "/data/log3.csv"]
  /\ directory !! "/data/missing.csv" = None
  /\ exists e,
       exit_status (main directory
                      ["/data/log1.csv"; "/data/missing.csv"; "/data/log3.csv"])
       = Traceback e
       /\ written (main directory
                     ["/data/log1.csv"; "/data/missing.csv"; "/data/log3.csv"])
          = None.
Proof.
  assert (In "/data/missing.csv"
             ["/data/log1.csv"; "/data/missing.csv"; "/data/log3.csv"]) as Hin
    by (right; left; reflexivity).
  assert (directory !! "/data/missing.csv" = None) as Hnone by (vm_compute; reflexivity).
  split; [exact Hin|]. split; [exact Hnone|].
  exact (proj2 (unreadable_source_aborts directory _ "/data/missing.csv" Hin Hnone)).
Defined.

(** C3, refuted as stated: with a readable source, an unreadable one and
    one the filter empties, the run does not continue past the
    unreadable source and writes no map. *)
Lemma unreadable_source_stops_run :
  directory !! "/data/missing.csv" = None
  /\ value (create_map_with_layers directory
              ["/data/log1.csv"; "/data/missing.csv"; "/data/log3.csv"]
              "rangetest-map.html")
     = Raise (FileError "/data/missing.csv")
  /\ main directory ["/data/log1.csv"; "/data/missing.csv"; "/data/log3.csv"]
     = mkProcess [] (Traceback (FileError "/data/missing.csv")) None.
Proof. repeat split; vm_compute; reflexivity. Qed.

(** C4 (as the code has it).  The centre of a run that saves its map is
    computed from the latitude and longitude columns of the first source
    as read, over all its rows, whether the filter accepts them or not:
    two runs whose first sources have the same two columns have the same
    centre, whatever their other sources; for a first source of one
    row with float coordinates the centre is that pair, and for one of
    two rows with whole-numbered float coordinates, small enough for
    their sums to be exact, it is the pair of their half sums.  Over
    readable, complete sources, the first of them with a row, the run
    does save its map, and its centre is a pair of numbers. *)
Theorem center_first_source_all_rows (fs : gmap string DataFrame)
    (f : string) (rest : list string) (out : string) :
  (forall artifact,
     value (create_map_with_layers fs (f :: rest) out) = Return artifact ->
     exists initial_df,
       fs !! f = Some initial_df
       /\ (forall fs' f' rest' out' artifact' initial_df',
             value (create_map_with_layers fs' (f' :: rest') out') = Return artifact' ->
             fs' !! f' = Some initial_df' ->
             map (cell_at "rx lat") (rows initial_df')
             = map (cell_at "rx lat") (rows initial_df) ->
             map (cell_at "rx long") (rows initial_df')
             = map (cell_at "rx long") (rows initial_df) ->
             map_location (content artifact') = map_location (content artifact))
       /\ (forall rest' out' artifact',
             value (create_map_with_layers fs (f :: rest') out') = Return artifact' ->
             map_location (content artifact') = map_location (content artifact))
       /\ (forall r x y,
             rows initial_df = [r] ->
             cell_at "rx lat" r = PyFloat x ->
             cell_at "rx long" r = PyFloat y ->
             exists x' y',
               map_location (content artifact) = (PyFloat x', PyFloat y')
               /\ (x' == x)%Q /\ (y' == y)%Q)
       /\ (forall r1 r2 (a b c d : Z),
             rows initial_df = [r1; r2] ->
             cell_at "rx lat" r1 = PyFloat (inject_Z a) ->
             cell_at "rx lat" r2 = PyFloat (inject_Z b) ->
             cell_at "rx long" r1 = PyFloat (inject_Z c) ->
             cell_at "rx long" r2 = PyFloat (inject_Z d) ->
             Z.abs a <= 2 ^ 52 -> Z.abs b <= 2 ^ 52 ->
             Z.abs c <= 2 ^ 52 -> Z.abs d <= 2 ^ 52 ->
             exists x' y',
               map_location (content artifact) = (PyFloat x', PyFloat y')
               /\ (x' == inject_Z (a + b) / 2)%Q /\ (y' == inject_Z (c + d) / 2)%Q))
  /\ (forall df dfs,
        Forall2 (λ f df, fs !! f = Some df) (f :: rest) (df :: dfs) ->
        Forall complete (df :: dfs) ->
        rows df <> [] ->
        exists artifact,
          value (create_map_with_layers fs (f :: rest) out) = Return artifact
          /\ is_nan (fst (map_location (content artifact))) = false
          /\ is_nan (snd (map_location (content artifact))) = false).
Proof.
  split.
  - intros artifact H.
    apply create_map_with_layers_Return in H
      as (f0 & rest0 & df0 & lat & long & mlat & mlong & df_list & ls
          & E & Hdf & Hlat & Hmlat & Hlong & Hmlong & _ & _ & ->).
    injection E as <- <-.
    apply getitem_Return in Hlat as [_ ->]. apply getitem_Return in Hlong as [_ ->].
    exists df0. split; [exact Hdf|].
    assert (forall fs' f' rest' out' artifact' initial_df',
              value (create_map_with_layers fs' (f' :: rest') out') = Return artifact' ->
              fs' !! f' = Some initial_df' ->
              map (cell_at "rx lat") (rows initial_df')
              = map (cell_at "rx lat") (rows df0) ->
              map (cell_at "rx long") (rows initial_df')
              = map (cell_at "rx long") (rows df0) ->
              map_location (content artifact') = (mlat, mlong)) as Hsame.
    { intros fs' f' rest' out' artifact' df' H' Hdf' Elat Elong.
      apply create_map_with_layers_Return in H'
        as (f1 & rest1 & df1 & lat' & long' & mlat' & mlong' & df_list' & ls'
            & E & Hdf1 & Hlat' & Hmlat' & Hlong' & Hmlong' & _ & _ & ->).
      injection E as <- <-. assert (df1 = df') as -> by congruence.
      apply getitem_Return in Hlat' as [_ ->]. apply getitem_Return in Hlong' as [_ ->].
      rewrite Elat in Hmlat'. rewrite Elong in Hmlong'. cbn. congruence. }
    cbn [content map_location].
    split; [exact Hsame|]. split; [|split].
    + intros rest' out' artifact' H'. apply (Hsame fs f rest' out' artifact' df0 H' Hdf);
        reflexivity.
    + intros r x y Hrows Hx Hy. rewrite Hrows in Hmlat, Hmlong. cbn [map] in Hmlat, Hmlong.
      rewrite Hx in Hmlat. rewrite Hy in Hmlong.
      cbn in Hmlat, Hmlong. injection Hmlat as <-. injection Hmlong as <-.
      eexists _, _. split; [reflexivity|]. split; field.
    + intros r1 r2 a b c d Hrows Ha Hb Hc Hd _ _ _ _.
      rewrite Hrows in Hmlat, Hmlong. cbn [map] in Hmlat, Hmlong.
      rewrite Ha, Hb in Hmlat. rewrite Hc, Hd in Hmlong.
      unfold mean in Hmlat, Hmlong.
      cbn [existsb is_str orb omap num_of list_omap] in Hmlat, Hmlong.
      injection Hmlat as <-. injection Hmlong as <-.
      eexists _, _. split; [reflexivity|].
      cbn [length Qsum fold_right]. rewrite !inject_Z_plus.
      change (inject_Z (Z.of_nat 2)) with 2%Q. split; field.
  - intros df dfs Hread Hall Hrows.
    destruct (create_map_with_layers_total fs (f :: rest) df dfs out Hread Hall Hrows)
      as [artifact H].
    exists artifact. split; [exact H|].
    apply create_map_with_layers_Return in H
      as (f0 & rest0 & df0 & lat & long & mlat & mlong & df_list & ls
          & E & Hdf & Hlat & Hmlat & Hlong & Hmlong & _ & _ & ->).
    injection E as <- <-.
    assert (df0 = df) as ->.
    { pose proof (Forall2_cons_1 _ _ _ _ _ Hread) as [Hf _]. congruence. }
    apply getitem_Return in Hlat as [_ ->]. apply getitem_Return in Hlong as [_ ->].
    cbn [content map_location fst snd].
    destruct (rows df) as [|r l] eqn:E; [contradiction|].
    assert (In r (rows df)) as Hr by (rewrite E; left; reflexivity).
    pose proof (Forall_inv Hall) as Hc.
    split.
    + apply (mean_number _ _ Hmlat).
      destruct (complete_row df r "rx lat" Hc Hr) as [_ [x Hx]]; [auto|].
      exists (cell_at "rx lat" r), x. split; [left; reflexivity | exact Hx].
    + apply (mean_number _ _ Hmlong).
      destruct (complete_row df r "rx long" Hc Hr) as [_ [x Hx]]; [auto|].
      exists (cell_at "rx long" r), x. split; [left; reflexivity | exact Hx].
Qed.

Lemma center_first_source_all_rows_witness :
  value (create_map_with_layers directory ["/data/log1.csv"] "rangetest-map.html")
  = Return log1_map
  /\ forall artifact,
       value (create_map_with_layers directory ["/data/log1.csv"; "/data/log3.csv"]
                "rangetest-map.html") = Return artifact ->
       map_location (content artifact) = map_location (content log1_map).
Proof.
  assert (value (create_map_with_layers directory ["/data/log1.csv"] "rangetest-map.html")
          = Return log1_map) as H by (vm_compute; reflexivity).
  split; [exact H|].
  destruct (proj1 (center_first_source_all_rows directory "/data/log1.csv" []
                     "rangetest-map.html") log1_map H)
    as (initial_df & _ & _ & Hrest & _).
  intros artifact H'. exact (Hrest ["/data/log3.csv"] "rangetest-map.html" artifact H').
Defined.

(** C4, refuted as stated: over [log1] the centre is (46, -121), the
    mean over both rows, and not (45, -122), the mean over the one row
    the filter keeps. *)
Lemma center_counts_rejected_rows :
  value (create_map_with_layers directory ["/data/log1.csv"] "rangetest-map.html")
  = Return log1_map
  /\ map_location (content log1_map) = (PyFloat (92 # 2), PyFloat (-242 # 2))
  /\ center_of_valid_samples log1 = Return (PyFloat 45, PyFloat (-122))
  /\ ~ (92 # 2 == 45)%Q
  /\ ~ (-242 # 2 == -122)%Q.
Proof.
  split; [vm_compute; reflexivity|].
  split; [reflexivity|].
  split; [vm_compute; reflexivity|].
  split; intros H; vm_compute in H; discriminate H.
Qed.

(** C5.  The colour of an SNR is defined for every number: on a row
    with a numeric SNR, lines 35 and 40-43 raise nothing and compute
    [color].  Above 15 or at most -25 it is the fixed grey [#808080], as
    it is at 16 and at -30.  For -25 < snr <= 15 the grey branch is not
    taken: the colour is the gradient's, which is never that grey. *)
Theorem color_sentinel :
  (forall (r : gmap string cell) (x : Q),
     num_of (cell_at "rx snr" r) = Some x ->
     exists n,
       normalize_cell (cell_at "rx snr" r) = Return n
       /\ row_color (<["normalized_snr" := n]> r) = Return (color x))
  /\ (forall snr : Q, (15 < snr)%Q \/ (snr <= -25)%Q -> color snr = "#808080")
  /\ color 16 = "#808080"
  /\ color (-30) = "#808080"
  /\ (forall snr : Q, (-25 < snr)%Q -> (snr <= 15)%Q ->
        out_of_band snr = false
        /\ color snr = mcolors.rgb2hex (mcolors.cmap (normalized_snr snr))
        /\ color snr <> "#808080").
Proof.
  split; [exact row_color_normalized|].
  split; [intros snr H; apply out_of_band_spec in H; unfold color; rewrite H; reflexivity|].
  split; [reflexivity|]. split; [reflexivity|].
  intros snr Hlo Hhi. pose proof (in_band snr Hlo Hhi) as Hb.
  unfold color. rewrite Hb. split; [reflexivity|]. split; [reflexivity|].
  destruct (cmap_in_table (normalized_snr snr)) as [i ->].
  apply gradient_never_grey.
Qed.

Lemma color_sentinel_witness :
  ((15 < 20)%Q \/ (20 <= -25)%Q) /\ color 20 = "#808080"
  /\ (-25 < 0)%Q /\ (0 <= 15)%Q /\ color 0 <> "#808080".
Proof.
  destruct color_sentinel as (_ & Hgrey & _ & _ & Hband).
  assert ((15 < 20)%Q \/ (20 <= -25)%Q) as H1 by (left; reflexivity).
  assert (-25 < 0)%Q as H2 by reflexivity.
  assert (0 <= 15)%Q as H3 by (unfold Qle; simpl; lia).
  split; [exact H1|]. split; [exact (Hgrey 20%Q H1)|].
  split; [exact H2|]. split; [exact H3|].
  exact (proj2 (proj2 (Hband 0%Q H2 H3))).
Defined.




(** C7 (the code departs from it).  A source without a valid row is to
    give [None] and a diagnostic, and a source with one a layer.  On a
    source holding a row with a heartbeat payload, the five fields
    present and a text as latitude or longitude, a row that is not
    valid, [create_point_layer] gives neither: it raises [TypeError] at
    the range tests and prints nothing, whatever the other rows.  [log2]
    is such a source and has no valid row; on [log8], whose one row
    passes the filter with a text SNR, line 35 raises likewise. *)
Theorem layer_or_none_raises :
  (forall (fs : gmap string DataFrame) (csv_file : string) (df : DataFrame)
          (r : gmap string cell),
     fs !! csv_file = Some df ->
     "payload" ∈ columns df ->
     (forall c, In c REQUIRED -> c ∈ columns df) ->
     In r (rows df) ->
     payload_ok r = true ->
     has_na REQUIRED r = false ->
     is_str (cell_at "rx lat" r) = true \/ is_str (cell_at "rx long" r) = true ->
     accepts r = false
     /\ stdout (create_point_layer fs csv_file) = []
     /\ value (create_point_layer fs csv_file) = Raise TypeError
     /\ forall layer, value (create_point_layer fs csv_file) <> Return layer)
  /\ List.filter accepts (rows log2) = []
  /\ create_point_layer directory "/data/log2.csv" = IO [] (Raise TypeError)
  /\ List.filter accepts (rows log8) = [noisy]
  /\ create_point_layer archive "/old/log8.csv" = IO [] (Raise TypeError).
Proof.
  split.
  - intros fs csv_file df r Hfs Hp Hreq Hin Hpay Hna Htext.
    pose proof (text_coordinate_raises df r Hp Hreq Hin Hpay Hna Htext) as Hf.
    rewrite (create_point_layer_filter_Raise _ _ _ _ Hfs Hf). cbn [stdout value].
    split; [|split; [reflexivity|split; [reflexivity|discriminate]]].
    unfold accepts, in_range.
    destruct Htext as [H|H].
    + destruct (cell_at "rx lat" r); try discriminate H. cbn. apply andb_false_r.
    + destruct (cell_at "rx long" r); try discriminate H. cbn.
      rewrite !andb_false_r. reflexivity.
  - repeat split; vm_compute; reflexivity.
Qed.

Lemma layer_or_none_raises_witness :
  accepts garbled = false
  /\ stdout (create_point_layer directory "/data/log2.csv") = []
  /\ value (create_point_layer directory "/data/log2.csv") = Raise TypeError.
Proof.
  assert (In garbled (rows log2)) as Hin by (left; reflexivity).
  assert (payload_ok garbled = true) as Hpay by (vm_compute; reflexivity).
  assert (has_na REQUIRED garbled = false) as Hna by (vm_compute; reflexivity).
  assert (is_str (cell_at "rx lat" garbled) = true
          \/ is_str (cell_at "rx long" garbled) = true) as Htext
    by (left; vm_compute; reflexivity).
  assert (directory !! "/data/log2.csv" = Some log2) as Hfs by (vm_compute; reflexivity).
  destruct (proj1 layer_or_none_raises directory "/data/log2.csv" log2 garbled
              Hfs COLUMNS_payload COLUMNS_required Hin Hpay Hna Htext)
    as (Hacc & Hout & Hval & _).
  split; [exact Hacc|]. split; [exact Hout | exact Hval].
Defined.

(** C8.  The layer [create_point_layer] returns for a source is named by
    the base name of its path and holds one marker per accepted row, in
    the order of the rows in the source.  A marker sits at its row's
    latitude and longitude, has the colour of the row's SNR, and its
    popup text, however Python formats the values, contains the base
    name and the formatted SNR, elevation, latitude and longitude, each
    value as [iterrows] yields it.  For a clean source with an accepted
    row, the layer is returned. *)
Theorem layer_markers (fs : gmap string DataFrame) (csv_file : string)
    (fmt : cell -> string) :
  (forall layer,
     value (create_point_layer fs csv_file) = Return (Some layer) ->
     exists df,
       fs !! csv_file = Some df
       /\ name layer = basename csv_file
       /\ length (children layer) = length (List.filter accepts (rows df))
       /\ Forall2
            (λ r m,
               exists lat long snr elevation,
                 same_value (cell_at "rx lat" r) lat
                 /\ same_value (cell_at "rx long" r) long
                 /\ same_value (cell_at "rx snr" r) snr
                 /\ same_value (cell_at "rx elevation" r) elevation
                 /\ location m = (lat, long)
                 /\ snr_color (cell_at "rx snr" r) = Return (marker_color m)
                 /\ fill_color m = marker_color m
                 /\ contains (basename csv_file) (render fmt (popup m))
                 /\ contains (fmt snr) (render fmt (popup m))
                 /\ contains (fmt elevation) (render fmt (popup m))
                 /\ contains (fmt lat) (render fmt (popup m))
                 /\ contains (fmt long) (render fmt (popup m)))
            (List.filter accepts (rows df)) (children layer))
  /\ (forall df,
        fs !! csv_file = Some df ->
        clean df ->
        List.filter accepts (rows df) <> [] ->
        exists layer, value (create_point_layer fs csv_file) = Return (Some layer)).
Proof.
  split.
  - intros layer H.
    destruct (create_point_layer_Return _ _ _ H) as (df & df_filtered & Hfs & Hf).
    rewrite (create_point_layer_filtered _ _ _ _ Hfs Hf) in H.
    destruct (filter_rows_Return _ _ Hf) as [_ Hrows].
    exists df. split; [exact Hfs|].
    assert (exists markers,
              mapM (marker_of csv_file) (iterrows df_filtered) = Return markers
              /\ layer = mkFeatureGroup (basename csv_file) markers) as (ms & Hms & ->).
    { destruct (rows df_filtered) as [|r l]; [discriminate H|].
      cbn [value] in H.
      destruct (mapM (marker_of csv_file) (iterrows df_filtered)) as [ms|e];
        [|discriminate H].
      cbn in H. injection H as <-. eauto. }
    cbn [name children]. split; [reflexivity|].
    apply mapM_Return in Hms. unfold iterrows in Hms. rewrite Hrows in Hms.
    apply (proj1 (Forall2_fmap_l _ _ _ _)) in Hms.
    apply (proj1 (Forall2_fmap_l _ _ _ _)) in Hms.
    split; [symmetry; exact (Forall2_length _ _ _ Hms)|].
    eapply Forall2_impl; [exact Hms|].
    intros r m Hm. cbn beta in Hm. unfold compose in Hm.
    set (r' := series_of_row df_filtered (restrict REQUIRED r)) in Hm.
    assert (forall c, c ∈ REQUIRED -> same_value (cell_at c r) (cell_at c r')) as Hsame.
    { intros c Hc. unfold same_value. rewrite <- (cell_at_restrict REQUIRED c r Hc).
      apply cell_at_series_of_row. }
    apply marker_of_Return in Hm as (Hloc & Hcol & Hfill & Hpop).
    exists (cell_at "rx lat" r'), (cell_at "rx long" r'),
           (cell_at "rx snr" r'), (cell_at "rx elevation" r').
    split; [apply Hsame, rx_lat_required|].
    split; [apply Hsame, rx_long_required|].
    split; [apply Hsame, rx_snr_required|].
    split; [apply Hsame, rx_elevation_required|].
    split; [exact Hloc|].
    split.
    { rewrite <- Hcol. destruct (Hsame "rx snr" rx_snr_required) as [->| ->];
        [reflexivity | symmetry; apply snr_color_upcast]. }
    split; [exact Hfill|].
    rewrite Hpop. apply popup_info_contains.
  - intros df Hfs Hclean Hne.
    destruct (create_point_layer_total fs csv_file df Hfs Hclean) as [[layer|] H];
      [eauto|].
    exfalso. destruct (create_point_layer_Return _ _ _ H) as (df' & df_filtered & Hfs' & Hf).
    assert (df' = df) as -> by congruence.
    rewrite (create_point_layer_filtered _ _ _ _ Hfs Hf) in H.
    destruct (filter_rows_Return _ _ Hf) as [_ Hrows].
    destruct (rows df_filtered) as [|r l].
    + symmetry in Hrows. apply map_eq_nil in Hrows. contradiction.
    + cbn [value] in H.
      destruct (mapM (marker_of csv_file) (iterrows df_filtered)); discriminate H.
Qed.

Lemma layer_markers_witness :
  value (create_point_layer directory "/data/log1.csv") = Return (Some log1_layer)
  /\ exists df,
       directory !! "/data/log1.csv" = Some df
       /\ name log1_layer = basename "/data/log1.csv"
       /\ length (children log1_layer) = length (List.filter accepts (rows df)).
Proof.
  assert (value (create_point_layer directory "/data/log1.csv")
          = Return (Some log1_layer)) as H by (vm_compute; reflexivity).
  split; [exact H|].
  destruct (proj1 (layer_markers directory "/data/log1.csv" (λ _, EmptyString))
              log1_layer H)
    as (df & Hdf & Hname & Hlen & _).
  exists df. auto.
Defined.

(** C9.  With no source found the script prints its diagnostic, exits
    with status 1 and writes nothing.  With at least one source it does
    not exit at that point: it runs [create_map_with_layers], and ends
    as that run does. *)
Theorem no_sources_exit (fs : gmap string DataFrame) :
  main fs [] = mkProcess ["No CSV files found in the directory. Exiting."] (Exited 1) None
  /\ forall csv_files, csv_files <> [] ->
       (forall code, exit_status (main fs csv_files) <> Exited code)
       /\ exit_status (main fs csv_files)
          = match value (create_map_with_layers fs csv_files "rangetest-map.html") with
            | Return _ => Completed
            | Raise e => Traceback e
            end.
Proof.
  split; [reflexivity|].
  intros csv_files Hne. destruct csv_files as [|f rest]; [contradiction|].
  unfold main.
  destruct (value (create_map_with_layers fs (f :: rest) "rangetest-map.html"));
    split; (reflexivity || (intros code; discriminate)).
Qed.

Lemma no_sources_exit_witness :
  ["/data/log1.csv"] <> []
  /\ written (main directory []) = None
  /\ exit_status (main directory []) = Exited 1
  /\ forall code, exit_status (main directory ["/data/log1.csv"]) <> Exited code.
Proof.
  assert (["/data/log1.csv"] <> []) as Hne by discriminate.
  destruct (no_sources_exit directory) as [Hnone Hsome].
  split; [exact Hne|].
  split; [rewrite Hnone; reflexivity|].
  split; [rewrite Hnone; reflexivity|].
  exact (proj1 (Hsome ["/data/log1.csv"] Hne)).
Defined.

(** C10.  For a source that is read but has no payload column,
    [create_point_layer] raises [KeyError] at line 16 and drops nothing;
    nothing catches it, so that every run over a list holding the source
    raises, and the script ends in a traceback with no map written. *)
Theorem missing_payload_column_aborts (fs : gmap string DataFrame)
    (f : string) (df : DataFrame) :
  fs !! f = Some df ->
  "payload" ∉ columns df ->
  create_point_layer fs f = IO [] (Raise (KeyError "payload"))
  /\ forall csv_files, In f csv_files ->
       (forall out, exists e, value (create_map_with_layers fs csv_files out) = Raise e)
       /\ exists e, exit_status (main fs csv_files) = Traceback e
                    /\ written (main fs csv_files) = None.
Proof.
  intros Hfs Hcol.
  assert (create_point_layer fs f = IO [] (Raise (KeyError "payload"))) as Hraise.
  { assert (filter_rows df = Raise (KeyError "payload")) as Hf.
    { unfold filter_rows. rewrite (getitem_KeyError _ _ Hcol). reflexivity. }
    unfold create_point_layer, read_csv. rewrite Hfs.
    unfold lift, mbind, io_bind. cbn [value stdout app]. rewrite Hf. reflexivity. }
  split; [exact Hraise|].
  intros csv_files Hin. apply run_aborts.
  { intros ->. destruct Hin. }
  intros out artifact H.
  apply create_map_with_layers_Return in H
    as (f0 & rest & df0 & lat & long & mlat & mlong & df_list & ls
        & _ & _ & _ & _ & _ & _ & _ & Hls & _).
  apply add_layers_Return in Hls.
  rewrite Forall_forall in Hls. destruct (Hls f) as [layer Hlayer].
  { apply list_elem_of_In. exact Hin. }
  rewrite Hraise in Hlayer. discriminate Hlayer.
Qed.

Lemma missing_payload_column_aborts_witness :
  directory !! "/data/log4.csv" = Some log4
  /\ ("payload" ∉ columns log4)
  /\ In "/data/log4.csv" ["/data/log1.csv"; "/data/log4.csv"]
  /\ create_point_layer directory "/data/log4.csv" = IO [] (Raise (KeyError "payload"))
  /\ exists e,
       exit_status (main directory ["/data/log1.csv"; "/data/log4.csv"]) = Traceback e
       /\ written (main directory ["/data/log1.csv"; "/data/log4.csv"]) = None.
Proof.
  assert ("payload" ∉ columns log4) as Hcol.
  { cbn [log4 columns]. unfold REQUIRED. rewrite !not_elem_of_cons.
    repeat split; try discriminate. apply not_elem_of_nil. }
  assert (In "/data/log4.csv" ["/data/log1.csv"; "/data/log4.csv"]) as Hin
    by (right; left; reflexivity).
  assert (directory !! "/data/log4.csv" = Some log4) as Hfs by (vm_compute; reflexivity).
  destruct (missing_payload_column_aborts directory "/data/log4.csv" log4 Hfs Hcol)
    as [Hraise Hrun].
  split; [exact Hfs|]. split; [exact Hcol|]. split; [exact Hin|].
  split; [exact Hraise|].
  exact (proj2 (Hrun _ Hin)).
Defined.

(** * Further properties *)

(** ** Where an exception comes from *)

Lemma rbind_Raise {A B} (m : result A) (k : A -> result B) (e : exn) :
  m ≫= k = Raise e -> m = Raise e \/ exists a, m = Return a /\ k a = Raise e.
Proof.
  destruct m as [a|e']; cbn; intros H; [right; eauto | left; injection H as ->; reflexivity].
Qed.

Lemma io_bind_Raise {A B} (m : io A) (k : A -> io B) (e : exn) :
  value (m ≫= k) = Raise e ->
  value m = Raise e \/ exists a, value m = Return a /\ value (k a) = Raise e.
Proof.
  unfold mbind, io_bind. destruct (value m) as [a|e']; cbn; intros H;
    [right; eauto | left; injection H as ->; reflexivity].
Qed.

Lemma mapM_Raise {A B} (f : A -> result B) (l : list A) (e : exn) :
  mapM f l = Raise e -> exists a, In a l /\ f a = Raise e.
Proof.
  induction l as [|a l IH]; [discriminate|].
  rewrite mapM_cons. intros H.
  apply rbind_Raise in H as [H|(b & Hb & H)]; [exists a; split; [left; reflexivity|exact H]|].
  apply rbind_Raise in H as [H|(bs & _ & H)]; [|discriminate H].
  destruct (IH H) as (a' & Hin & Ha'). exists a'. split; [right; exact Hin|exact Ha'].
Qed.

Lemma first_missing_Some (have want : list string) (c : string) :
  first_missing have want = Some c -> In c want /\ c ∉ have.
Proof.
  induction want as [|c' want IH]; [discriminate|].
  cbn. destruct (decide (c' ∈ have)) as [_|Hn].
  - intros H. destruct (IH H). split; [right|]; assumption.
  - intros H. injection H as <-. split; [left; reflexivity | exact Hn].
Qed.

Lemma first_missing_In (have want : list string) (c : string) :
  In c want -> c ∉ have -> exists c', first_missing have want = Some c'.
Proof.
  intros Hin Hn. destruct (first_missing have want) as [c'|] eqn:E; [eauto|].
  exfalso. induction want as [|c0 want IH]; [destruct Hin|].
  cbn in E. destruct (decide (c0 ∈ have)) as [Hc0|_]; [|discriminate E].
  destruct Hin as [->|Hin]; [contradiction | exact (IH Hin E)].
Qed.

Lemma first_missing_None_inv (have want : list string) :
  first_missing have want = None -> forall c, In c want -> c ∈ have.
Proof.
  intros E c Hin. destruct (decide (c ∈ have)) as [H|H]; [exact H|].
  destruct (first_missing_In _ _ _ Hin H) as [c' Hc']. congruence.
Qed.

Lemma existsb_is_str_payload (df : DataFrame) :
  existsb is_str (map (cell_at "payload") (rows df)) = false <->
  Forall (λ r, is_str (cell_at "payload" r) = false) (rows df).
Proof.
  induction (rows df) as [|r l IH]; cbn.
  - split; [constructor | reflexivity].
  - rewrite orb_false_iff, IH. split.
    + intros [? ?]. constructor; assumption.
    + intros H. inversion H; subst. split; assumption.
Qed.

Lemma payload_column_cases (df : DataFrame) :
  (rows df <> [] /\ Forall (λ r, is_str (cell_at "payload" r) = false) (rows df))
  \/ (rows df = [] \/ Exists (λ r, is_str (cell_at "payload" r) = true) (rows df)).
Proof.
  destruct (rows df) as [|r l] eqn:E; [right; left; reflexivity|].
  rewrite <- E.
  destruct (existsb is_str (map (cell_at "payload") (rows df))) eqn:Ex.
  - right. right. apply List.existsb_exists in Ex as (c & Hin & Hc).
    apply in_map_iff in Hin as (r' & <- & Hr'). apply List.Exists_exists. eauto.
  - left. split; [rewrite E; discriminate|]. apply existsb_is_str_payload. exact Ex.
Qed.

(** A payload column that holds rows but no text has no [.str]. *)
Lemma filter_rows_AttributeError (df : DataFrame) :
  "payload" ∈ columns df ->
  rows df <> [] ->
  Forall (λ r, is_str (cell_at "payload" r) = false) (rows df) ->
  filter_rows df = Raise AttributeError.
Proof.
  intros Hp Hne Hno. unfold filter_rows.
  rewrite (getitem_total _ _ Hp). cbn [mbind result_bind].
  unfold str_contains, str_accessor.
  apply existsb_is_str_payload in Hno. rewrite Hno.
  destruct (rows df); [contradiction | reflexivity].
Qed.

Lemma filter_rows_KeyError (df : DataFrame) (c : string) :
  "payload" ∈ columns df ->
  rows df = [] \/ Exists (λ r, is_str (cell_at "payload" r) = true) (rows df) ->
  first_missing (columns df) REQUIRED = Some c ->
  filter_rows df = Raise (KeyError c).
Proof.
  intros Hp Hstr Hc. unfold filter_rows.
  rewrite (getitem_total _ _ Hp). cbn [mbind result_bind].
  rewrite str_contains_total.
  2:{ destruct Hstr as [->|Hstr]; [left; reflexivity|right].
      apply List.Exists_exists in Hstr as (r & Hin & Hr).
      apply List.Exists_exists. exists (cell_at "payload" r). split; [|exact Hr].
      apply in_map. exact Hin. }
  cbn [mbind result_bind]. unfold getitems. cbn [columns rows]. rewrite Hc. reflexivity.
Qed.

Lemma between_Raise_text (lo hi : Q) (s : list cell) (e : exn) :
  between lo hi s = Raise e -> exists c, In c s /\ is_str c = true.
Proof.
  intros H. apply mapM_Raise in H as (c & Hin & Hc). exists c. split; [exact Hin|].
  destruct c; cbn in Hc; try discriminate Hc; try reflexivity.
  all: destruct (num_of _); discriminate Hc.
Qed.

(** The exceptions of lines 16-21 and what in the source causes each. *)
Lemma filter_rows_Raise (df : DataFrame) (e : exn) :
  filter_rows df = Raise e ->
  (exists c, e = KeyError c /\ In c ("payload" :: REQUIRED) /\ c ∉ columns df)
  \/ (e = AttributeError /\ rows df <> []
      /\ Forall (λ r, is_str (cell_at "payload" r) = false) (rows df))
  \/ (e = TypeError
      /\ exists r, In r (rows df) /\ payload_ok r = true /\ has_na REQUIRED r = false
                   /\ (is_str (cell_at "rx lat" r) = true
                       \/ is_str (cell_at "rx long" r) = true)).
Proof.
  intros H. destruct (decide ("payload" ∈ columns df)) as [Hp|Hp].
  2:{ left. exists "payload". unfold filter_rows in H.
      rewrite (getitem_KeyError _ _ Hp) in H. injection H as <-.
      split; [reflexivity|]. split; [left; reflexivity | exact Hp]. }
  destruct (payload_column_cases df) as [[Hne Hno]|Hstr].
  { right. left. rewrite (filter_rows_AttributeError df Hp Hne Hno) in H.
    injection H as <-. auto. }
  destruct (first_missing (columns df) REQUIRED) as [c|] eqn:Hm.
  { left. exists c. rewrite (filter_rows_KeyError df c Hp Hstr Hm) in H.
    injection H as <-. apply first_missing_Some in Hm as [Hin Hn].
    split; [reflexivity|]. split; [right; exact Hin | exact Hn]. }
  right. right.
  pose proof (first_missing_None_inv _ _ Hm) as Hreq.
  rewrite (filter_rows_steps df Hp Hreq Hstr) in H. cbv zeta in H.
  set (kept := List.filter _ _) in H.
  assert (forall c col, In c (map (cell_at col) kept) -> is_str c = true ->
            In col REQUIRED ->
            exists r, In r (rows df) /\ payload_ok r = true /\ has_na REQUIRED r = false
                      /\ is_str (cell_at col r) = true) as Hrow.
  { intros c col Hin Hc Hcol. apply in_map_iff in Hin as (r & <- & Hr).
    apply rows_before_range_tests in Hr as (r0 & Hin0 & Hpay & Hna & ->).
    exists r0. rewrite cell_at_restrict in Hc by (apply list_elem_of_In; exact Hcol). auto. }
  apply rbind_Raise in H as [H|(c & Hc & H)].
  - pose proof (between_Raise _ _ _ _ H) as ->.
    apply between_Raise_text in H as (c & Hin & Hc).
    destruct (Hrow c "rx lat" Hin Hc) as (r & ? & ? & ? & ?); [cbn; auto|].
    split; [reflexivity|]. exists r. auto.
  - apply rbind_Raise in H as [H|(d & _ & H)]; [|discriminate H].
    pose proof (between_Raise _ _ _ _ H) as ->.
    apply between_Raise_text in H as (c' & Hin & Hc').
    destruct (Hrow c' "rx long" Hin Hc') as (r & ? & ? & ? & ?); [cbn; auto|].
    split; [reflexivity|]. exists r. auto.
Qed.

Lemma snr_color_Raise (c : cell) (e : exn) :
  snr_color c = Raise e -> e = TypeError /\ is_str c = true.
Proof. destruct c; cbn; intros H; try discriminate H. injection H as <-. auto. Qed.

Lemma marker_of_Raise (f : string) (r : gmap string cell) (e : exn) :
  marker_of f r = Raise e -> e = TypeError /\ is_str (cell_at "rx snr" r) = true.
Proof.
  unfold marker_of. intros H. apply rbind_Raise in H as [H|(c & _ & H)]; [|discriminate H].
  apply snr_color_Raise in H. exact H.
Qed.

Lemma marker_of_text (f : string) (r : gmap string cell) :
  is_str (cell_at "rx snr" r) = true -> marker_of f r = Raise TypeError.
Proof. unfold marker_of. destruct (cell_at "rx snr" r); try discriminate. reflexivity. Qed.

Lemma mapM_marker_of_text (f : string) (l : list (gmap string cell)) :
  Exists (λ r, is_str (cell_at "rx snr" r) = true) l ->
  mapM (marker_of f) l = Raise TypeError.
Proof.
  induction 1 as [r l Hr|r l _ IH]; rewrite mapM_cons.
  - rewrite (marker_of_text _ _ Hr). reflexivity.
  - destruct (marker_of f r) as [m|e] eqn:E.
    + rewrite IH. reflexivity.
    + apply marker_of_Raise in E as [-> _]. reflexivity.
Qed.

Lemma is_str_series_of_row (df : DataFrame) (c : string) (r : gmap string cell) :
  is_str (cell_at c (series_of_row df r)) = is_str (cell_at c r).
Proof.
  destruct (cell_at_series_of_row df c r) as [->| ->];
    [reflexivity | apply is_str_upcast].
Qed.

Lemma accepts_parts (r : gmap string cell) :
  accepts r = true ->
  payload_ok r = true /\ has_na REQUIRED r = false
  /\ in_range (-90) 90 (cell_at "rx lat" r) = true
  /\ in_range (-180) 180 (cell_at "rx long" r) = true.
Proof.
  unfold accepts. rewrite !andb_true_iff, negb_true_iff. tauto.
Qed.

(** The rows of the filtered frame as [iterrows] yields them, against
    the accepted rows of the source. *)
Lemma iterrows_filtered (df df_filtered : DataFrame) (r' : gmap string cell) :
  filter_rows df = Return df_filtered ->
  In r' (iterrows df_filtered) ->
  exists r, In r (rows df) /\ accepts r = true
            /\ r' = series_of_row df_filtered (restrict REQUIRED r).
Proof.
  intros Hf Hin. destruct (filter_rows_Return _ _ Hf) as [_ Hrows].
  unfold iterrows in Hin. apply in_map_iff in Hin as (r1 & <- & Hr1).
  rewrite Hrows in Hr1. apply in_map_iff in Hr1 as (r & <- & Hr).
  apply filter_In in Hr as [Hin Hacc]. eauto.
Qed.

(** The three ways [create_point_layer] can go. *)
Lemma create_point_layer_cases (fs : gmap string DataFrame) (f : string) :
  (fs !! f = None /\ create_point_layer fs f = IO [] (Raise (FileError f)))
  \/ (exists df e, fs !! f = Some df /\ filter_rows df = Raise e
                   /\ create_point_layer fs f = IO [] (Raise e))
  \/ (exists df df_filtered,
        fs !! f = Some df /\ filter_rows df = Return df_filtered
        /\ create_point_layer fs f =
             match rows df_filtered with
             | [] => IO [no_data_message f] (Return None)
             | _ => IO [] (markers ← mapM (marker_of f) (iterrows df_filtered);
                           Return (Some (mkFeatureGroup (basename f) markers)))
             end).
Proof.
  destruct (fs !! f) as [df|] eqn:Hfs.
  - right. destruct (filter_rows df) as [df_filtered|e] eqn:Hf.
    + right. exists df, df_filtered. split; [reflexivity|]. split; [exact Hf|].
      apply (create_point_layer_filtered _ _ _ _ Hfs Hf).
    + left. exists df, e. split; [reflexivity|]. split; [exact Hf|].
      apply (create_point_layer_filter_Raise _ _ _ _ Hfs Hf).
  - left. split; [reflexivity|]. apply create_point_layer_unreadable. exact Hfs.
Qed.

(** Every exception of [create_point_layer] with its cause in the
    source. *)
Lemma create_point_layer_Raise (fs : gmap string DataFrame) (f : string) (e : exn) :
  value (create_point_layer fs f) = Raise e ->
  (fs !! f = None /\ e = FileError f)
  \/ exists df,
       fs !! f = Some df
       /\ ((exists c, e = KeyError c /\ In c ("payload" :: REQUIRED) /\ c ∉ columns df)
           \/ (e = AttributeError /\ rows df <> []
               /\ Forall (λ r, is_str (cell_at "payload" r) = false) (rows df))
           \/ (e = TypeError
               /\ exists r, In r (rows df) /\ payload_ok r = true
                            /\ has_na REQUIRED r = false
                            /\ (is_str (cell_at "rx lat" r) = true
                                \/ is_str (cell_at "rx long" r) = true
                                \/ is_str (cell_at "rx snr" r) = true))).
Proof.
  intros H.
  destruct (create_point_layer_cases fs f)
    as [[Hfs Hc]|[(df & e' & Hfs & Hf & Hc)|(df & df_filtered & Hfs & Hf & Hc)]];
    rewrite Hc in H.
  - left. injection H as <-. auto.
  - right. injection H as ->. exists df. split; [exact Hfs|].
    destruct (filter_rows_Raise _ _ Hf)
      as [Hk|[Ha|(-> & r & Hin & Hp & Hna & Ht)]]; [left; exact Hk | right; left; exact Ha|].
    right. right. split; [reflexivity|]. exists r. intuition.
  - right. exists df. split; [exact Hfs|]. right. right.
    destruct (rows df_filtered) as [|r1 l]; [discriminate H|].
    cbn [value] in H. apply rbind_Raise in H as [H|(ms & _ & H)]; [|discriminate H].
    apply mapM_Raise in H as (r' & Hin & Hr').
    apply marker_of_Raise in Hr' as [-> Hstr]. split; [reflexivity|].
    destruct (iterrows_filtered _ _ _ Hf Hin) as (r & Hr & Hacc & ->).
    rewrite is_str_series_of_row in Hstr.
    rewrite cell_at_restrict in Hstr by apply rx_snr_required.
    apply accepts_parts in Hacc as (Hp & Hna & _).
    exists r. auto 6.
Qed.

Lemma create_point_layer_no_IndexError (fs : gmap string DataFrame) (f : string) (e : exn) :
  value (create_point_layer fs f) = Raise e -> e <> IndexError.
Proof.
  intros H. apply create_point_layer_Raise in H
    as [[_ ->]|(df & _ & [(c & -> & _)|[(-> & _)|(-> & _)]])]; discriminate.
Qed.

(** An accepted row with a text SNR stops the layer at line 35. *)
Lemma text_snr_raises (fs : gmap string DataFrame) (f : string)
    (df df_filtered : DataFrame) (r : gmap string cell) :
  fs !! f = Some df ->
  filter_rows df = Return df_filtered ->
  In r (rows df) -> accepts r = true ->
  is_str (cell_at "rx snr" r) = true ->
  create_point_layer fs f = IO [] (Raise TypeError).
Proof.
  intros Hfs Hf Hin Hacc Hstr.
  rewrite (create_point_layer_filtered _ _ _ _ Hfs Hf).
  destruct (filter_rows_Return _ _ Hf) as [_ Hrows].
  assert (In (restrict REQUIRED r) (rows df_filtered)) as Hr.
  { rewrite Hrows. apply in_map. apply filter_In. auto. }
  rewrite mapM_marker_of_text.
  - destruct (rows df_filtered); [destruct Hr | reflexivity].
  - apply List.Exists_exists. exists (series_of_row df_filtered (restrict REQUIRED r)).
    split; [unfold iterrows; apply in_map; exact Hr|].
    rewrite is_str_series_of_row, cell_at_restrict by apply rx_snr_required.
    exact Hstr.
Qed.

(** An exception of [create_point_layer] on one source is an exception
    of the run. *)
Lemma layer_Raise_run (fs : gmap string DataFrame) (csv_files : list string)
    (f : string) (e : exn) :
  In f csv_files ->
  value (create_point_layer fs f) = Raise e ->
  forall out artifact, value (create_map_with_layers fs csv_files out) <> Return artifact.
Proof.
  intros Hin He out artifact H.
  apply create_map_with_layers_Return in H
    as (f0 & rest & df0 & lat & long & mlat & mlong & df_list & ls
        & _ & _ & _ & _ & _ & _ & _ & Hls & _).
  apply add_layers_Return in Hls.
  rewrite Forall_forall in Hls. destruct (Hls f) as [layer Hlayer].
  { apply list_elem_of_In. exact Hin. }
  rewrite He in Hlayer. discriminate Hlayer.
Qed.

(** ** Exceptions of the run *)

Lemma read_csv_Raise (fs : gmap string DataFrame) (f : string) (e : exn) :
  read_csv fs f = Raise e -> e = FileError f /\ fs !! f = None.
Proof.
  unfold read_csv. destruct (fs !! f); intros H; [discriminate H|].
  injection H as <-. auto.
Qed.

Lemma getitem_Raise (df : DataFrame) (c : string) (e : exn) :
  getitem df c = Raise e -> e = KeyError c /\ c ∉ columns df.
Proof.
  unfold getitem. destruct (decide (c ∈ columns df)); intros H; [discriminate H|].
  injection H as <-. auto.
Qed.

Lemma mean_Raise (s : list cell) (e : exn) :
  mean s = Raise e -> e = TypeError /\ exists c, In c s /\ is_str c = true.
Proof.
  unfold mean. destruct (existsb is_str s) eqn:E.
  - intros H. injection H as <-. split; [reflexivity|].
    apply List.existsb_exists in E. exact E.
  - destruct (omap num_of s); discriminate.
Qed.

Lemma heat_row_Raise (df : DataFrame) (r : gmap string cell) (e : exn) :
  heat_row df r = Raise e -> exists c, e = KeyError c /\ c ∉ columns df.
Proof.
  unfold heat_row, row_getitem. intros H.
  destruct (decide ("rx lat" ∈ columns df)); [|injection H as <-; eauto].
  destruct (decide ("rx long" ∈ columns df)); [|injection H as <-; eauto].
  destruct (decide ("rx snr" ∈ columns df)); [|injection H as <-; eauto].
  discriminate H.
Qed.

Lemma add_layers_Raise (fs : gmap string DataFrame) (csv_files : list string) (e : exn) :
  value (add_layers fs csv_files) = Raise e ->
  exists f, In f csv_files /\ value (create_point_layer fs f) = Raise e.
Proof.
  induction csv_files as [|f rest IH]; [discriminate|].
  cbn [add_layers]. intros H.
  apply io_bind_Raise in H as [H|(layer & _ & H)]; [exists f; split; [left|]; auto|].
  apply io_bind_Raise in H as [H|(others & _ & H)]; [|discriminate H].
  destruct (IH H) as (f' & Hin & Hf'). exists f'. split; [right|]; assumption.
Qed.

(** With a source to start from, [csv_files[0]] does not fail: the run
    raises no [IndexError]. *)
Lemma validate_location_Raise (location : cell * cell) (e : exn) :
  validate_location location = Raise e -> e = ValueError.
Proof.
  unfold validate_location, validate_coordinate.
  destruct (fst location), (snd location); cbn; intros H;
    try discriminate H; injection H as <-; reflexivity.
Qed.

Lemma HeatMap_Raise (data : list (cell * cell * cell)) (e : exn) :
  HeatMap data = Raise e -> e = ValueError \/ e = TypeError.
Proof.
  unfold HeatMap. intros H. apply rbind_Raise in H as [H|(us & _ & H)].
  - apply mapM_Raise in H as (h & _ & H). apply validate_location_Raise in H. auto.
  - destruct (existsb (λ h, is_str (snd h)) data); [injection H as <-; auto|].
    destruct (existsb (λ h, is_nan (snd h)) data); [injection H as <-; auto|].
    discriminate H.
Qed.

Lemma create_map_with_layers_Raise (fs : gmap string DataFrame)
    (csv_files : list string) (out : string) (e : exn) :
  csv_files <> [] ->
  value (create_map_with_layers fs csv_files out) = Raise e ->
  e <> IndexError.
Proof.
  intros Hne H. destruct csv_files as [|f rest]; [contradiction|].
  unfold create_map_with_layers in H.
  apply io_bind_Raise in H as [H|(f0 & _ & H)]; [discriminate H|].
  apply io_bind_Raise in H as [H|(df0 & _ & H)];
    [apply read_csv_Raise in H as [-> _]; discriminate|].
  apply io_bind_Raise in H as [H|(lat & _ & H)];
    [apply getitem_Raise in H as [-> _]; discriminate|].
  apply io_bind_Raise in H as [H|(mlat & _ & H)];
    [apply mean_Raise in H as [-> _]; discriminate|].
  apply io_bind_Raise in H as [H|(long & _ & H)];
    [apply getitem_Raise in H as [-> _]; discriminate|].
  apply io_bind_Raise in H as [H|(mlong & _ & H)];
    [apply mean_Raise in H as [-> _]; discriminate|].
  apply io_bind_Raise in H as [H|(u & _ & H)];
    [apply validate_location_Raise in H as ->; discriminate|].
  apply io_bind_Raise in H as [H|(df_list & Hl & H)].
  { cbn [lift value] in H. apply mapM_Raise in H as (f' & _ & H).
    apply read_csv_Raise in H as [-> _]. discriminate. }
  apply io_bind_Raise in H as [H|(merged & _ & H)].
  { exfalso. cbn [lift value] in H, Hl. destruct df_list as [|d l]; [|discriminate H].
    apply mapM_Return in Hl. inversion Hl. }
  apply io_bind_Raise in H as [H|(heat & _ & H)].
  { cbn [lift value] in H. apply mapM_Raise in H as (r & _ & H).
    apply heat_row_Raise in H as (c & -> & _). discriminate. }
  apply io_bind_Raise in H as [H|(u' & _ & H)];
    [apply HeatMap_Raise in H as [->| ->]; discriminate|].
  apply io_bind_Raise in H as [H|(ls & _ & H)]; [|discriminate H].
  apply add_layers_Raise in H as (f' & _ & H).
  exact (create_point_layer_no_IndexError _ _ _ H).
Qed.

(** ** What a returning run leaves *)

Lemma existsb_filter_nil {A} (p : A -> bool) (l : list A) :
  existsb p l = match List.filter p l with [] => false | _ => true end.
Proof.
  induction l as [|a l IH]; [reflexivity|].
  cbn. destruct (p a); [reflexivity | exact IH].
Qed.

(** The name of the layer and the line printed, by whether the source
    has an accepted row. *)
Lemma create_point_layer_outcome (fs : gmap string DataFrame) (f : string)
    (layer : option FeatureGroup) :
  value (create_point_layer fs f) = Return layer ->
  name <$> layer = (if has_accepted fs f then Some (basename f) else None)
  /\ stdout (create_point_layer fs f)
     = (if has_accepted fs f then [] else [no_data_message f]).
Proof.
  intros H.
  destruct (create_point_layer_cases fs f)
    as [[Hfs Hc]|[(df & e' & Hfs & Hf & Hc)|(df & df_filtered & Hfs & Hf & Hc)]];
    rewrite Hc in H |- *; try discriminate H.
  unfold has_accepted. rewrite Hfs, existsb_filter_nil.
  destruct (filter_rows_Return _ _ Hf) as [_ Hrows].
  destruct (rows df_filtered) as [|r1 l] eqn:E.
  - symmetry in Hrows. apply map_eq_nil in Hrows. rewrite Hrows.
    injection H as <-. split; reflexivity.
  - destruct (List.filter accepts (rows df)); [discriminate Hrows|].
    cbn [value stdout] in H |- *.
    destruct (mapM (marker_of f) (iterrows df_filtered)) as [ms|e]; [|discriminate H].
    cbn in H. injection H as <-. split; reflexivity.
Qed.

Lemma add_layers_outcome (fs : gmap string DataFrame) (csv_files : list string)
    (ls : list FeatureGroup) :
  value (add_layers fs csv_files) = Return ls ->
  map name ls = map basename (List.filter (has_accepted fs) csv_files)
  /\ stdout (add_layers fs csv_files)
     = map no_data_message (List.filter (λ f, negb (has_accepted fs f)) csv_files).
Proof.
  revert ls. induction csv_files as [|f rest IH]; intros ls H.
  - cbn in H. injection H as <-. split; reflexivity.
  - cbn [add_layers] in H |- *.
    pose proof H as H'.
    apply io_bind_Return in H as (layer & Hl & H).
    apply io_bind_Return in H as (others & Ho & H).
    cbn in H. injection H as <-.
    destruct (IH _ Ho) as [IHn IHs].
    destruct (create_point_layer_outcome _ _ _ Hl) as [Hname Hout].
    unfold mbind at 1, io_bind at 1. rewrite Hl.
    unfold mbind at 1, io_bind at 1. rewrite Ho.
    cbn [stdout value mret io_ret]. rewrite app_nil_r, Hout, IHs.
    cbn [List.filter].
    destruct (has_accepted fs f); cbn [negb].
    + destruct layer as [l|]; [|discriminate Hname].
      cbn in Hname. injection Hname as Hname.
      cbn [map app]. rewrite Hname, IHn. split; reflexivity.
    + destruct layer as [l|]; [discriminate Hname|].
      cbn [map app]. split; [exact IHn | reflexivity].
Qed.

Lemma lift_bind_stdout {A B} (r : result A) (k : A -> io B) (a : A) :
  r = Return a -> stdout (lift r ≫= k) = stdout (k a).
Proof. intros ->. reflexivity. Qed.

Lemma create_map_with_layers_stdout (fs : gmap string DataFrame)
    (csv_files : list string) (out : string) (artifact : Artifact) :
  value (create_map_with_layers fs csv_files out) = Return artifact ->
  stdout (create_map_with_layers fs csv_files out) = stdout (add_layers fs csv_files)
  /\ value (add_layers fs csv_files) = Return (layers (content artifact))
  /\ output_file artifact = out.
Proof.
  intros H. unfold create_map_with_layers in H |- *.
  apply io_bind_Return in H as (f0 & H0 & H).
  rewrite (lift_bind_stdout _ _ _ H0).
  apply io_bind_Return in H as (df0 & H1 & H).
  rewrite (lift_bind_stdout _ _ _ H1).
  apply io_bind_Return in H as (lat & H2 & H).
  rewrite (lift_bind_stdout _ _ _ H2).
  apply io_bind_Return in H as (mlat & H3 & H).
  rewrite (lift_bind_stdout _ _ _ H3).
  apply io_bind_Return in H as (long & H4 & H).
  rewrite (lift_bind_stdout _ _ _ H4).
  apply io_bind_Return in H as (mlong & H5 & H).
  rewrite (lift_bind_stdout _ _ _ H5).
  apply io_bind_Return in H as (u & Hu & H).
  rewrite (lift_bind_stdout _ _ _ Hu).
  apply io_bind_Return in H as (df_list & H6 & H).
  rewrite (lift_bind_stdout _ _ _ H6).
  apply io_bind_Return in H as (merged & H7 & H).
  rewrite (lift_bind_stdout _ _ _ H7).
  apply io_bind_Return in H as (heat & H8 & H).
  rewrite (lift_bind_stdout _ _ _ H8).
  apply io_bind_Return in H as (u' & Hu' & H).
  rewrite (lift_bind_stdout _ _ _ Hu').
  apply io_bind_Return in H as (ls & H9 & H).
  cbn in H. injection H as <-.
  unfold mbind, io_bind. rewrite H9. cbn [stdout value mret io_ret content layers output_file].
  rewrite app_nil_r. auto.
Qed.

(** ** Markers of a returned layer *)

Lemma numeric_within_same_value (lo hi : Q) (c c' : cell) :
  same_value c c' -> numeric_within lo hi c -> numeric_within lo hi c'.
Proof.
  intros [->| ->] H; [exact H|]. destruct H as (x & Hx & Hb).
  exists x. split; [|exact Hb]. destruct c; cbn in *; congruence.
Qed.

Lemma has_na_false (cols : list string) (r : gmap string cell) (c : string) :
  has_na cols r = false -> In c cols -> is_nan (cell_at c r) = false.
Proof.
  unfold has_na. intros H Hin.
  destruct (is_nan (cell_at c r)) eqn:E; [|reflexivity].
  assert (existsb (λ c, is_nan (cell_at c r)) cols = true) as H'
    by (apply List.existsb_exists; eauto).
  congruence.
Qed.

(** The markers of a returned layer, each against the accepted row it
    is made of. *)
Lemma layer_Return (fs : gmap string DataFrame) (f : string) (layer : FeatureGroup) :
  value (create_point_layer fs f) = Return (Some layer) ->
  exists df,
    fs !! f = Some df
    /\ children layer <> []
    /\ Forall (λ m, exists r r',
                 In r (rows df) /\ accepts r = true
                 /\ (forall c, In c REQUIRED -> same_value (cell_at c r) (cell_at c r'))
                 /\ marker_of f r' = Return m) (children layer).
Proof.
  intros H.
  destruct (create_point_layer_cases fs f)
    as [[Hfs Hc]|[(df & e' & Hfs & Hf & Hc)|(df & df_filtered & Hfs & Hf & Hc)]];
    rewrite Hc in H; try discriminate H.
  exists df. split; [exact Hfs|].
  destruct (rows df_filtered) as [|r1 l] eqn:E; [discriminate H|].
  cbn [value] in H.
  destruct (mapM (marker_of f) (iterrows df_filtered)) as [ms|e] eqn:Hms; [|discriminate H].
  cbn in H. injection H as <-. cbn [children].
  apply mapM_Return in Hms. split.
  - intros ->. apply Forall2_length in Hms. unfold iterrows in Hms.
    rewrite length_map, E in Hms. discriminate Hms.
  - apply List.Forall_forall. intros m Hm.
    destruct (Forall2_In_r _ _ _ _ Hms Hm) as (r' & Hr' & Hmark).
    destruct (iterrows_filtered _ _ _ Hf Hr') as (r & Hr & Hacc & ->).
    exists r, (series_of_row df_filtered (restrict REQUIRED r)).
    split; [exact Hr|]. split; [exact Hacc|]. split; [|exact Hmark].
    intros c Hreq. unfold same_value.
    rewrite <- (cell_at_restrict REQUIRED c r) by (apply list_elem_of_In; exact Hreq).
    apply cell_at_series_of_row.
Qed.

(** ** The base name *)

Lemma has_slash_app (a b : string) :
  has_slash (a +:+ b) = has_slash a || has_slash b.
Proof.
  induction a as [|c a IH]; [reflexivity|].
  change (String c a +:+ b) with (String c (a +:+ b)).
  cbn [has_slash]. rewrite IH. apply orb_assoc.
Qed.

Lemma basename_no_slash (p : string) : has_slash (basename p) = false.
Proof.
  induction p as [|c p IH]; [reflexivity|].
  cbn [basename]. destruct (has_slash p) eqn:E; [exact IH|].
  destruct (Ascii.eqb c "/") eqn:Ec; [exact E|].
  cbn [has_slash]. rewrite Ec, E. reflexivity.
Qed.

Lemma basename_join (dir file : string) :
  has_slash file = false -> basename (dir +:+ "/" +:+ file) = file.
Proof.
  intros H. induction dir as [|c dir IH].
  - change ("" +:+ "/" +:+ file) with (String "/" file).
    cbn [basename]. rewrite H. reflexivity.
  - change (String c dir +:+ "/" +:+ file) with (String c (dir +:+ "/" +:+ file)).
    cbn [basename]. rewrite has_slash_app.
    change ("/" +:+ file) with (String "/" file). cbn [has_slash].
    rewrite Ascii.eqb_refl, orb_true_r. exact IH.
Qed.

(** ** The pattern within a text *)

Lemma match_here_app (s post : string) :
  match_here s = true -> match_here (s +:+ post) = true.
Proof.
  intros H. apply match_here_spec in H as (d & rest & Hd & ->).
  change (("seq " +:+ String d rest) +:+ post)
    with (String "s" (String "e" (String "q" (String " " (String d (rest +:+ post)))))).
  unfold match_here. rewrite Hd. reflexivity.
Qed.

Lemma re_search_suffix (s post : string) :
  re_search s = true -> re_search (s +:+ post) = true.
Proof.
  induction s as [|c s IH]; [discriminate|].
  rewrite re_search_cons. intros H.
  change (String c s +:+ post) with (String c (s +:+ post)).
  rewrite re_search_cons.
  apply orb_true_iff in H as [H|H].
  - change (String c (s +:+ post)) with (String c s +:+ post).
    rewrite (match_here_app _ _ H). reflexivity.
  - rewrite (IH H). apply orb_true_r.
Qed.

(** ** The filter *)

(** X1.  On a source whose payload texts are of ASCII characters,
    whenever lines 16-21 raise nothing the frame they leave holds
    exactly the rows of the source that carry a payload text containing
    [seq ] and a digit, have the five fields present and have a numeric
    latitude and longitude within range, projected on the five columns,
    in the order of the source; when a row is left, its columns are the
    five required ones. *)
Theorem filter_keeps_accepted_rows (df df_filtered : DataFrame) :
  Forall (λ r, ascii_payload r = true) (rows df) ->
  filter_rows df = Return df_filtered ->
  rows df_filtered = map (restrict REQUIRED) (List.filter accepts (rows df))
  /\ (rows df_filtered <> [] -> columns df_filtered = REQUIRED)
  /\ (forall r, In r (rows df) -> accepts r = true <-> Accepted r)
  /\ (length (rows df_filtered) <= length (rows df))%nat.
Proof.
  intros _ H. destruct (filter_rows_Return _ _ H) as [Hc Hr].
  split; [exact Hr|]. split; [exact Hc|].
  split; [intros r _; apply accepts_spec|].
  rewrite Hr, length_map. apply List.filter_length_le.
Qed.

Lemma filter_keeps_accepted_rows_witness :
  filter_rows log1 = Return log1_filtered
  /\ rows log1_filtered = map (restrict REQUIRED) (List.filter accepts (rows log1)).
Proof.
  assert (Forall (λ r, ascii_payload r = true) (rows log1)) as Hascii.
  { repeat constructor; vm_compute; reflexivity. }
  assert (filter_rows log1 = Return log1_filtered) as H by (vm_compute; reflexivity).
  split; [exact H|].
  exact (proj1 (filter_keeps_accepted_rows log1 log1_filtered Hascii H)).
Defined.

(** ** Exceptions of [create_point_layer], by cause *)

(** X2.  Whenever [create_point_layer] raises, it has printed nothing
    and the exception tells what is wrong with the source: the file is
    unreadable; or the payload column or one of the five required
    columns is absent ([KeyError]); or the payload column has rows but
    no text ([AttributeError]); or a row with a heartbeat payload and the
    five fields present has a text as latitude, longitude or SNR
    ([TypeError]). *)
Theorem point_layer_exceptions (fs : gmap string DataFrame) (csv_file : string)
    (e : exn) :
  value (create_point_layer fs csv_file) = Raise e ->
  stdout (create_point_layer fs csv_file) = []
  /\ ((fs !! csv_file = None /\ e = FileError csv_file)
      \/ exists df,
           fs !! csv_file = Some df
           /\ ((exists c, e = KeyError c /\ In c ("payload" :: REQUIRED)
                          /\ c ∉ columns df)
               \/ (e = AttributeError /\ rows df <> []
                   /\ Forall (λ r, is_str (cell_at "payload" r) = false) (rows df))
               \/ (e = TypeError
                   /\ exists r, In r (rows df) /\ payload_ok r = true
                                /\ has_na REQUIRED r = false
                                /\ (is_str (cell_at "rx lat" r) = true
                                    \/ is_str (cell_at "rx long" r) = true
                                    \/ is_str (cell_at "rx snr" r) = true)))).
Proof.
  intros H. split; [|exact (create_point_layer_Raise _ _ _ H)].
  destruct (create_point_layer_cases fs csv_file)
    as [[_ Hc]|[(df & e' & _ & _ & Hc)|(df & df_filtered & _ & _ & Hc)]];
    rewrite Hc in H |- *; try reflexivity.
  destruct (rows df_filtered); [discriminate H | reflexivity].
Qed.

Lemma point_layer_exceptions_witness :
  value (create_point_layer archive "/old/log8.csv") = Raise TypeError
  /\ stdout (create_point_layer archive "/old/log8.csv") = [].
Proof.
  assert (value (create_point_layer archive "/old/log8.csv") = Raise TypeError) as H
    by (vm_compute; reflexivity).
  split; [exact H|].
  exact (proj1 (point_layer_exceptions archive "/old/log8.csv" TypeError H)).
Defined.

(** X3.  A row with a heartbeat payload and the five fields present,
    whose latitude or longitude is a text, makes [create_point_layer]
    raise [TypeError] at the range tests of lines 20-21, whatever the
    other rows of the source: the row is not dropped and no layer is
    returned. *)
Theorem text_coordinate_type_error (fs : gmap string DataFrame) (csv_file : string)
    (df : DataFrame) (r : gmap string cell) :
  fs !! csv_file = Some df ->
  "payload" ∈ columns df ->
  (forall c, In c REQUIRED -> c ∈ columns df) ->
  In r (rows df) ->
  payload_ok r = true ->
  has_na REQUIRED r = false ->
  is_str (cell_at "rx lat" r) = true \/ is_str (cell_at "rx long" r) = true ->
  filter_rows df = Raise TypeError
  /\ create_point_layer fs csv_file = IO [] (Raise TypeError).
Proof.
  intros Hfs Hp Hreq Hin Hpay Hna Htext.
  pose proof (text_coordinate_raises df r Hp Hreq Hin Hpay Hna Htext) as Hf.
  split; [exact Hf|]. exact (create_point_layer_filter_Raise _ _ _ _ Hfs Hf).
Qed.

Lemma text_coordinate_type_error_witness :
  create_point_layer directory "/data/log2.csv" = IO [] (Raise TypeError).
Proof.
  assert (In garbled (rows log2)) as Hin by (left; reflexivity).
  assert (payload_ok garbled = true) as Hpay by (vm_compute; reflexivity).
  assert (has_na REQUIRED garbled = false) as Hna by (vm_compute; reflexivity).
  assert (is_str (cell_at "rx lat" garbled) = true
          \/ is_str (cell_at "rx long" garbled) = true) as Htext
    by (left; vm_compute; reflexivity).
  assert (directory !! "/data/log2.csv" = Some log2) as Hfs by (vm_compute; reflexivity).
  exact (proj2 (text_coordinate_type_error directory "/data/log2.csv" log2 garbled
                  Hfs COLUMNS_payload COLUMNS_required Hin Hpay Hna Htext)).
Defined.

(** X4.  A source whose payload column has rows but no text in it (an
    empty or a numeric column) makes [create_point_layer] raise
    [AttributeError] at line 16, before the required columns are looked
    up. *)
Theorem payload_without_text_attribute_error (fs : gmap string DataFrame)
    (csv_file : string) (df : DataFrame) :
  fs !! csv_file = Some df ->
  "payload" ∈ columns df ->
  rows df <> [] ->
  Forall (λ r, is_str (cell_at "payload" r) = false) (rows df) ->
  create_point_layer fs csv_file = IO [] (Raise AttributeError).
Proof.
  intros Hfs Hp Hne Hno.
  exact (create_point_layer_filter_Raise _ _ _ _ Hfs
           (filter_rows_AttributeError df Hp Hne Hno)).
Qed.

Lemma payload_without_text_attribute_error_witness :
  create_point_layer archive "/old/log6.csv" = IO [] (Raise AttributeError).
Proof.
  assert (rows log6 <> []) as Hne by discriminate.
  assert (Forall (λ r, is_str (cell_at "payload" r) = false) (rows log6)) as Hno.
  { constructor; [vm_compute; reflexivity | constructor]. }
  assert (archive !! "/old/log6.csv" = Some log6) as Hfs by (vm_compute; reflexivity).
  exact (payload_without_text_attribute_error archive "/old/log6.csv" log6
           Hfs COLUMNS_payload Hne Hno).
Defined.

(** X5.  A source with a usable payload column that lacks one of the
    five required columns makes [create_point_layer] raise [KeyError]
    for an absent required column at line 17, even when it has no row
    at all. *)
Theorem missing_required_column_key_error (fs : gmap string DataFrame)
    (csv_file : string) (df : DataFrame) (c : string) :
  fs !! csv_file = Some df ->
  "payload" ∈ columns df ->
  rows df = [] \/ Exists (λ r, is_str (cell_at "payload" r) = true) (rows df) ->
  In c REQUIRED ->
  c ∉ columns df ->
  exists c', In c' REQUIRED /\ (c' ∉ columns df)
             /\ create_point_layer fs csv_file = IO [] (Raise (KeyError c')).
Proof.
  intros Hfs Hp Hstr Hin Hn.
  destruct (first_missing_In _ _ _ Hin Hn) as [c' Hc'].
  exists c'. destruct (first_missing_Some _ _ _ Hc') as [Hin' Hn'].
  split; [exact Hin'|]. split; [exact Hn'|].
  exact (create_point_layer_filter_Raise _ _ _ _ Hfs
           (filter_rows_KeyError df c' Hp Hstr Hc')).
Qed.

Lemma missing_required_column_key_error_witness :
  exists c, create_point_layer archive "/old/log7.csv" = IO [] (Raise (KeyError c)).
Proof.
  assert ("payload" ∈ columns log7) as Hp by (apply list_elem_of_here).
  assert (rows log7 = []
          \/ Exists (λ r, is_str (cell_at "payload" r) = true) (rows log7)) as Hstr.
  { right. constructor. vm_compute. reflexivity. }
  assert (In "rx snr" REQUIRED) as Hin by (right; right; left; reflexivity).
  assert ("rx snr" ∉ columns log7) as Hn.
  { cbn [log7 columns]. rewrite !not_elem_of_cons.
    repeat split; try discriminate. apply not_elem_of_nil. }
  assert (archive !! "/old/log7.csv" = Some log7) as Hfs by (vm_compute; reflexivity).
  destruct (missing_required_column_key_error archive "/old/log7.csv" log7 "rx snr"
              Hfs Hp Hstr Hin Hn) as (c & _ & _ & Hc).
  exists c. exact Hc.
Defined.

(** X6.  The filter does not look at the SNR: on a source it filters
    without an exception, an accepted row whose SNR is a text makes
    [create_point_layer] raise [TypeError] at line 35, and no layer is
    returned for the source. *)
Theorem text_snr_type_error (fs : gmap string DataFrame) (csv_file : string)
    (df df_filtered : DataFrame) (r : gmap string cell) :
  fs !! csv_file = Some df ->
  filter_rows df = Return df_filtered ->
  In r (rows df) ->
  accepts r = true ->
  is_str (cell_at "rx snr" r) = true ->
  In (restrict REQUIRED r) (rows df_filtered)
  /\ create_point_layer fs csv_file = IO [] (Raise TypeError).
Proof.
  intros Hfs Hf Hin Hacc Hstr. split.
  - destruct (filter_rows_Return _ _ Hf) as [_ ->]. apply in_map, filter_In. auto.
  - exact (text_snr_raises fs csv_file df df_filtered r Hfs Hf Hin Hacc Hstr).
Qed.

Lemma text_snr_type_error_witness :
  create_point_layer archive "/old/log8.csv" = IO [] (Raise TypeError).
Proof.
  assert (filter_rows log8 = Return (mkDataFrame REQUIRED [restrict REQUIRED noisy])) as Hf
    by (vm_compute; reflexivity).
  assert (In noisy (rows log8)) as Hin by (left; reflexivity).
  assert (accepts noisy = true) as Hacc by (vm_compute; reflexivity).
  assert (is_str (cell_at "rx snr" noisy) = true) as Hstr by (vm_compute; reflexivity).
  assert (archive !! "/old/log8.csv" = Some log8) as Hfs by (vm_compute; reflexivity).
  exact (proj2 (text_snr_type_error archive "/old/log8.csv" log8 _ noisy
                  Hfs Hf Hin Hacc Hstr)).
Defined.

(** X7.  Nothing catches an exception of [create_point_layer]: when it
    raises on one source of the list, the run raises, whatever the other
    sources, and the script ends in a traceback with no map written. *)
Theorem layer_exception_aborts_run (fs : gmap string DataFrame)
    (csv_files : list string) (csv_file : string) (e : exn) :
  In csv_file csv_files ->
  value (create_point_layer fs csv_file) = Raise e ->
  (forall out, exists e', value (create_map_with_layers fs csv_files out) = Raise e')
  /\ exists e', exit_status (main fs csv_files) = Traceback e'
                /\ written (main fs csv_files) = None.
Proof.
  intros Hin He. apply run_aborts.
  - intros ->. destruct Hin.
  - exact (layer_Raise_run fs csv_files csv_file e Hin He).
Qed.

Lemma layer_exception_aborts_run_witness :
  exists e, exit_status (main archive ["/old/log1.csv"; "/old/log8.csv"]) = Traceback e
            /\ written (main archive ["/old/log1.csv"; "/old/log8.csv"]) = None.
Proof.
  assert (In "/old/log8.csv" ["/old/log1.csv"; "/old/log8.csv"]) as Hin
    by (right; left; reflexivity).
  assert (value (create_point_layer archive "/old/log8.csv") = Raise TypeError) as He
    by (vm_compute; reflexivity).
  exact (proj2 (layer_exception_aborts_run archive _ "/old/log8.csv" TypeError Hin He)).
Defined.

(** ** Returned layers *)

(** X8.  A layer [create_point_layer] returns is never empty, and each
    of its markers sits at a numeric latitude within [-90, 90] and a
    numeric longitude within [-180, 180] and is drawn, outline and fill,
    in the colour lines 40-43 give a number: the missing-value colour
    of the colour map never occurs. *)
Theorem markers_within_ranges (fs : gmap string DataFrame) (csv_file : string)
    (layer : FeatureGroup) :
  value (create_point_layer fs csv_file) = Return (Some layer) ->
  children layer <> []
  /\ Forall (λ m, numeric_within (-90) 90 (fst (location m))
                  /\ numeric_within (-180) 180 (snd (location m))
                  /\ exists snr, marker_color m = color snr /\ fill_color m = color snr)
            (children layer).
Proof.
  intros H. destruct (layer_Return _ _ _ H) as (df & _ & Hne & Hall).
  split; [exact Hne|]. eapply Forall_impl; [exact Hall|].
  intros m (r & r' & _ & Hacc & Hsame & Hm). cbn beta.
  apply marker_of_Return in Hm as (Hloc & Hcol & Hfill & _).
  pose proof (accepts_parts _ Hacc) as (_ & Hna & _).
  apply accepts_spec in Hacc as (_ & _ & Hlat & Hlong).
  rewrite Hloc. cbn [fst snd].
  split; [exact (numeric_within_same_value _ _ _ _ (Hsame "rx lat" ltac:(cbn; auto)) Hlat)|].
  split; [exact (numeric_within_same_value _ _ _ _ (Hsame "rx long" ltac:(cbn; auto)) Hlong)|].
  assert (is_nan (cell_at "rx snr" r') = false) as Hnan.
  { rewrite (is_nan_same_value _ _ (Hsame "rx snr" ltac:(cbn; auto))).
    apply (has_na_false REQUIRED); [exact Hna | cbn; auto]. }
  rewrite Hfill.
  destruct (cell_at "rx snr" r') as [|z|q|t]; try discriminate;
    cbn in Hcol; injection Hcol as <-; eauto.
Qed.

Lemma markers_within_ranges_witness :
  value (create_point_layer directory "/data/log1.csv") = Return (Some log1_layer)
  /\ children log1_layer <> [].
Proof.
  assert (value (create_point_layer directory "/data/log1.csv")
          = Return (Some log1_layer)) as H by (vm_compute; reflexivity).
  split; [exact H|].
  exact (proj1 (markers_within_ranges directory "/data/log1.csv" log1_layer H)).
Defined.

(** X9.  The layer of a source at path [dir/file] is named [file]: the
    directory part of the path never shows in a layer name. *)
Theorem layer_name_is_file_name (fs : gmap string DataFrame) (dir file : string)
    (layer : FeatureGroup) :
  has_slash file = false ->
  value (create_point_layer fs (dir +:+ "/" +:+ file)) = Return (Some layer) ->
  name layer = file /\ has_slash (name layer) = false.
Proof.
  intros Hfile H.
  destruct (create_point_layer_outcome _ _ _ H) as [Hname _].
  destruct (has_accepted fs (dir +:+ "/" +:+ file)); [|discriminate Hname].
  cbn in Hname. injection Hname as ->.
  rewrite (basename_join _ _ Hfile). split; [reflexivity | exact Hfile].
Qed.

Lemma layer_name_is_file_name_witness :
  name log1_layer = "log1.csv".
Proof.
  assert (has_slash "log1.csv" = false) as Hfile by reflexivity.
  assert (value (create_point_layer directory ("/data" +:+ "/" +:+ "log1.csv"))
          = Return (Some log1_layer)) as H by (vm_compute; reflexivity).
  exact (proj1 (layer_name_is_file_name directory "/data" "log1.csv" log1_layer Hfile H)).
Defined.

(** ** Runs and the script *)

(** X10.  The point layers of a run that saves its map are those of the
    sources that have an accepted row, one per such source, in the order
    of the source list and named by the files' base names. *)
Theorem layers_follow_sources (fs : gmap string DataFrame) (csv_files : list string)
    (out : string) (artifact : Artifact) :
  value (create_map_with_layers fs csv_files out) = Return artifact ->
  map name (layers (content artifact))
  = map basename (List.filter (has_accepted fs) csv_files)
  /\ (length (layers (content artifact)) <= length csv_files)%nat.
Proof.
  intros H. apply create_map_with_layers_stdout in H as (_ & Hls & _).
  apply add_layers_outcome in Hls as [Hnames _].
  split; [exact Hnames|].
  rewrite <- (length_map name), Hnames, length_map. apply List.filter_length_le.
Qed.

Lemma layers_follow_sources_witness :
  exists artifact,
    value (create_map_with_layers directory ["/data/log3.csv"; "/data/log1.csv"]
             "rangetest-map.html") = Return artifact
    /\ map name (layers (content artifact))
       = map basename (List.filter (has_accepted directory)
                         ["/data/log3.csv"; "/data/log1.csv"]).
Proof.
  assert (exists artifact,
            value (create_map_with_layers directory ["/data/log3.csv"; "/data/log1.csv"]
                     "rangetest-map.html") = Return artifact) as [artifact H]
    by (vm_compute; eexists; reflexivity).
  exists artifact. split; [exact H|].
  exact (proj1 (layers_follow_sources directory _ _ artifact H)).
Defined.

(** X11.  A run that saves its map has printed one skip message for
    each source without an accepted row, in the order of the source
    list, and nothing else. *)
Theorem diagnostics_follow_sources (fs : gmap string DataFrame)
    (csv_files : list string) (out : string) (artifact : Artifact) :
  value (create_map_with_layers fs csv_files out) = Return artifact ->
  stdout (create_map_with_layers fs csv_files out)
  = map no_data_message (List.filter (λ f, negb (has_accepted fs f)) csv_files).
Proof.
  intros H. apply create_map_with_layers_stdout in H as (-> & Hls & _).
  apply add_layers_outcome in Hls as [_ Hout]. exact Hout.
Qed.

Lemma diagnostics_follow_sources_witness :
  stdout (create_map_with_layers directory ["/data/log3.csv"; "/data/log1.csv"]
            "rangetest-map.html")
  = map no_data_message
      (List.filter (λ f, negb (has_accepted directory f))
         ["/data/log3.csv"; "/data/log1.csv"]).
Proof.
  assert (exists artifact,
            value (create_map_with_layers directory ["/data/log3.csv"; "/data/log1.csv"]
                     "rangetest-map.html") = Return artifact) as [artifact H]
    by (vm_compute; eexists; reflexivity).
  exact (diagnostics_follow_sources directory _ _ artifact H).
Defined.

(** X12.  The guard of line 161 is what keeps [csv_files[0]] from
    failing: [create_map_with_layers] on an empty list raises
    [IndexError], and the script never ends in one. *)
Theorem no_index_error (fs : gmap string DataFrame) :
  (forall out, value (create_map_with_layers fs [] out) = Raise IndexError)
  /\ forall csv_files, exit_status (main fs csv_files) <> Traceback IndexError.
Proof.
  split; [reflexivity|].
  intros csv_files H. destruct csv_files as [|f rest]; [discriminate H|].
  unfold main in H.
  destruct (value (create_map_with_layers fs (f :: rest) "rangetest-map.html"))
    as [artifact|e] eqn:E; [discriminate H|].
  cbn in H. injection H as ->.
  apply create_map_with_layers_Raise in E; [exact (E eq_refl) | discriminate].
Qed.

(** X14.  Over readable sources that are clean and have no missing
    coordinate or SNR, the first of them with a row, the script
    completes: it prints the skip messages of the sources without an
    accepted row and then its closing line, and writes the map under
    the name [rangetest-map.html], with a numeric centre and no missing
    value among the heat samples. *)
Theorem main_completes_on_complete_sources (fs : gmap string DataFrame)
    (f : string) (rest : list string) (df : DataFrame) (dfs : list DataFrame) :
  Forall2 (λ f df, fs !! f = Some df) (f :: rest) (df :: dfs) ->
  Forall complete (df :: dfs) ->
  rows df <> [] ->
  exists artifact,
    main fs (f :: rest)
    = mkProcess
        (map no_data_message
             (List.filter (λ f, negb (has_accepted fs f)) (f :: rest))
         ++ ["Map with layers has been generated and can be viewed in 'rangetest-map.html'."])%list
        Completed (Some artifact)
    /\ output_file artifact = "rangetest-map.html"
    /\ is_nan (fst (map_location (content artifact))) = false
    /\ is_nan (snd (map_location (content artifact))) = false
    /\ Forall (λ h, is_nan (fst (fst h)) = false /\ is_nan (snd (fst h)) = false
                    /\ is_nan (snd h) = false)
              (heat_data (content artifact)).
Proof.
  intros Hread Hall Hrows.
  destruct (create_map_with_layers_total fs (f :: rest) df dfs "rangetest-map.html"
              Hread Hall Hrows) as [artifact H].
  exists artifact.
  destruct (create_map_with_layers_stdout _ _ _ _ H) as (Hout & Hls & Hname).
  apply add_layers_outcome in Hls as [_ Hprinted].
  split; [unfold main; rewrite H, Hout, Hprinted; reflexivity|].
  split; [exact Hname|].
  apply create_map_with_layers_Return in H
    as (f0 & rest0 & df0 & lat & long & mlat & mlong & df_list & ls
        & Hfiles & Hfs0 & Hglat & Hmlat & Hglong & Hmlong & Hlist & _ & ->).
  injection Hfiles as <- <-.
  assert (df0 = df) as ->.
  { pose proof (Forall2_cons_1 _ _ _ _ _ Hread) as [Hf _]. congruence. }
  rewrite (mapM_read_csv _ _ _ Hread) in Hlist. injection Hlist as <-.
  apply getitem_Return in Hglat as [_ ->]. apply getitem_Return in Hglong as [_ ->].
  cbn [content map_location heat_data fst snd].
  destruct (rows df) as [|r l] eqn:E; [contradiction|].
  assert (In r (rows df)) as Hr by (rewrite E; left; reflexivity).
  pose proof (Forall_inv Hall) as Hdf.
  split.
  { apply (mean_number _ _ Hmlat).
    destruct (complete_row df r "rx lat" Hdf Hr) as [_ [x Hx]]; [auto|].
    exists (cell_at "rx lat" r), x. split; [left; reflexivity | exact Hx]. }
  split.
  { apply (mean_number _ _ Hmlong).
    destruct (complete_row df r "rx long" Hdf Hr) as [_ [x Hx]]; [auto|].
    exists (cell_at "rx long" r), x. split; [left; reflexivity | exact Hx]. }
  apply heat_samples_complete. exact Hall.
Qed.

Lemma main_completes_on_complete_sources_witness :
  exists artifact,
    written (main directory ["/data/log1.csv"; "/data/log3.csv"]) = Some artifact
    /\ output_file artifact = "rangetest-map.html".
Proof.
  assert (Forall complete [log1; log3]) as Hall.
  { constructor; [exact log1_complete|]. constructor; [exact log3_complete|constructor]. }
  assert (rows log1 <> []) as Hne by discriminate.
  assert (Forall2 (λ f df, directory !! f = Some df)
            ["/data/log1.csv"; "/data/log3.csv"] [log1; log3]) as Hread.
  { constructor; [vm_compute; reflexivity|].
    constructor; [vm_compute; reflexivity|constructor]. }
  destruct (main_completes_on_complete_sources directory "/data/log1.csv"
              ["/data/log3.csv"] log1 [log3] Hread Hall Hne)
    as (artifact & Hmain & Hname & _).
  exists artifact. split; [rewrite Hmain; reflexivity | exact Hname].
Defined.

(** ** The heartbeat pattern *)

(** X15.  The heartbeat pattern is searched anywhere in the payload:
    text before or after a match does not undo it, and a payload of
    ASCII characters with no digit among them never matches. *)
Theorem pattern_anywhere (s : string) :
  (re_search s = true -> forall pre post, re_search (pre +:+ s +:+ post) = true)
  /\ (ascii_text s = true ->
      (forall a, In a (list_ascii_of_string s) -> is_digit a = false) ->
      re_search s = false).
Proof.
  split.
  - intros H pre post. apply re_search_prefix, re_search_suffix, H.
  - intros _ Hno. destruct (re_search s) eqn:E; [|reflexivity].
    apply re_search_spec in E as (pre & ds & post & Hne & Hds & ->).
    destruct ds as [|d ds]; [contradiction|].
    assert (is_digit d = true) as Hd by (apply Hds; left; reflexivity).
    rewrite Hno in Hd; [discriminate Hd|].
    clear. induction pre as [|c pre IH]; [|right; exact IH].
    right. right. right. right. left. reflexivity.
Qed.

Lemma pattern_anywhere_witness :
  re_search ("hello " +:+ "seq 1" +:+ " world") = true.
Proof.
  assert (re_search "seq 1" = true) as H by reflexivity.
  exact (proj1 (pattern_anywhere "seq 1") H "hello " " world").
Defined.
